(** * Connection engine of the desktop VPN client

    A shallow embedding of three classes of the connection engine:

    - [AutoConnSettingsPolicy] (autoconnsettingspolicy.cpp): the attempt plan of
      the automatic connection mode, its cursor and the IKEv2 failure counter;
    - [WireGuardConnection] (wireguardconnection_win.cpp): the Windows WireGuard
      connection thread, its slots and its event loop;
    - [TestVPNTunnel] (testvpntunnel.cpp): the tunnel tests run once a tunnel
      is up.

    Qt objects are records, slots are functions from a state to a new state and
    the list of signals and calls they issue, [QSettings] is a finite map. *)

From Stdlib Require Import ZArith Lia Sorted.
From stdpp Require Import base option list strings gmap.

Open Scope string_scope.
Open Scope list_scope.

(** ** Shared types (types/protocol.h, types/portmap.h) *)

Module types.

(** Modelled from the spec: the class [PROTOCOL] is declared in a header that is
    not among the sources.  The spec gives it as an enumeration of OpenVPN-UDP,
    OpenVPN-TCP, IKEv2, WireGuard and the stunnel and wstunnel wrappings, with a
    derived predicate "is IKEv2"; the code adds the value a default-constructed
    [PROTOCOL] holds, [PROTOCOL::UNINITIALIZED]. *)
Inductive PROTOCOL : Set :=
| OPENVPN_UDP
| OPENVPN_TCP
| STUNNEL
| WSTUNNEL
| WIREGUARD
| IKEV2
| UNINITIALIZED.

#[global] Instance PROTOCOL_eq_dec : EqDecision PROTOCOL.
Proof. solve_decision. Defined.

(** Modelled from the spec: [PROTOCOL::isIkev2Protocol], the derived predicate
    "is IKEv2". *)
Definition isIkev2Protocol (p : PROTOCOL) : bool := bool_decide (p = IKEV2).

(** [types::PortItem]: a protocol and its candidate ports, in order. *)
Record PortItem : Set := {
  protocol : PROTOCOL;
  ports : list Z
}.

(** [types::PortMap]; the list is what [items()] returns. *)
Definition PortMap : Set := list PortItem.

End types.

(** ** AutoConnSettingsPolicy *)

Module AutoConnSettingsPolicy.
Import types.

(** The part of [locationsmodel::MutableLocationInfo] the policy calls.  The
    class itself is not among the sources, so it stays an interface. *)
Class LocationInfo (L : Type) := {
  nodesCount : L -> nat;
  selectNextNode : L -> L;
  isStaticIpsLocation : L -> bool;
  getIpForSelectedNode : L -> Z -> string;
  getHostnameForSelectedNode : L -> string;
  getDnsName : L -> string;
  getWgPubKeyForSelectedNode : L -> string;
  getVerifyX509name : L -> string;
  getStaticIpUsername : L -> string;
  getStaticIpPassword : L -> string;
  getStaticIpPorts : L -> list Z;
  getWgIpForSelectedNode : L -> string
}.

Record AttemptInfo : Set := {
  protocol : PROTOCOL;
  portMapInd : nat;
  changeNode : bool
}.

Definition setChangeNode (b : bool) (a : AttemptInfo) : AttemptInfo :=
  {| protocol := protocol a; portMapInd := portMapInd a; changeNode := b |}.

Inductive CONNECTION_NODE_TYPE : Set :=
| CONNECTION_NODE_DEFAULT
| CONNECTION_NODE_STATIC_IPS.

Record CurrentConnectionDescr : Set := {
  connectionNodeType : CONNECTION_NODE_TYPE;
  ccd_protocol : PROTOCOL;
  port : Z;
  ip : string;
  hostname : string;
  dnsHostName : string;
  wgPeerPublicKey : string;
  verifyX509name : string;
  username : string;
  password : string;
  staticIpPorts : list Z
}.

(** What outlives a policy object: the static member [failedIkev2Counter_]
    (process memory) and the [QSettings] store (disk).  A stored value is the
    [QString] that was streamed into the byte array; the [QDataStream] framing
    around it is read back by the same stream operator and is left out. *)
Record World : Set := {
  failedIkev2Counter_ : Z;
  settings : gmap string string
}.

(** Line 8: the static initialiser, run once per process. *)
Definition failedIkev2Counter_initial : Z := 0.

(** A new process starts with the static member initialised again and with the
    settings the previous process left on disk. *)
Definition processRestart (w : World) : World :=
  {| failedIkev2Counter_ := failedIkev2Counter_initial; settings := settings w |}.

Definition successConnectionProtocol : string := "successConnectionProtocol".

Section Policy.

Context {L : Type} `{LocationInfo L}.

(** Declared in headers that are not among the sources. *)
Variable MAX_IKEV2_FAILED_ATTEMPTS : Z.
Variable toLongString : PROTOCOL -> string.
Variable fromString : string -> PROTOCOL.
Variable getUseIpInd : PortMap -> PROTOCOL -> Z.

Record Policy : Type := {
  attemps_ : list AttemptInfo;
  curAttempt_ : nat;
  bIsAllFailed_ : bool;
  isFailedIkev2CounterAlreadyIncremented_ : bool;
  portMap_ : PortMap;
  locationInfo_ : L;
  (* member of the base class, set by its start() *)
  bStarted_ : bool
}.

(** Lines 37-46. *)
Definition lastSuccessProtocolSaved (w : World) : PROTOCOL :=
  match settings w !! successConnectionProtocol with
  | Some strProtocol => fromString strProtocol
  | None => UNINITIALIZED
  end.

(** Lines 50-70: the loop over the port map, [portMapInd] running along. *)
Fixpoint buildLocalAttemps (isProxyEnabled : bool) (failedIkev2Counter : Z)
    (items : list PortItem) (portMapInd : nat) : list AttemptInfo :=
  match items with
  | [] => []
  | item :: rest =>
      if isProxyEnabled && bool_decide (types.protocol item = OPENVPN_UDP) then
        buildLocalAttemps isProxyEnabled failedIkev2Counter rest (S portMapInd)
      else if (MAX_IKEV2_FAILED_ATTEMPTS <=? failedIkev2Counter)%Z
                && isIkev2Protocol (types.protocol item) then
        buildLocalAttemps isProxyEnabled failedIkev2Counter rest (S portMapInd)
      else
        {| protocol := types.protocol item;
           portMapInd := portMapInd;
           changeNode := false |}
        :: buildLocalAttemps isProxyEnabled failedIkev2Counter rest (S portMapInd)
  end.

(** Lines 72-75. *)
Definition markLast (localAttemps : list AttemptInfo) : list AttemptInfo :=
  if bool_decide (0 < length localAttemps) then
    alter (setChangeNode true) (length localAttemps - 1) localAttemps
  else localAttemps.

(** Lines 83-92: the index of the first attempt with the saved protocol. *)
Fixpoint findProtocol (saved : PROTOCOL) (localAttemps : list AttemptInfo)
    (i : nat) : option nat :=
  match localAttemps with
  | [] => None
  | a :: rest =>
      if bool_decide (protocol a = saved) then Some i
      else findProtocol saved rest (S i)
  end.

(** [QVector::insert(i, value)]. *)
Definition insertAt (i : nat) (a : AttemptInfo) (l : list AttemptInfo)
    : list AttemptInfo :=
  take i l ++ a :: drop i l.

(** Lines 79-104. *)
Definition moveSavedFirst (saved : PROTOCOL) (localAttemps : list AttemptInfo)
    : list AttemptInfo :=
  if bool_decide (saved ≠ UNINITIALIZED) then
    match findProtocol saved localAttemps 0 with
    | Some i =>
        match localAttemps !! i with
        | Some firstAttemptInfo =>
            let removed := delete i localAttemps in
            match removed with
            | first :: _ =>
                if isIkev2Protocol (protocol first)
                then insertAt 1 firstAttemptInfo removed
                else insertAt 0 firstAttemptInfo removed
            | [] => insertAt 0 firstAttemptInfo removed
            end
        | None => localAttemps
        end
    | None => localAttemps
    end
  else localAttemps.

(** Lines 107-110. *)
Fixpoint copyPerNode (nodes : nat) (attemps localAttemps : list AttemptInfo)
    : list AttemptInfo :=
  match nodes with
  | O => attemps
  | S nodes' => copyPerNode nodes' (attemps ++ localAttemps) localAttemps
  end.

(** The list called [localAttemps] when line 106 is reached. *)
Definition sortedLocalAttemps (w : World) (portMap : PortMap)
    (isProxyEnabled : bool) : list AttemptInfo :=
  moveSavedFirst (lastSuccessProtocolSaved w)
    (markLast (buildLocalAttemps isProxyEnabled (failedIkev2Counter_ w) portMap 0)).

(** The constructor, lines 10-114.  [bStarted] is what the base class
    constructor leaves in [bStarted_]. *)
Definition construct (w : World) (bStarted : bool) (bli : L) (portMap : PortMap)
    (isProxyEnabled : bool) : Policy :=
  let localAttemps := sortedLocalAttemps w portMap isProxyEnabled in
  let attemps := copyPerNode (nodesCount bli) [] localAttemps in
  {| attemps_ := attemps ++ attemps;
     curAttempt_ := 0;
     bIsAllFailed_ := false;
     isFailedIkev2CounterAlreadyIncremented_ := false;
     portMap_ := portMap;
     locationInfo_ := bli;
     bStarted_ := bStarted |}.

Definition reset (p : Policy) : Policy :=
  {| attemps_ := attemps_ p;
     curAttempt_ := 0;
     bIsAllFailed_ := false;
     isFailedIkev2CounterAlreadyIncremented_ :=
       isFailedIkev2CounterAlreadyIncremented_ p;
     portMap_ := portMap_ p;
     locationInfo_ := locationInfo_ p;
     bStarted_ := bStarted_ p |}.

(** Lines 128-153.  [attemps_[curAttempt_]] has no defined value past the end of
    the vector: the result is [None] there. *)
Definition putFailedConnection (wp : World * Policy) : option (World * Policy) :=
  let (w, p) := wp in
  if negb (bStarted_ p) then Some (w, p)
  else
    cur ← attemps_ p !! curAttempt_ p;
    let incr :=
      isIkev2Protocol (protocol cur)
      && negb (isFailedIkev2CounterAlreadyIncremented_ p) in
    let w' :=
      if incr
      then {| failedIkev2Counter_ := (failedIkev2Counter_ w + 1)%Z;
              settings := settings w |}
      else w in
    let already := if incr then true else isFailedIkev2CounterAlreadyIncremented_ p in
    if bool_decide (curAttempt_ p < length (attemps_ p) - 1) then
      Some (w',
            {| attemps_ := attemps_ p;
               curAttempt_ := S (curAttempt_ p);
               bIsAllFailed_ := bIsAllFailed_ p;
               isFailedIkev2CounterAlreadyIncremented_ := already;
               portMap_ := portMap_ p;
               locationInfo_ :=
                 if changeNode cur then selectNextNode (locationInfo_ p)
                 else locationInfo_ p;
               bStarted_ := bStarted_ p |})
    else
      Some (w',
            {| attemps_ := attemps_ p;
               curAttempt_ := curAttempt_ p;
               bIsAllFailed_ := true;
               isFailedIkev2CounterAlreadyIncremented_ := already;
               portMap_ := portMap_ p;
               locationInfo_ := locationInfo_ p;
               bStarted_ := bStarted_ p |}).

(** Lines 155-162. *)
Definition isFailed (p : Policy) : bool :=
  if negb (bStarted_ p) then false else bIsAllFailed_ p.

(** [n] calls of [putFailedConnection] in a row. *)
Fixpoint putFailedConnections (n : nat) (wp : World * Policy)
    : option (World * Policy) :=
  match n with
  | O => Some wp
  | S n' => wp' ← putFailedConnection wp; putFailedConnections n' wp'
  end.

(** Lines 164-195.  The three subscripts are read in the order of the code; any
    of them past the end gives [None]. *)
Definition getCurrentConnectionSettings (p : Policy)
    : option CurrentConnectionDescr :=
  cur ← attemps_ p !! curAttempt_ p;
  item ← portMap_ p !! portMapInd cur;
  port0 ← types.ports item !! 0;
  let li := locationInfo_ p in
  let useIpInd := getUseIpInd (portMap_ p) (protocol cur) in
  let static := isStaticIpsLocation li in
  Some
    {| connectionNodeType :=
         if static then CONNECTION_NODE_STATIC_IPS else CONNECTION_NODE_DEFAULT;
       ccd_protocol := protocol cur;
       port := port0;
       ip :=
         if static && bool_decide (protocol cur = WIREGUARD)
         then getWgIpForSelectedNode li
         else getIpForSelectedNode li useIpInd;
       hostname := getHostnameForSelectedNode li;
       dnsHostName := getDnsName li;
       wgPeerPublicKey := getWgPubKeyForSelectedNode li;
       verifyX509name := getVerifyX509name li;
       username := if static then getStaticIpUsername li else "";
       password := if static then getStaticIpPassword li else "";
       staticIpPorts := if static then getStaticIpPorts li else [] |}.

(** Lines 197-215. *)
Definition saveCurrentSuccessfullConnectionSettings (w : World) (p : Policy)
    : option World :=
  cur ← attemps_ p !! curAttempt_ p;
  let counter :=
    if isIkev2Protocol (protocol cur) then 0%Z else failedIkev2Counter_ w in
  Some {| failedIkev2Counter_ := counter;
          settings :=
            <[successConnectionProtocol := toLongString (protocol cur)]>
              (settings w) |}.

(** The two tests of lines 53 and 58, as one predicate on a port map entry:
    [true] when neither [continue] is taken. *)
Definition eligible (isProxyEnabled : bool) (failedIkev2Counter : Z)
    (item : PortItem) : bool :=
  negb (isProxyEnabled && bool_decide (types.protocol item = OPENVPN_UDP))
  && negb ((MAX_IKEV2_FAILED_ATTEMPTS <=? failedIkev2Counter)%Z
           && isIkev2Protocol (types.protocol item)).

End Policy.

(** *** An instance of the parameters

    Used to run the definitions above on concrete port maps. *)

(** A location reduced to its number of nodes and the index of the selected
    one. *)
Record SampleLocation : Set := {
  sample_nodes : nat;
  sample_selected : nat
}.

#[global] Instance SampleLocation_info : LocationInfo SampleLocation := {
  nodesCount l := sample_nodes l;
  selectNextNode l :=
    {| sample_nodes := sample_nodes l; sample_selected := S (sample_selected l) |};
  isStaticIpsLocation _ := false;
  getIpForSelectedNode _ _ := "";
  getHostnameForSelectedNode _ := "";
  getDnsName _ := "";
  getWgPubKeyForSelectedNode _ := "";
  getVerifyX509name _ := "";
  getStaticIpUsername _ := "";
  getStaticIpPassword _ := "";
  getStaticIpPorts _ := [];
  getWgIpForSelectedNode _ := ""
}.

Definition sample_toLongString (p : PROTOCOL) : string :=
  match p with
  | OPENVPN_UDP => "UDP"
  | OPENVPN_TCP => "TCP"
  | STUNNEL => "Stealth"
  | WSTUNNEL => "WStunnel"
  | WIREGUARD => "WireGuard"
  | IKEV2 => "IKEv2"
  | UNINITIALIZED => "uninitialized"
  end.

Definition sample_fromString (s : string) : PROTOCOL :=
  if bool_decide (s = "UDP") then OPENVPN_UDP
  else if bool_decide (s = "TCP") then OPENVPN_TCP
  else if bool_decide (s = "Stealth") then STUNNEL
  else if bool_decide (s = "WStunnel") then WSTUNNEL
  else if bool_decide (s = "WireGuard") then WIREGUARD
  else if bool_decide (s = "IKEv2") then IKEV2
  else UNINITIALIZED.

Definition sample_getUseIpInd (_ : PortMap) (_ : PROTOCOL) : Z := 0.

(** The protocols the proxy rule would have to drop if it went by transport:
    OpenVPN over UDP, IKEv2 and WireGuard all run over UDP. *)
Definition udpTransported (p : PROTOCOL) : bool :=
  match p with
  | OPENVPN_UDP | IKEV2 | WIREGUARD => true
  | _ => false
  end.

(** One node, nothing saved, no IKEv2 failure so far. *)
Definition sample_location : SampleLocation :=
  {| sample_nodes := 1; sample_selected := 0 |}.

Definition sample_world : World :=
  {| failedIkev2Counter_ := 0; settings := ∅ |}.

(** The last success was WireGuard. *)
Definition sample_world_wireguard : World :=
  {| failedIkev2Counter_ := 0;
     settings := {[ successConnectionProtocol := "WireGuard" ]} |}.

(** Two IKEv2 failures so far, nothing saved. *)
Definition sample_world_two_failures : World :=
  {| failedIkev2Counter_ := 2; settings := ∅ |}.

Definition sample_portMap_tcp : PortMap :=
  [ {| types.protocol := OPENVPN_TCP; ports := [443; 1194]%Z |} ].

Definition sample_portMap_wireguard : PortMap :=
  [ {| types.protocol := WIREGUARD; ports := [51820]%Z |} ].

Definition sample_portMap_three : PortMap :=
  [ {| types.protocol := IKEV2; ports := [500]%Z |};
    {| types.protocol := OPENVPN_UDP; ports := [443]%Z |};
    {| types.protocol := WIREGUARD; ports := [51820]%Z |} ].

(** A started policy for one OpenVPN-TCP entry with two ports. *)
Definition sample_policy_tcp : @Policy SampleLocation :=
  construct 4 sample_fromString sample_world true sample_location
    sample_portMap_tcp false.

(** A started policy whose plan is empty: the port map has no entry. *)
Definition sample_policy_empty : @Policy SampleLocation :=
  construct 4 sample_fromString sample_world true sample_location [] false.


(** Four IKEv2 failures so far, nothing saved. *)
Definition sample_world_four_failures : World :=
  {| failedIkev2Counter_ := 4; settings := ∅ |}.

(** A location with two nodes. *)
Definition sample_location_two_nodes : SampleLocation :=
  {| sample_nodes := 2; sample_selected := 0 |}.

(** A started policy for IKEv2, OpenVPN-UDP and WireGuard on two nodes. *)
Definition sample_policy_three : @Policy SampleLocation :=
  construct 4 sample_fromString sample_world true sample_location_two_nodes
    sample_portMap_three false.

(** The same policy before [start()]. *)
Definition sample_policy_not_started : @Policy SampleLocation :=
  construct 4 sample_fromString sample_world false sample_location_two_nodes
    sample_portMap_three false.

End AutoConnSettingsPolicy.

(** ** WireGuardConnection (Windows) *)

Module WireGuardConnection.

(** Modelled from the spec: the values of [CONNECT_ERROR] this class emits; the
    enumeration is declared in a header that is not among the sources. *)
Inductive CONNECT_ERROR : Set :=
| EXE_VERIFY_WIREGUARD_ERROR
| WIREGUARD_CONNECTION_ERROR
| WIREGUARD_ADAPTER_SETUP_FAILED
| STATE_TIMEOUT_FOR_AUTOMATIC.

#[global] Instance CONNECT_ERROR_eq_dec : EqDecision CONNECT_ERROR.
Proof. solve_decision. Defined.

(** Modelled from the spec: [IHelper::ExecuteError], of which the code tells
    success, verification failure and any other failure apart. *)
Inductive ExecuteError : Set :=
| EXECUTE_SUCCESS
| EXECUTE_VERIFY_ERROR
| EXECUTE_ERROR.

#[global] Instance ExecuteError_eq_dec : EqDecision ExecuteError.
Proof. solve_decision. Defined.

(** Modelled from the spec: [types::WireGuardState]; the code only asks whether
    the state is [ACTIVE]. *)
Inductive WireGuardState : Set :=
| ACTIVE
| NOT_ACTIVE.

#[global] Instance WireGuardState_eq_dec : EqDecision WireGuardState.
Proof. solve_decision. Defined.

Record WireGuardStatus : Set := {
  state : WireGuardState;
  lastHandshake : Z;
  bytesReceived : Z;
  bytesTransmitted : Z
}.

(** Service states of the Windows SDK (winsvc.h). *)
Definition SERVICE_STOPPED : Z := 1.
Definition SERVICE_START_PENDING : Z := 2.
Definition SERVICE_STOP_PENDING : Z := 3.
Definition SERVICE_RUNNING : Z := 4.

(** Signals emitted and calls made, in program order. *)
Inductive Output : Set :=
| connected
| error (e : CONNECT_ERROR)
| disconnected
| statisticsUpdated (received transmitted : Z)
| quit
| helper_stopWireGuard
| helper_enableDnsLeaksProtection
| helper_disableDnsLeaksProtection.

#[global] Instance Output_eq_dec : EqDecision Output.
Proof. solve_decision. Defined.

(** The object.  [isRunning] is [QThread::isRunning()]; [serviceOpen] is what
    [serviceCtrlManager_.isServiceOpen()] answers; [wireguardLog] tells whether
    [wireguardLog_] holds a logger. *)
Record WireGuardConnection : Set := {
  isRunning : bool;
  stopRequested_ : bool;
  connectedSignalEmited_ : bool;
  isAutomaticConnectionMode_ : bool;
  serviceOpen : bool;
  startStopRequestsBlocked : bool;
  wireguardLog : bool
}.

(** Lines 253-258: a thread that has not been started, a service control
    manager that has opened nothing, no logger. *)
Definition constructed : WireGuardConnection :=
  {| isRunning := false;
     stopRequested_ := false;
     connectedSignalEmited_ := false;
     isAutomaticConnectionMode_ := false;
     serviceOpen := false;
     startStopRequestsBlocked := false;
     wireguardLog := false |}.

(** Lines 292-298, once a previous run, if any, has been waited for. *)
Definition startConnect (isAutomaticConnectionMode : bool)
    (c : WireGuardConnection) : WireGuardConnection :=
  {| isRunning := true;
     stopRequested_ := false;
     connectedSignalEmited_ := false;
     isAutomaticConnectionMode_ := isAutomaticConnectionMode;
     serviceOpen := serviceOpen c;
     startStopRequestsBlocked := false;
     wireguardLog := wireguardLog c |}.

(** Lines 313-326.  [query] is the answer of [queryServiceStatus()], [None]
    when it throws [std::system_error]. *)
Definition isDisconnected (query : option Z) (c : WireGuardConnection) : bool :=
  let dwStatus :=
    if serviceOpen c then
      match query with
      | Some status => status
      | None => SERVICE_STOPPED
      end
    else SERVICE_STOPPED in
  bool_decide (dwStatus = SERVICE_STOPPED)
  || bool_decide (dwStatus = SERVICE_STOP_PENDING).

(** Lines 301-311. *)
Definition startDisconnect (query : option Z) (c : WireGuardConnection)
    : WireGuardConnection * list Output :=
  if isRunning c then
    ({| isRunning := isRunning c;
        stopRequested_ := true;
        connectedSignalEmited_ := connectedSignalEmited_ c;
        isAutomaticConnectionMode_ := isAutomaticConnectionMode_ c;
        serviceOpen := serviceOpen c;
        startStopRequestsBlocked := true;
        wireguardLog := wireguardLog c |}, [quit])
  else if isDisconnected query c then (c, [disconnected])
  else (c, []).

(** Lines 573-578. *)
Definition onTunnelConnected (c : WireGuardConnection)
    : WireGuardConnection * list Output :=
  ({| isRunning := isRunning c;
      stopRequested_ := stopRequested_ c;
      connectedSignalEmited_ := true;
      isAutomaticConnectionMode_ := isAutomaticConnectionMode_ c;
      serviceOpen := serviceOpen c;
      startStopRequestsBlocked := startStopRequestsBlocked c;
      wireguardLog := wireguardLog c |}, [connected]).

(** Lines 467-473. *)
Definition onCheckServiceRunning (query : option Z) (c : WireGuardConnection)
    : WireGuardConnection * list Output :=
  if isDisconnected query c then (c, [quit]) else (c, []).

(** What one poll of the ring log and of the system shows: the two flags of the
    logger after [getNewLogEntries()], the connectivity check, the status the
    helper returns, and the clock in seconds since the epoch. *)
Record LogPoll : Set := {
  isTunnelRunning : bool;
  handshakeFailed : bool;
  haveInternetConnectivity : option bool;
  getWireGuardStatus : option WireGuardStatus;
  currentSecsSinceEpoch : Z
}.

(** Lines 529-555. *)
Definition onWireguardHandshakeFailure (poll : LogPoll) : list Output :=
  match haveInternetConnectivity poll with
  | None => []
  | Some true =>
      match getWireGuardStatus poll with
      | Some status =>
          if bool_decide (state status = ACTIVE) && (0 <? lastHandshake status)%Z
          then
            let lastHandshakeSecs :=
              (lastHandshake status `quot` 10000000 - 11644473600)%Z in
            let secsTo := (currentSecsSinceEpoch poll - lastHandshakeSecs)%Z in
            if (3 * 60 <=? secsTo)%Z then [quit] else []
          else []
      | None => []
      end
  | Some false => [quit]
  end.

(** Lines 475-490. *)
Definition onGetWireguardLogUpdates (poll : LogPoll) (c : WireGuardConnection)
    : WireGuardConnection * list Output :=
  if wireguardLog c then
    let (c1, out1) :=
      if negb (connectedSignalEmited_ c) && isTunnelRunning poll
      then onTunnelConnected c else (c, []) in
    let out2 :=
      if isTunnelRunning poll && handshakeFailed poll
      then onWireguardHandshakeFailure poll else [] in
    (c1, out1 ++ out2)
  else (c, []).

(** Lines 492-509. *)
Definition onGetWireguardStats (status : option WireGuardStatus)
    (c : WireGuardConnection) : WireGuardConnection * list Output :=
  match status with
  | Some st =>
      if bool_decide (state st = ACTIVE) then
        let (c1, out1) :=
          if negb (connectedSignalEmited_ c) && (0 <? lastHandshake st)%Z
          then onTunnelConnected c else (c, []) in
        (c1, out1 ++ [statisticsUpdated (bytesReceived st) (bytesTransmitted st)])
      else (c, [])
  | None => (c, [])
  end.

(** Lines 511-517. *)
Definition onAutomaticConnectionTimeout (c : WireGuardConnection)
    : WireGuardConnection * list Output :=
  if negb (connectedSignalEmited_ c)
  then (c, [error STATE_TIMEOUT_FOR_AUTOMATIC; quit])
  else (c, []).

(** What the event loop of the thread delivers while [exec()] runs: a timeout of
    one of the four timers of [run()], or a [startDisconnect()] of the owner. *)
Inductive Event : Set :=
| timerGetWireguardStats (status : option WireGuardStatus)
| timerCheckServiceRunning (query : option Z)
| timerGetWireguardLogUpdates (poll : LogPoll)
| timerTimeoutForAutomatic
| ownerStartDisconnect.

Definition quitCalled (out : list Output) : bool :=
  bool_decide (quit ∈ out).

(** One event.  [timeoutPending] tells whether [timerTimeoutForAutomatic] exists
    and has not fired: the timer is created in automatic mode only (line 401)
    and is single-shot (line 403), so its timeout is delivered at most once. *)
Definition dispatch (timeoutPending : bool) (c : WireGuardConnection)
    (ev : Event) : bool * (WireGuardConnection * list Output) :=
  match ev with
  | timerGetWireguardStats status => (timeoutPending, onGetWireguardStats status c)
  | timerCheckServiceRunning query => (timeoutPending, onCheckServiceRunning query c)
  | timerGetWireguardLogUpdates poll => (timeoutPending, onGetWireguardLogUpdates poll c)
  | timerTimeoutForAutomatic =>
      if timeoutPending then (false, onAutomaticConnectionTimeout c)
      else (false, (c, []))
  | ownerStartDisconnect => (timeoutPending, startDisconnect None c)
  end.

(** [exec()]: slots run one after the other until one of them has called
    [quit()].  The last component tells whether the loop has returned; with the
    events used up and no [quit()] the thread is still inside [exec()]. *)
Fixpoint exec (timeoutPending : bool) (c : WireGuardConnection)
    (events : list Event) : WireGuardConnection * list Output * bool :=
  match events with
  | [] => (c, [], false)
  | ev :: rest =>
      let '(pending, (c1, out1)) := dispatch timeoutPending c ev in
      if quitCalled out1 then (c1, out1, true)
      else
        let '(c2, out2, returned) := exec pending c1 rest in
        (c2, out1 ++ out2, returned)
  end.

(** Results of the three calls of [startService()] (lines 557-571); the service
    handle is open once [openService] has returned. *)
Inductive StartService : Set :=
| openSCM_throws
| openService_throws
| startService_throws
| serviceStarted.

(** What the surroundings answer during one [run()]. *)
Record RunEnv : Set := {
  env_startWireGuard : ExecuteError;
  env_generateConfigFile : bool;
  env_startService : StartService;
  env_firstLogPoll : LogPoll;
  env_firstStats : option WireGuardStatus;
  env_events : list Event;
  env_finalStats : option WireGuardStatus;
  env_adapterSetupFailed : bool
}.

Definition setServiceOpen (b : bool) (c : WireGuardConnection)
    : WireGuardConnection :=
  {| isRunning := isRunning c;
     stopRequested_ := stopRequested_ c;
     connectedSignalEmited_ := connectedSignalEmited_ c;
     isAutomaticConnectionMode_ := isAutomaticConnectionMode_ c;
     serviceOpen := b;
     startStopRequestsBlocked := startStopRequestsBlocked c;
     wireguardLog := wireguardLog c |}.

Definition setWireguardLog (b : bool) (c : WireGuardConnection)
    : WireGuardConnection :=
  {| isRunning := isRunning c;
     stopRequested_ := stopRequested_ c;
     connectedSignalEmited_ := connectedSignalEmited_ c;
     isAutomaticConnectionMode_ := isAutomaticConnectionMode_ c;
     serviceOpen := serviceOpen c;
     startStopRequestsBlocked := startStopRequestsBlocked c;
     wireguardLog := b |}.

Definition threadFinished (c : WireGuardConnection) : WireGuardConnection :=
  {| isRunning := false;
     stopRequested_ := stopRequested_ c;
     connectedSignalEmited_ := connectedSignalEmited_ c;
     isAutomaticConnectionMode_ := isAutomaticConnectionMode_ c;
     serviceOpen := serviceOpen c;
     startStopRequestsBlocked := startStopRequestsBlocked c;
     wireguardLog := wireguardLog c |}.

(** Lines 376-427: the part of [run()] taken when the service has started.  The
    last component tells whether [exec()] has returned.  A [quit()] called
    before [exec()] is kept by [QThread], and [exec()] then returns at once. *)
Definition runStarted (env : RunEnv) (c : WireGuardConnection)
    : WireGuardConnection * list Output * bool :=
  let (c1, out1) := onGetWireguardLogUpdates (env_firstLogPoll env) c in
  let (c2, out2) :=
    if negb (connectedSignalEmited_ c1)
    then onGetWireguardStats (env_firstStats env) c1 else (c1, []) in
  let '(c3, out3, returned) :=
    if negb (stopRequested_ c2) then
      if quitCalled (out1 ++ out2) then (c2, [], true)
      else exec (isAutomaticConnectionMode_ c2) c2 (env_events env)
    else (c2, [], true) in
  let before := helper_enableDnsLeaksProtection :: out1 ++ out2 ++ out3 in
  if returned then
    let (c4, out4) := onGetWireguardStats (env_finalStats env) c3 in
    (c4, before ++ out4, true)
  else (c3, before, false).

(** Lines 328-465.  While the thread is inside [exec()] the result is the
    object and the outputs so far. *)
Definition run (env : RunEnv) (c : WireGuardConnection)
    : WireGuardConnection * list Output :=
  if bool_decide (env_startWireGuard env ≠ EXECUTE_SUCCESS) then
    (threadFinished c,
     [error (if bool_decide (env_startWireGuard env = EXECUTE_VERIFY_ERROR)
             then EXE_VERIFY_WIREGUARD_ERROR else WIREGUARD_CONNECTION_ERROR);
      disconnected])
  else if negb (env_generateConfigFile env) then
    (threadFinished (setServiceOpen false c),
     [error WIREGUARD_CONNECTION_ERROR; disconnected; helper_stopWireGuard])
  else
    let c0 := setWireguardLog true c in
    let c1 :=
      match env_startService env with
      | openSCM_throws | openService_throws => c0
      | startService_throws | serviceStarted => setServiceOpen true c0
      end in
    let started :=
      match env_startService env with serviceStarted => true | _ => false end in
    let '(c2, out2, returned) :=
      if started then runStarted env c1 else (c1, [], true) in
    if returned then
      let failure :=
        if env_adapterSetupFailed env then [error WIREGUARD_ADAPTER_SETUP_FAILED]
        else if negb started then [error WIREGUARD_CONNECTION_ERROR]
        else [] in
      (threadFinished (setWireguardLog false (setServiceOpen false c2)),
       out2 ++ [helper_stopWireGuard] ++ failure ++ [disconnected]
       ++ (if started then [helper_disableDnsLeaksProtection] else []))
    else (c2, out2).

(** The same surroundings with other events for [exec()]. *)
Definition withEvents (events : list Event) (env : RunEnv) : RunEnv :=
  {| env_startWireGuard := env_startWireGuard env;
     env_generateConfigFile := env_generateConfigFile env;
     env_startService := env_startService env;
     env_firstLogPoll := env_firstLogPoll env;
     env_firstStats := env_firstStats env;
     env_events := events;
     env_finalStats := env_finalStats env;
     env_adapterSetupFailed := env_adapterSetupFailed env |}.

(** Nothing to report on the log and no status from the helper. *)
Definition quietPoll : LogPoll :=
  {| isTunnelRunning := false;
     handshakeFailed := false;
     haveInternetConnectivity := Some true;
     getWireGuardStatus := None;
     currentSecsSinceEpoch := 0 |}.

(** The log shows the tunnel up. *)
Definition tunnelUpPoll : LogPoll :=
  {| isTunnelRunning := true;
     handshakeFailed := false;
     haveInternetConnectivity := Some true;
     getWireGuardStatus := None;
     currentSecsSinceEpoch := 0 |}.

(** A run in which the service starts and nothing is seen of the tunnel until
    the timer for the automatic mode runs out. *)
Definition sample_env_timeout : RunEnv :=
  {| env_startWireGuard := EXECUTE_SUCCESS;
     env_generateConfigFile := true;
     env_startService := serviceStarted;
     env_firstLogPoll := quietPoll;
     env_firstStats := None;
     env_events :=
       [timerGetWireguardLogUpdates quietPoll;
        timerCheckServiceRunning (Some SERVICE_RUNNING)]
       ++ timerTimeoutForAutomatic
          :: [timerGetWireguardLogUpdates tunnelUpPoll];
     env_finalStats := None;
     env_adapterSetupFailed := false |}.

(** A run in which the log shows the tunnel up before the timer runs out, and
    the owner disconnects later. *)
Definition sample_env_connected : RunEnv :=
  {| env_startWireGuard := EXECUTE_SUCCESS;
     env_generateConfigFile := true;
     env_startService := serviceStarted;
     env_firstLogPoll := quietPoll;
     env_firstStats := None;
     env_events :=
       [timerGetWireguardLogUpdates tunnelUpPoll]
       ++ timerTimeoutForAutomatic :: [ownerStartDisconnect];
     env_finalStats := None;
     env_adapterSetupFailed := false |}.

(** Sorting the outputs. *)
Definition is_connected (o : Output) : bool :=
  match o with connected => true | _ => false end.

Definition is_disconnected (o : Output) : bool :=
  match o with disconnected => true | _ => false end.

Definition is_error (o : Output) : bool :=
  match o with error _ => true | _ => false end.

(** The signals of [IConnection], as opposed to the calls. *)
Definition is_signal (o : Output) : bool :=
  match o with
  | connected | error _ | disconnected | statisticsUpdated _ _ => true
  | quit | helper_stopWireGuard | helper_enableDnsLeaksProtection
  | helper_disableDnsLeaksProtection => false
  end.

(** What the slots run by [exec()] may emit or call. *)
Definition from_slot (o : Output) : bool :=
  match o with
  | connected | statisticsUpdated _ _ | quit
  | error STATE_TIMEOUT_FOR_AUTOMATIC => true
  | _ => false
  end.

(** A run in which the owner disconnects after one quiet poll of the log. *)
Definition sample_env_stopped : RunEnv :=
  {| env_startWireGuard := EXECUTE_SUCCESS;
     env_generateConfigFile := true;
     env_startService := serviceStarted;
     env_firstLogPoll := quietPoll;
     env_firstStats := None;
     env_events := [timerGetWireguardLogUpdates quietPoll; ownerStartDisconnect];
     env_finalStats := None;
     env_adapterSetupFailed := false |}.

(** A run in which the helper cannot verify the executable. *)
Definition sample_env_verify_error : RunEnv :=
  {| env_startWireGuard := EXECUTE_VERIFY_ERROR;
     env_generateConfigFile := true;
     env_startService := serviceStarted;
     env_firstLogPoll := quietPoll;
     env_firstStats := None;
     env_events := [];
     env_finalStats := None;
     env_adapterSetupFailed := false |}.

(** The log shows the tunnel up and a failed handshake; the last handshake of
    the status was 200 seconds before the clock reading. *)
Definition stalePoll : LogPoll :=
  {| isTunnelRunning := true;
     handshakeFailed := true;
     haveInternetConnectivity := Some true;
     getWireGuardStatus :=
       Some {| state := ACTIVE;
               lastHandshake := (11644473600 + 1000) * 10000000;
               bytesReceived := 0;
               bytesTransmitted := 0 |};
     currentSecsSinceEpoch := 1200 |}.

Definition is_stopWireGuard (o : Output) : bool :=
  match o with helper_stopWireGuard => true | _ => false end.

Definition is_enableDnsLeaksProtection (o : Output) : bool :=
  match o with helper_enableDnsLeaksProtection => true | _ => false end.

Definition is_disableDnsLeaksProtection (o : Output) : bool :=
  match o with helper_disableDnsLeaksProtection => true | _ => false end.

(** Whether the helper, the configuration file and the service all came up. *)
Definition serviceCameUp (env : RunEnv) : bool :=
  bool_decide (env_startWireGuard env = EXECUTE_SUCCESS)
  && env_generateConfigFile env
  && match env_startService env with serviceStarted => true | _ => false end.

(** The error of a run in which the service does not come up. *)
Definition startupError (env : RunEnv) : CONNECT_ERROR :=
  match env_startWireGuard env with
  | EXECUTE_VERIFY_ERROR => EXE_VERIFY_WIREGUARD_ERROR
  | EXECUTE_ERROR => WIREGUARD_CONNECTION_ERROR
  | EXECUTE_SUCCESS =>
      if env_generateConfigFile env && env_adapterSetupFailed env
      then WIREGUARD_ADAPTER_SETUP_FAILED
      else WIREGUARD_CONNECTION_ERROR
  end.


(** Lines 519-522. *)
Definition getWireGuardExeName : string := "WireguardService".

(** Lines 524-527. *)
Definition getWireGuardAdapterName : string := "WireGuardTunnel".
End WireGuardConnection.

(** ** TestVPNTunnel *)

Module TestVPNTunnel.
Import types.

(** Modelled from the spec: [SERVER_API_RET_CODE], of which the code only tells
    [SERVER_RETURN_SUCCESS] from the rest (the transport errors). *)
Inductive SERVER_API_RET_CODE : Set :=
| SERVER_RETURN_SUCCESS
| SERVER_RETURN_NETWORK_ERROR.

#[global] Instance SERVER_API_RET_CODE_eq_dec : EqDecision SERVER_API_RET_CODE.
Proof. solve_decision. Defined.

(** The advanced parameters of [ExtraConfig]; [None] is a getter that sets
    [advParamExists] to false. *)
Record ExtraConfig : Set := {
  getTunnelTestStartDelay : option Z;
  getTunnelTestAttempts : option Z;
  getTunnelTestTimeout : option Z;
  getTunnelTestRetryDelay : option Z
}.

(** No override at all. *)
Definition noExtraConfig : ExtraConfig :=
  {| getTunnelTestStartDelay := None;
     getTunnelTestAttempts := None;
     getTunnelTestTimeout := None;
     getTunnelTestRetryDelay := None |}.

Inductive Slot : Set :=
| slot_startTestImpl
| slot_doNextPingTest
| slot_onTestsSkipped.

(** Calls and signals, in program order.  The third argument of
    [ServerAPI::pingTest] only throttles logging and is left out, together with
    [lastTimeForCallWithLog_]. *)
Inductive Output : Set :=
| pingTest (cmdId timeout : Z)
| cancelPingTest (cmdId : Z)
| testsFinished (bSuccess : bool) (ipAddress : string)
| singleShot (msec : Z) (slot : Slot).

(** The object.  [elapsed_] holds the clock reading at which the
    [QElapsedTimer] was started; [elapsedOverallTimer_] only feeds the log. *)
Record TestVPNTunnel : Set := {
  bRunning_ : bool;
  curTest_ : Z;
  cmdId_ : Z;
  doCustomTunnelTest_ : bool;
  timeouts_ : list Z;
  testRetryDelay_ : Z;
  elapsed_ : Z;
  protocol_ : PROTOCOL
}.

(** Lines 8-12. *)
Definition constructed : TestVPNTunnel :=
  {| bRunning_ := false;
     curTest_ := 1;
     cmdId_ := 0;
     doCustomTunnelTest_ := false;
     timeouts_ := [];
     testRetryDelay_ := 0;
     elapsed_ := 0;
     protocol_ := UNINITIALIZED |}.

Section Tests.

(** The enumerators of testvpntunnel.h, which is not among the sources. *)
Variable PING_TEST_TIMEOUT_1 : Z.
Variable PING_TEST_TIMEOUT_3 : Z.

(** [IpValidation::isIp] and [QString::trimmed]. *)
Variable isIp : string -> bool.
Variable trimmed : string -> string.

(** Lines 59-67: the timeouts when no timeout is configured. *)
Fixpoint growingTimeouts (attempts : nat) (timeout : Z) : list Z :=
  match attempts with
  | O => []
  | S attempts' =>
      timeout ::
        growingTimeouts attempts'
          (if (timeout <? PING_TEST_TIMEOUT_3)%Z then (timeout * 2)%Z else timeout)
  end.

(** [timeouts_[curTest_ - 1]]; no value outside the vector. *)
Definition currentTimeout (t : TestVPNTunnel) : option Z :=
  if (1 <=? curTest_ t)%Z then timeouts_ t !! Z.to_nat (curTest_ t - 1) else None.

(** [elapsed_.elapsed()] at the clock reading [now]. *)
Definition elapsed (now : Z) (t : TestVPNTunnel) : Z := (now - elapsed_ t)%Z.

(** Lines 95-103. *)
Definition stopTests (t : TestVPNTunnel) : TestVPNTunnel * list Output :=
  if bRunning_ t then
    ({| bRunning_ := false;
        curTest_ := curTest_ t;
        cmdId_ := cmdId_ t;
        doCustomTunnelTest_ := doCustomTunnelTest_ t;
        timeouts_ := timeouts_ t;
        testRetryDelay_ := testRetryDelay_ t;
        elapsed_ := elapsed_ t;
        protocol_ := protocol_ t |}, [cancelPingTest (cmdId_ t)])
  else (t, []).

(** Lines 39-93, run at the clock reading [now].  A slot runs to its end at one
    clock reading. *)
Definition startTestImpl (cfg : ExtraConfig) (now : Z) (t : TestVPNTunnel)
    : option (TestVPNTunnel * list Output) :=
  let attempts := default 3%Z (getTunnelTestAttempts cfg) in
  let custom1 := doCustomTunnelTest_ t || bool_decide (is_Some (getTunnelTestAttempts cfg)) in
  if bool_decide (attempts = 0%Z) then
    Some ({| bRunning_ := bRunning_ t;
             curTest_ := curTest_ t;
             cmdId_ := cmdId_ t;
             doCustomTunnelTest_ := custom1;
             timeouts_ := [];
             testRetryDelay_ := testRetryDelay_ t;
             elapsed_ := elapsed_ t;
             protocol_ := protocol_ t |},
          [singleShot 1 slot_onTestsSkipped])
  else
    let timeouts :=
      match getTunnelTestTimeout cfg with
      | None => growingTimeouts (Z.to_nat attempts) PING_TEST_TIMEOUT_1
      | Some timeout => replicate (Z.to_nat attempts) timeout
      end in
    let custom :=
      custom1
      || bool_decide (is_Some (getTunnelTestTimeout cfg))
      || bool_decide (is_Some (getTunnelTestRetryDelay cfg)) in
    let t' :=
      {| bRunning_ := true;
         curTest_ := 1;
         cmdId_ := (cmdId_ t + 1)%Z;
         doCustomTunnelTest_ := custom;
         timeouts_ := timeouts;
         testRetryDelay_ := default 0%Z (getTunnelTestRetryDelay cfg);
         elapsed_ := now;
         protocol_ := protocol_ t |} in
    timeout ← currentTimeout t';
    Some (t', [pingTest (cmdId_ t') timeout]).

(** Lines 18-37. *)
Definition startTests (cfg : ExtraConfig) (now : Z) (protocol : PROTOCOL)
    (t : TestVPNTunnel) : option (TestVPNTunnel * list Output) :=
  let (t1, out1) := stopTests t in
  let t2 :=
    {| bRunning_ := bRunning_ t1;
       curTest_ := curTest_ t1;
       cmdId_ := cmdId_ t1;
       doCustomTunnelTest_ := doCustomTunnelTest_ t1;
       timeouts_ := timeouts_ t1;
       testRetryDelay_ := testRetryDelay_ t1;
       elapsed_ := elapsed_ t1;
       protocol_ := protocol |} in
  match getTunnelTestStartDelay cfg with
  | Some delay => Some (t2, out1 ++ [singleShot delay slot_startTestImpl])
  | None =>
      '(t3, out3) ← startTestImpl cfg now t2;
      Some (t3, out1 ++ out3)
  end.

(** Lines 161-190. *)
Definition doNextPingTest (now : Z) (t : TestVPNTunnel)
    : option (TestVPNTunnel * list Output) :=
  if bRunning_ t && (1 <=? curTest_ t)%Z
     && (curTest_ t <=? Z.of_nat (length (timeouts_ t)))%Z then
    let t' :=
      {| bRunning_ := bRunning_ t;
         curTest_ := curTest_ t;
         cmdId_ := (cmdId_ t + 1)%Z;
         doCustomTunnelTest_ := doCustomTunnelTest_ t;
         timeouts_ := timeouts_ t;
         testRetryDelay_ := testRetryDelay_ t;
         elapsed_ := elapsed_ t;
         protocol_ := protocol_ t |} in
    timeout ← currentTimeout t';
    if doCustomTunnelTest_ t' then Some (t', [pingTest (cmdId_ t') timeout])
    else if (0 <? timeout - elapsed now t')%Z
    then Some (t', [pingTest (cmdId_ t') (timeout - elapsed now t')])
    else Some (t', [pingTest (cmdId_ t') 100])
  else Some (t, []).

Definition setRunning (b : bool) (t : TestVPNTunnel) : TestVPNTunnel :=
  {| bRunning_ := b;
     curTest_ := curTest_ t;
     cmdId_ := cmdId_ t;
     doCustomTunnelTest_ := doCustomTunnelTest_ t;
     timeouts_ := timeouts_ t;
     testRetryDelay_ := testRetryDelay_ t;
     elapsed_ := elapsed_ t;
     protocol_ := protocol_ t |}.

(** [curTest_++], and [elapsed_.start()] at [restart] when it is given. *)
Definition nextTest (restart : option Z) (t : TestVPNTunnel) : TestVPNTunnel :=
  {| bRunning_ := bRunning_ t;
     curTest_ := (curTest_ t + 1)%Z;
     cmdId_ := cmdId_ t;
     doCustomTunnelTest_ := doCustomTunnelTest_ t;
     timeouts_ := timeouts_ t;
     testRetryDelay_ := testRetryDelay_ t;
     elapsed_ := default (elapsed_ t) restart;
     protocol_ := protocol_ t |}.

(** Lines 105-159. *)
Definition onPingTestAnswer (now : Z) (retCode : SERVER_API_RET_CODE)
    (data : string) (t : TestVPNTunnel) : option (TestVPNTunnel * list Output) :=
  if bRunning_ t then
    let trimmedData := trimmed data in
    if bool_decide (retCode = SERVER_RETURN_SUCCESS) && isIp trimmedData then
      Some (setRunning false t, [testsFinished true trimmedData])
    else if doCustomTunnelTest_ t then
      if (curTest_ t <? Z.of_nat (length (timeouts_ t)))%Z then
        Some (nextTest None t, [singleShot (testRetryDelay_ t) slot_doNextPingTest])
      else Some (setRunning false t, [testsFinished false ""])
    else
      timeout ← currentTimeout t;
      if (elapsed now t <? timeout)%Z then
        Some (t, [singleShot 100 slot_doNextPingTest])
      else if (curTest_ t <? Z.of_nat (length (timeouts_ t)))%Z then
        doNextPingTest now (nextTest (Some now) t)
      else Some (setRunning false t, [testsFinished false ""])
  else Some (t, []).

(** Lines 193-197. *)
Definition onTestsSkipped (t : TestVPNTunnel) : TestVPNTunnel * list Output :=
  (t, [testsFinished true ""]).

(** What the event loop delivers to the object: a single-shot timer that has
    run out, or the queued [pingTestAnswer] of the server API; each with the
    clock reading at which the slot runs. *)
Inductive Event : Set :=
| timerShot (now : Z) (slot : Slot)
| pingTestAnswer (now : Z) (retCode : SERVER_API_RET_CODE) (data : string).

Definition dispatch (cfg : ExtraConfig) (t : TestVPNTunnel) (ev : Event)
    : option (TestVPNTunnel * list Output) :=
  match ev with
  | timerShot now slot_startTestImpl => startTestImpl cfg now t
  | timerShot now slot_doNextPingTest => doNextPingTest now t
  | timerShot _ slot_onTestsSkipped => Some (onTestsSkipped t)
  | pingTestAnswer now retCode data => onPingTestAnswer now retCode data t
  end.

(** The slots run for a list of events, outputs concatenated. *)
Fixpoint deliver (cfg : ExtraConfig) (t : TestVPNTunnel) (events : list Event)
    : option (TestVPNTunnel * list Output) :=
  match events with
  | [] => Some (t, [])
  | ev :: rest =>
      '(t1, out1) ← dispatch cfg t ev;
      '(t2, out2) ← deliver cfg t1 rest;
      Some (t2, out1 ++ out2)
  end.

(** The single-shot timers an output list has armed, each with the clock
    reading at which it runs out. *)
Fixpoint armedTimers (now : Z) (out : list Output) : list Event :=
  match out with
  | [] => []
  | singleShot msec slot :: rest => timerShot (now + msec) slot :: armedTimers now rest
  | _ :: rest => armedTimers now rest
  end.

(** The timeouts handed to [ServerAPI::pingTest], in call order. *)
Fixpoint pingTestTimeouts (out : list Output) : list Z :=
  match out with
  | [] => []
  | pingTest _ timeout :: rest => timeout :: pingTestTimeouts rest
  | _ :: rest => pingTestTimeouts rest
  end.

(** The [testsFinished] signals, in emission order. *)
Fixpoint testsFinishedSignals (out : list Output) : list (bool * string) :=
  match out with
  | [] => []
  | testsFinished bSuccess ipAddress :: rest =>
      (bSuccess, ipAddress) :: testsFinishedSignals rest
  | _ :: rest => testsFinishedSignals rest
  end.

(** [startTests] followed by the event loop: timers that were armed run out in
    turn (there is at most one armed at a time on the paths below), until none
    is left or [fuel] rounds have passed. *)
Fixpoint runTimers (fuel : nat) (cfg : ExtraConfig) (t : TestVPNTunnel)
    (pending : list Event) : option (TestVPNTunnel * list Output * list Event) :=
  match pending with
  | [] => Some (t, [], [])
  | ev :: rest =>
      match fuel with
      | O => Some (t, [], pending)
      | S fuel' =>
          '(t1, out1) ← dispatch cfg t ev;
          let now := match ev with timerShot now _ | pingTestAnswer now _ _ => now end in
          '(t2, out2, remaining) ← runTimers fuel' cfg t1 (rest ++ armedTimers now out1);
          Some (t2, out1 ++ out2, remaining)
      end
  end.

End Tests.

(** *** An instance of the parameters

    Used to run the definitions above on concrete replies. *)

Definition sample_isIp (s : string) : bool := bool_decide (s = "203.0.113.7").

Definition sample_trimmed (s : string) : string := s.

(** Only the number of attempts is overridden, with 0. *)
Definition sample_config_no_attempts : ExtraConfig :=
  {| getTunnelTestStartDelay := None;
     getTunnelTestAttempts := Some 0%Z;
     getTunnelTestTimeout := None;
     getTunnelTestRetryDelay := None |}.

(** Three replies, each a transport error that comes in when the time of its
    attempt is up: 2000, 4000 and 8000 ms. *)
Definition sample_replies_on_time : list Event :=
  [ pingTestAnswer 2000 SERVER_RETURN_NETWORK_ERROR "";
    pingTestAnswer 6000 SERVER_RETURN_NETWORK_ERROR "";
    pingTestAnswer 14000 SERVER_RETURN_NETWORK_ERROR "" ].

(** The same, after a first transport error that comes in 10 ms after the
    first call; the timer armed by the slot runs out 100 ms later. *)
Definition sample_replies_early_failure : list Event :=
  pingTestAnswer 10 SERVER_RETURN_NETWORK_ERROR ""
  :: timerShot 110 slot_doNextPingTest
  :: sample_replies_on_time.

(** *** Further notions for the properties *)

(** The reads of [timeouts_[curTest_ - 1]] that are not behind a bounds check
    are those of the default mode of a running test. *)
Definition timeoutInRange (t : TestVPNTunnel) : Prop :=
  bRunning_ t = true ->
  doCustomTunnelTest_ t = false ->
  (1 <= curTest_ t <= Z.of_nat (length (timeouts_ t)))%Z.

(** The command ids handed to [ServerAPI::pingTest], in call order. *)
Fixpoint pingTestIds (out : list Output) : list Z :=
  match out with
  | [] => []
  | pingTest cmdId _ :: rest => cmdId :: pingTestIds rest
  | _ :: rest => pingTestIds rest
  end.

(** The delays of the single-shot timers armed for [doNextPingTest]. *)
Fixpoint retryDelays (out : list Output) : list Z :=
  match out with
  | [] => []
  | singleShot msec slot_doNextPingTest :: rest => msec :: retryDelays rest
  | _ :: rest => retryDelays rest
  end.

(** The events of a test that is under way: replies, and timers for
    [doNextPingTest]. *)
Definition duringTest (ev : Event) : bool :=
  match ev with
  | pingTestAnswer _ _ _ | timerShot _ slot_doNextPingTest => true
  | timerShot _ _ => false
  end.

(** A reply, and the run-out of the timer armed for the next call. *)
Record Round : Set := {
  round_answered : Z;
  round_retCode : SERVER_API_RET_CODE;
  round_data : string;
  round_retried : Z
}.

Definition roundEvents (r : Round) : list Event :=
  [pingTestAnswer (round_answered r) (round_retCode r) (round_data r);
   timerShot (round_retried r) slot_doNextPingTest].

(** An override of attempts, timeout and retry delay. *)
Definition sample_config_custom : ExtraConfig :=
  {| getTunnelTestStartDelay := None;
     getTunnelTestAttempts := Some 4%Z;
     getTunnelTestTimeout := Some 1500%Z;
     getTunnelTestRetryDelay := Some 250%Z |}.

(** An override with a negative number of attempts. *)
Definition sample_config_negative : ExtraConfig :=
  {| getTunnelTestStartDelay := None;
     getTunnelTestAttempts := Some (-1)%Z;
     getTunnelTestTimeout := None;
     getTunnelTestRetryDelay := None |}.

(** Three transport errors, answered at once, each retried 250 ms later. *)
Definition sample_rounds : list Round :=
  [ {| round_answered := 5; round_retCode := SERVER_RETURN_NETWORK_ERROR;
       round_data := ""; round_retried := 255 |};
    {| round_answered := 260; round_retCode := SERVER_RETURN_NETWORK_ERROR;
       round_data := ""; round_retried := 510 |};
    {| round_answered := 515; round_retCode := SERVER_RETURN_NETWORK_ERROR;
       round_data := ""; round_retried := 765 |} ].

(** The object after a start in default mode at clock reading 0, with the
    timeouts 2000, 4000 and 8000. *)
Definition sample_started : TestVPNTunnel :=
  {| bRunning_ := true;
     curTest_ := 1;
     cmdId_ := 1;
     doCustomTunnelTest_ := false;
     timeouts_ := [2000; 4000; 8000]%Z;
     testRetryDelay_ := 0;
     elapsed_ := 0;
     protocol_ := UNINITIALIZED |}.


(** Only the start of the tests is overridden: 500 ms later. *)
Definition sample_config_delayed : ExtraConfig :=
  {| getTunnelTestStartDelay := Some 500%Z;
     getTunnelTestAttempts := None;
     getTunnelTestTimeout := None;
     getTunnelTestRetryDelay := None |}.
End TestVPNTunnel.

(** * Connections left over: finishactiveconnections.cpp *)

(** The file follows itemwidgetregion.cpp in
    src/gui/gui/locationswindow/widgetlocations/itemwidgetregion.cpp; the lines
    are those of that file.  The functions call the helper and the IKEv2
    classes; the model lists the calls in order.  What the surroundings hand
    in, the OpenVPN executables and the active IKEv2 connections, are
    arguments, and so is the name of the WireGuard executable. *)
Module FinishActiveConnections.

Inductive Call : Set :=
| executeTaskKill (executable : string)
| blockingDisconnect (hRas : Z)
| disableDnsLeaksProtection
| removeHosts
| stopWireGuard
| restoreState
| setDefaultWireGuardDeviceName (deviceName : string)
| closeWindscribeActiveConnection.

(** [QString::endsWith], case sensitive. *)
Definition endsWith (suffix s : string) : bool :=
  Nat.leb (String.length suffix) (String.length s)
  && String.eqb
       (String.substring (String.length s - String.length suffix) (String.length suffix) s)
       suffix.

(** Lines 286-293. *)
Definition finishOpenVpnActiveConnections_win (strOpenVpnExeList : list string)
    : list Call :=
  map executeTaskKill strOpenVpnExeList.

(** Lines 295-309. *)
Definition finishIkev2ActiveConnections_win (v : list Z) : list Call :=
  match v with
  | [] => []
  | _ => map blockingDisconnect v ++ [disableDnsLeaksProtection; removeHosts]
  end.

(** Lines 311-318. *)
Definition finishWireGuardActiveConnections_win (wireGuardExeName : string)
    : list Call :=
  let strWireGuardExe :=
    if negb (endsWith ".exe" wireGuardExeName)
    then wireGuardExeName +:+ ".exe"
    else wireGuardExeName in
  [executeTaskKill strWireGuardExe; stopWireGuard].

(** Lines 279-284. *)
Definition finishAllActiveConnections_win (strOpenVpnExeList : list string)
    (v : list Z) : list Call :=
  finishOpenVpnActiveConnections_win strOpenVpnExeList
  ++ finishIkev2ActiveConnections_win v
  ++ finishWireGuardActiveConnections_win WireGuardConnection.getWireGuardExeName.

(** Lines 327-337. *)
Definition finishOpenVpnActiveConnections_mac (strOpenVpnExeList : list string)
    : list Call :=
  map executeTaskKill strOpenVpnExeList
  ++ [executeTaskKill "windscribestunnel";
      executeTaskKill "windscribewstunnel";
      restoreState].

(** Lines 338-342. *)
Definition finishWireGuardActiveConnections_mac : list Call :=
  [setDefaultWireGuardDeviceName WireGuardConnection.getWireGuardAdapterName;
   stopWireGuard].

(** Lines 320-325. *)
Definition finishAllActiveConnections_mac (strOpenVpnExeList : list string)
    : list Call :=
  finishOpenVpnActiveConnections_mac strOpenVpnExeList
  ++ finishWireGuardActiveConnections_mac
  ++ [closeWindscribeActiveConnection].

(** The executables handed to [executeTaskKill], in call order. *)
Fixpoint killed (calls : list Call) : list string :=
  match calls with
  | [] => []
  | executeTaskKill executable :: rest => executable :: killed rest
  | _ :: rest => killed rest
  end.

Definition is_stopWireGuard (c : Call) : bool :=
  match c with stopWireGuard => true | _ => false end.

End FinishActiveConnections.

(** * Properties of the attempt plan *)

Section PolicyFacts.
Import types AutoConnSettingsPolicy.

Context {L : Type} `{LocationInfo L}.
Variable MAX_IKEV2_FAILED_ATTEMPTS : Z.
Variable toLongString : PROTOCOL -> string.
Variable fromString : string -> PROTOCOL.
Variable getUseIpInd : PortMap -> PROTOCOL -> Z.

Abbreviation buildLocal := (buildLocalAttemps MAX_IKEV2_FAILED_ATTEMPTS).
Abbreviation passes := (eligible MAX_IKEV2_FAILED_ATTEMPTS).
Abbreviation sortedLocal := (sortedLocalAttemps MAX_IKEV2_FAILED_ATTEMPTS fromString).
Abbreviation mkPolicy := (construct MAX_IKEV2_FAILED_ATTEMPTS fromString).

(** The loop keeps exactly the entries that pass both tests, in order. *)
Lemma buildLocalAttemps_protocols isProxyEnabled counter items i :
  map protocol (buildLocal isProxyEnabled counter items i)
  = map types.protocol (List.filter (passes isProxyEnabled counter) items).
Proof.
  revert i. induction items as [|item rest IH]; intros i; [reflexivity|].
  cbn [buildLocalAttemps List.filter]. unfold eligible at 1.
  destruct (isProxyEnabled && bool_decide (types.protocol item = OPENVPN_UDP));
    cbn [negb andb]; [apply IH|].
  destruct ((MAX_IKEV2_FAILED_ATTEMPTS <=? counter)%Z
            && isIkev2Protocol (types.protocol item)); cbn [negb]; [apply IH|].
  cbn [map protocol]. f_equal. apply IH.
Qed.

Lemma buildLocalAttemps_length isProxyEnabled counter items i :
  length (buildLocal isProxyEnabled counter items i)
  = length (List.filter (passes isProxyEnabled counter) items).
Proof.
  rewrite <- (length_map protocol), buildLocalAttemps_protocols.
  apply length_map.
Qed.

Lemma markLast_length l : length (markLast l) = length l.
Proof. unfold markLast. case_bool_decide; [apply length_alter|reflexivity]. Qed.

Lemma markLast_protocols l : map protocol (markLast l) = map protocol l.
Proof.
  unfold markLast. case_bool_decide; [|reflexivity].
  apply list_eq. intros j. rewrite !list_lookup_fmap.
  destruct (decide (j = length l - 1)) as [->|Hne].
  - rewrite list_lookup_alter_eq. destruct (l !! (length l - 1)); reflexivity.
  - rewrite list_lookup_alter_ne by congruence. reflexivity.
Qed.

(** The search stops at the first attempt with the saved protocol. *)
Lemma findProtocol_split saved pre a post i :
  protocol a = saved ->
  Forall (fun b => protocol b ≠ saved) pre ->
  findProtocol saved (pre ++ a :: post) i = Some (i + length pre).
Proof.
  intros Ha Hpre. revert i.
  induction Hpre as [|b pre Hb _ IH]; intros i; cbn [findProtocol app length].
  - rewrite bool_decide_eq_true_2 by exact Ha. f_equal. lia.
  - rewrite bool_decide_eq_false_2 by exact Hb. rewrite IH. f_equal. lia.
Qed.

Lemma findProtocol_Some saved l i j :
  findProtocol saved l i = Some j ->
  exists pre a post,
    l = pre ++ a :: post /\ protocol a = saved
    /\ Forall (fun b => protocol b ≠ saved) pre /\ j = i + length pre.
Proof.
  revert i. induction l as [|b l IH]; intros i; cbn [findProtocol]; [discriminate|].
  case_bool_decide as Hb.
  - intros [= <-]. exists [], b, l. repeat split; [exact Hb|constructor|cbn; lia].
  - intros Hf. destruct (IH _ Hf) as (pre & a & post & -> & Ha & Hpre & ->).
    exists (b :: pre), a, post. repeat split; [exact Ha|by constructor|cbn; lia].
Qed.

Lemma delete_middle (pre : list AttemptInfo) a post :
  delete (length pre) (pre ++ a :: post) = pre ++ post.
Proof.
  induction pre as [|b pre IH]; [reflexivity|].
  change (b :: delete (length pre) (pre ++ a :: post) = b :: (pre ++ post)).
  by rewrite IH.
Qed.

(** What lines 79-104 do to a list in which the saved protocol occurs. *)
Lemma moveSavedFirst_split saved pre a post :
  saved ≠ UNINITIALIZED ->
  protocol a = saved ->
  Forall (fun b => protocol b ≠ saved) pre ->
  moveSavedFirst saved (pre ++ a :: post)
  = match pre ++ post with
    | [] => [a]
    | first :: rest =>
        if isIkev2Protocol (protocol first) then first :: a :: rest
        else a :: first :: rest
    end.
Proof.
  intros Hsaved Ha Hpre. unfold moveSavedFirst.
  rewrite bool_decide_eq_true_2 by exact Hsaved.
  rewrite (findProtocol_split saved pre a post 0 Ha Hpre), Nat.add_0_l.
  rewrite list_lookup_middle by reflexivity.
  cbv zeta. rewrite delete_middle.
  destruct (pre ++ post) as [|first rest]; [reflexivity|].
  destruct (isIkev2Protocol (protocol first)); reflexivity.
Qed.

Lemma moveSavedFirst_absent saved l :
  findProtocol saved l 0 = None -> moveSavedFirst saved l = l.
Proof. intros Hf. unfold moveSavedFirst. rewrite Hf. by case_bool_decide. Qed.

(** Moving the saved protocol only permutes the list. *)
Lemma moveSavedFirst_Permutation saved l : moveSavedFirst saved l ≡ₚ l.
Proof.
  destruct (decide (saved = UNINITIALIZED)) as [->|Hsaved].
  { unfold moveSavedFirst. by rewrite bool_decide_eq_false_2 by (intros Hn; by apply Hn). }
  destruct (findProtocol saved l 0) as [j|] eqn:Hf.
  - destruct (findProtocol_Some _ _ _ _ Hf) as (pre & a & post & -> & Ha & Hpre & _).
    rewrite moveSavedFirst_split by assumption.
    rewrite <- (Permutation_middle pre post a).
    destruct (pre ++ post) as [|first rest]; [reflexivity|].
    destruct (isIkev2Protocol (protocol first)); [apply perm_swap|reflexivity].
  - by rewrite moveSavedFirst_absent.
Qed.

Lemma moveSavedFirst_length saved l : length (moveSavedFirst saved l) = length l.
Proof. by rewrite moveSavedFirst_Permutation. Qed.

Lemma copyPerNode_length nodes attemps localAttemps :
  length (copyPerNode nodes attemps localAttemps)
  = length attemps + nodes * length localAttemps.
Proof.
  revert attemps. induction nodes as [|n IH]; intros attemps; cbn [copyPerNode].
  - lia.
  - rewrite IH, length_app. lia.
Qed.

Lemma copyPerNode_elem_of nodes attemps localAttemps a :
  a ∈ copyPerNode nodes attemps localAttemps -> a ∈ attemps \/ a ∈ localAttemps.
Proof.
  revert attemps. induction nodes as [|n IH]; intros attemps; cbn [copyPerNode].
  - by left.
  - intros Ha. destruct (IH _ Ha) as [Hin|Hin]; [|by right].
    apply elem_of_app in Hin. tauto.
Qed.

Lemma copyPerNode_prefix nodes attemps localAttemps :
  attemps `prefix_of` copyPerNode nodes attemps localAttemps.
Proof.
  revert attemps. induction nodes as [|n IH]; intros attemps; cbn [copyPerNode].
  - reflexivity.
  - etransitivity; [|apply IH]. by apply prefix_app_r.
Qed.

Lemma sortedLocalAttemps_length w portMap isProxyEnabled :
  length (sortedLocal w portMap isProxyEnabled)
  = length (List.filter (passes isProxyEnabled (failedIkev2Counter_ w)) portMap).
Proof.
  unfold sortedLocalAttemps.
  by rewrite moveSavedFirst_length, markLast_length, buildLocalAttemps_length.
Qed.

(** C1. For every port map, node count, proxy flag and value of the IKEv2
    failure counter, the plan built by the constructor has exactly
    2 * N * (number of port map entries that pass the proxy test and the IKEv2
    test) attempts, N being the number of nodes of the location. *)
Theorem attempt_plan_length w bStarted (bli : L) (portMap : PortMap) isProxyEnabled :
  length (attemps_ (mkPolicy w bStarted bli portMap isProxyEnabled))
  = 2 * nodesCount bli
    * length (List.filter (passes isProxyEnabled (failedIkev2Counter_ w)) portMap).
Proof.
  cbn [construct attemps_].
  rewrite length_app, copyPerNode_length, sortedLocalAttemps_length.
  cbn [length]. lia.
Qed.

(** Every attempt of a plan comes from a port map entry that passed both
    tests. *)
Lemma plan_attempt_eligible w bStarted (bli : L) (portMap : PortMap)
    isProxyEnabled a :
  a ∈ attemps_ (mkPolicy w bStarted bli portMap isProxyEnabled) ->
  exists item,
    In item portMap
    /\ passes isProxyEnabled (failedIkev2Counter_ w) item = true
    /\ types.protocol item = protocol a.
Proof.
  cbn [construct attemps_]. intros Ha.
  assert (a ∈ sortedLocal w portMap isProxyEnabled) as Hin.
  { apply elem_of_app in Ha.
    destruct Ha as [Ha|Ha];
      (apply copyPerNode_elem_of in Ha; destruct Ha as [Ha|Ha];
       [by apply elem_of_nil in Ha|exact Ha]). }
  unfold sortedLocalAttemps in Hin. rewrite moveSavedFirst_Permutation in Hin.
  apply list_elem_of_In, (in_map protocol) in Hin.
  rewrite markLast_protocols, buildLocalAttemps_protocols in Hin.
  apply in_map_iff in Hin. destruct Hin as (item & Hp & Hitem).
  apply filter_In in Hitem. destruct Hitem as [Hitem Hpass].
  exists item. auto.
Qed.

(** C3 (amended). With the proxy flag set the loop drops every OpenVPN-UDP
    entry, and only those on account of the proxy: no attempt of the plan
    carries the OpenVPN-UDP protocol, and the attempts before reordering are,
    in order, the entries whose protocol is not OpenVPN-UDP and that pass the
    IKEv2 test (IKEv2 and WireGuard entries are not dropped by the flag). *)
Theorem proxy_drops_openvpn_udp w bStarted (bli : L) (portMap : PortMap) :
  Forall (fun a => protocol a ≠ OPENVPN_UDP)
    (attemps_ (mkPolicy w bStarted bli portMap true))
  /\ map protocol (buildLocal true (failedIkev2Counter_ w) portMap 0)
     = map types.protocol
         (List.filter
            (fun item =>
               negb (bool_decide (types.protocol item = OPENVPN_UDP))
               && negb ((MAX_IKEV2_FAILED_ATTEMPTS <=? failedIkev2Counter_ w)%Z
                        && isIkev2Protocol (types.protocol item)))
            portMap).
Proof.
  split.
  - apply Forall_forall. intros a Ha.
    destruct (plan_attempt_eligible _ _ _ _ _ _ Ha) as (item & _ & Hpass & <-).
    unfold eligible in Hpass. cbn [andb] in Hpass.
    apply andb_prop in Hpass. destruct Hpass as [Hudp _].
    apply negb_true_iff, bool_decide_eq_false in Hudp. exact Hudp.
  - apply buildLocalAttemps_protocols.
Qed.

(** C7. A saved protocol (one other than [UNINITIALIZED]) that occurs among the
    filtered attempts is taken out at its first occurrence and put back at
    index 0 when what remains is empty or starts with a protocol other than
    IKEv2, and at index 1 when what remains starts with IKEv2.  In particular,
    a saved protocol other than IKEv2 behind a leading IKEv2 attempt ends up at
    index 1 of the list, and of the plan when the location has a node. *)
Theorem saved_protocol_reinserted w bStarted (bli : L) (portMap : PortMap)
    isProxyEnabled pre a post :
  lastSuccessProtocolSaved fromString w ≠ UNINITIALIZED ->
  markLast (buildLocal isProxyEnabled (failedIkev2Counter_ w) portMap 0)
  = pre ++ a :: post ->
  protocol a = lastSuccessProtocolSaved fromString w ->
  Forall (fun b => protocol b ≠ lastSuccessProtocolSaved fromString w) pre ->
  (pre ++ post = [] -> sortedLocal w portMap isProxyEnabled = [a])
  /\ (forall first rest,
        pre ++ post = first :: rest ->
        isIkev2Protocol (protocol first) = false ->
        sortedLocal w portMap isProxyEnabled = a :: first :: rest)
  /\ (forall first rest,
        pre ++ post = first :: rest ->
        isIkev2Protocol (protocol first) = true ->
        sortedLocal w portMap isProxyEnabled = first :: a :: rest)
  /\ (lastSuccessProtocolSaved fromString w ≠ IKEV2 ->
      forall first,
        head (pre ++ a :: post) = Some first ->
        protocol first = IKEV2 ->
        sortedLocal w portMap isProxyEnabled !! 0 = Some first
        /\ sortedLocal w portMap isProxyEnabled !! 1 = Some a
        /\ (0 < nodesCount bli ->
            attemps_ (mkPolicy w bStarted bli portMap isProxyEnabled) !! 0
            = Some first
            /\ attemps_ (mkPolicy w bStarted bli portMap isProxyEnabled) !! 1
               = Some a)).
Proof.
  intros Hsaved Hsplit Ha Hpre.
  assert (sortedLocal w portMap isProxyEnabled
          = match pre ++ post with
            | [] => [a]
            | first :: rest =>
                if isIkev2Protocol (protocol first) then first :: a :: rest
                else a :: first :: rest
            end) as Hsorted.
  { unfold sortedLocalAttemps. rewrite Hsplit.
    by apply moveSavedFirst_split. }
  split; [|split; [|split]].
  - intros Hnil. by rewrite Hsorted, Hnil.
  - intros first rest Hrest Hik. by rewrite Hsorted, Hrest, Hik.
  - intros first rest Hrest Hik. by rewrite Hsorted, Hrest, Hik.
  - intros Hnot first Hhead Hfirst.
    destruct pre as [|b pre'].
    { cbn in Hhead. injection Hhead as <-. congruence. }
    cbn in Hhead. injection Hhead as <-.
    assert (sortedLocal w portMap isProxyEnabled = b :: a :: pre' ++ post) as Heq.
    { rewrite Hsorted. cbn [app]. unfold isIkev2Protocol.
      by rewrite bool_decide_eq_true_2. }
    split; [by rewrite Heq|]. split; [by rewrite Heq|].
    intros Hnodes. cbn [construct attemps_].
    assert (sortedLocal w portMap isProxyEnabled
            `prefix_of` copyPerNode (nodesCount bli) []
                          (sortedLocal w portMap isProxyEnabled)) as Hpref.
    { destruct (nodesCount bli) as [|n]; [lia|]. cbn [copyPerNode app].
      apply copyPerNode_prefix. }
    split.
    + apply lookup_app_l_Some. eapply prefix_lookup_Some; [|exact Hpref].
      by rewrite Heq.
    + apply lookup_app_l_Some. eapply prefix_lookup_Some; [|exact Hpref].
      by rewrite Heq.
Qed.

(** One failed connection before the last attempt moves the cursor on. *)
Lemma putFailedConnection_advance w (p : @Policy L) :
  bStarted_ p = true ->
  curAttempt_ p < length (attemps_ p) - 1 ->
  exists w' p',
    putFailedConnection (w, p) = Some (w', p')
    /\ attemps_ p' = attemps_ p
    /\ curAttempt_ p' = S (curAttempt_ p)
    /\ bIsAllFailed_ p' = bIsAllFailed_ p
    /\ bStarted_ p' = true.
Proof.
  intros Hstarted Hcur. unfold putFailedConnection. rewrite Hstarted. cbn [negb].
  destruct (lookup_lt_is_Some_2 (attemps_ p) (curAttempt_ p)) as [cur Hlook]; [lia|].
  rewrite Hlook. cbn [mbind option_bind].
  rewrite bool_decide_eq_true_2 by exact Hcur.
  eexists _, _. split; [reflexivity|]. cbn. auto.
Qed.

(** One failed connection at the last attempt sets the failure flag. *)
Lemma putFailedConnection_last w (p : @Policy L) :
  bStarted_ p = true ->
  attemps_ p ≠ [] ->
  curAttempt_ p = length (attemps_ p) - 1 ->
  exists w' p',
    putFailedConnection (w, p) = Some (w', p')
    /\ bIsAllFailed_ p' = true
    /\ bStarted_ p' = true.
Proof.
  intros Hstarted Hne Hcur. unfold putFailedConnection. rewrite Hstarted. cbn [negb].
  assert (0 < length (attemps_ p)) as Hlen.
  { destruct (attemps_ p); [congruence|cbn; lia]. }
  destruct (lookup_lt_is_Some_2 (attemps_ p) (curAttempt_ p)) as [cur Hlook]; [lia|].
  rewrite Hlook. cbn [mbind option_bind].
  rewrite bool_decide_eq_false_2 by lia.
  eexists _, _. split; [reflexivity|]. cbn. auto.
Qed.

Lemma putFailedConnections_advance k : forall w (p : @Policy L),
  bStarted_ p = true ->
  curAttempt_ p + k < length (attemps_ p) ->
  exists w' p',
    putFailedConnections k (w, p) = Some (w', p')
    /\ attemps_ p' = attemps_ p
    /\ curAttempt_ p' = curAttempt_ p + k
    /\ bIsAllFailed_ p' = bIsAllFailed_ p
    /\ bStarted_ p' = true.
Proof.
  induction k as [|k IH]; intros w p Hstarted Hcur.
  - exists w, p. cbn [putFailedConnections]. repeat split; [lia|exact Hstarted].
  - destruct (putFailedConnection_advance w p Hstarted)
      as (w1 & p1 & Hput & Hatt & Hc & Hf & Hs); [lia|].
    destruct (IH w1 p1 Hs) as (w2 & p2 & Hputs & Hatt2 & Hc2 & Hf2 & Hs2).
    { rewrite Hatt, Hc. lia. }
    exists w2, p2. cbn [putFailedConnections]. rewrite Hput. cbn [mbind option_bind].
    repeat split; [exact Hputs|congruence|lia|congruence|exact Hs2].
Qed.

Lemma putFailedConnections_snoc k : forall (wp : World * @Policy L),
  putFailedConnections (S k) wp
  = wp' ← putFailedConnections k wp; putFailedConnection wp'.
Proof.
  induction k as [|k IH]; intros wp.
  - cbn [putFailedConnections]. unfold mbind, option_bind.
    by destruct (putFailedConnection wp).
  - change (putFailedConnections (S (S k)) wp)
      with (wp' ← putFailedConnection wp; putFailedConnections (S k) wp').
    cbn [putFailedConnections].
    destruct (putFailedConnection wp) as [wp1|]; [|reflexivity].
    cbn [mbind option_bind]. apply IH.
Qed.

(** C2. For a started policy at the start of a non-empty plan of length L,
    [isFailed] is false after every number of calls of [putFailedConnection]
    smaller than L, and true after exactly L calls. *)
Theorem putFailedConnection_exhausts_plan w (p : @Policy L) :
  bStarted_ p = true ->
  curAttempt_ p = 0 ->
  bIsAllFailed_ p = false ->
  attemps_ p ≠ [] ->
  (forall k, k < length (attemps_ p) ->
     exists w' p',
       putFailedConnections k (w, p) = Some (w', p') /\ isFailed p' = false)
  /\ (exists w' p',
        putFailedConnections (length (attemps_ p)) (w, p) = Some (w', p')
        /\ isFailed p' = true).
Proof.
  intros Hstarted Hcur Hfailed Hne. split.
  - intros k Hk.
    destruct (putFailedConnections_advance k w p Hstarted)
      as (w' & p' & Hputs & _ & _ & Hf & Hs); [lia|].
    exists w', p'. split; [exact Hputs|].
    unfold isFailed. rewrite Hs, Hf, Hfailed. reflexivity.
  - destruct (attemps_ p) as [|a l] eqn:Hatt; [congruence|].
    cbn [length].
    destruct (putFailedConnections_advance (length l) w p Hstarted)
      as (w1 & p1 & Hputs & Hatt1 & Hc1 & _ & Hs1).
    { rewrite Hatt. cbn [length]. lia. }
    destruct (putFailedConnection_last w1 p1 Hs1) as (w2 & p2 & Hput & Hf2 & Hs2).
    { rewrite Hatt1, Hatt. discriminate. }
    { rewrite Hatt1, Hc1, Hatt, Hcur. cbn [length]. lia. }
    exists w2, p2. split.
    + rewrite putFailedConnections_snoc, Hputs. exact Hput.
    + unfold isFailed. rewrite Hs2. exact Hf2.
Qed.

(** C5 (amended). Recording a success writes the name of the protocol that
    succeeded under the key [successConnectionProtocol] and nothing else: the
    other settings are as before and what is written does not depend on the
    IKEv2 failure counter.  The counter stays in process memory, set to 0 when
    the protocol is IKEv2 and left alone otherwise, and is 0 again in a new
    process. *)
Theorem success_saves_only_the_protocol w (p : @Policy L) cur :
  attemps_ p !! curAttempt_ p = Some cur ->
  exists w',
    saveCurrentSuccessfullConnectionSettings toLongString w p = Some w'
    /\ settings w' !! successConnectionProtocol = Some (toLongString (protocol cur))
    /\ (forall key, key ≠ successConnectionProtocol ->
          settings w' !! key = settings w !! key)
    /\ (forall counter,
          (settings <$>
             saveCurrentSuccessfullConnectionSettings toLongString
               {| failedIkev2Counter_ := counter; settings := settings w |} p)
          = Some (settings w'))
    /\ failedIkev2Counter_ w'
       = (if isIkev2Protocol (protocol cur) then 0%Z else failedIkev2Counter_ w)
    /\ failedIkev2Counter_ (processRestart w') = 0%Z
    /\ settings (processRestart w') = settings w'.
Proof.
  intros Hcur. unfold saveCurrentSuccessfullConnectionSettings.
  rewrite Hcur. cbn [mbind option_bind].
  eexists. split; [reflexivity|]. cbn [settings failedIkev2Counter_ processRestart].
  split; [apply lookup_insert_eq|].
  split; [intros key Hkey; by apply lookup_insert_ne|].
  repeat split.
Qed.

(** C6 (amended). Every attempt that resolves a port map entry selects the
    first port of that entry: the descriptor carries [ports[0]] of the entry
    the attempt at the cursor points to, so two attempts on the same entry of
    the same port map connect to the same port. *)
Theorem attempt_selects_first_port (p : @Policy L) ccd :
  getCurrentConnectionSettings getUseIpInd p = Some ccd ->
  (exists cur item,
     attemps_ p !! curAttempt_ p = Some cur
     /\ portMap_ p !! portMapInd cur = Some item
     /\ types.ports item !! 0 = Some (port ccd))
  /\ (forall (p' : @Policy L) ccd' cur cur',
        getCurrentConnectionSettings getUseIpInd p' = Some ccd' ->
        portMap_ p' = portMap_ p ->
        attemps_ p !! curAttempt_ p = Some cur ->
        attemps_ p' !! curAttempt_ p' = Some cur' ->
        portMapInd cur' = portMapInd cur ->
        port ccd' = port ccd).
Proof.
  assert (forall (q : @Policy L) d,
            getCurrentConnectionSettings getUseIpInd q = Some d ->
            exists cur item,
              attemps_ q !! curAttempt_ q = Some cur
              /\ portMap_ q !! portMapInd cur = Some item
              /\ types.ports item !! 0 = Some (port d)) as Hfirst.
  { intros q d. unfold getCurrentConnectionSettings.
    destruct (attemps_ q !! curAttempt_ q) as [cur|]; [|discriminate].
    cbn [mbind option_bind].
    destruct (portMap_ q !! portMapInd cur) as [item|] eqn:Hitem; [|discriminate].
    cbn [mbind option_bind].
    destruct (types.ports item !! 0) as [port0|] eqn:Hport; [|discriminate].
    cbn [mbind option_bind]. intros [= <-]. exists cur, item. auto. }
  intros Hccd. split; [by apply Hfirst|].
  intros p' ccd' cur cur' Hccd' Hmap Hcur Hcur' Hind.
  destruct (Hfirst _ _ Hccd) as (c & item & Hc & Hitem & Hport).
  destruct (Hfirst _ _ Hccd') as (c' & item' & Hc' & Hitem' & Hport').
  rewrite Hcur in Hc. rewrite Hcur' in Hc'.
  injection Hc as <-. injection Hc' as <-.
  rewrite Hmap, Hind, Hitem in Hitem'. injection Hitem' as <-.
  congruence.
Qed.

(** ** More on the plan and the cursor *)

(** One failed connection of a started policy with an attempt under the
    cursor, field by field. *)
Lemma putFailedConnection_step w (p : @Policy L) cur :
  bStarted_ p = true ->
  attemps_ p !! curAttempt_ p = Some cur ->
  exists w' p',
    putFailedConnection (w, p) = Some (w', p')
    /\ attemps_ p' = attemps_ p
    /\ bStarted_ p' = true
    /\ portMap_ p' = portMap_ p
    /\ settings w' = settings w
    /\ isFailedIkev2CounterAlreadyIncremented_ p'
       = isFailedIkev2CounterAlreadyIncremented_ p || isIkev2Protocol (protocol cur)
    /\ failedIkev2Counter_ w'
       = (failedIkev2Counter_ w
          + (if negb (isFailedIkev2CounterAlreadyIncremented_ p)
                && isIkev2Protocol (protocol cur) then 1 else 0))%Z
    /\ (curAttempt_ p < length (attemps_ p) - 1 ->
        curAttempt_ p' = S (curAttempt_ p)
        /\ bIsAllFailed_ p' = bIsAllFailed_ p
        /\ locationInfo_ p'
           = (if changeNode cur then selectNextNode (locationInfo_ p)
              else locationInfo_ p))
    /\ (~ curAttempt_ p < length (attemps_ p) - 1 ->
        curAttempt_ p' = curAttempt_ p
        /\ bIsAllFailed_ p' = true
        /\ locationInfo_ p' = locationInfo_ p).
Proof.
  intros Hstarted Hcur. unfold putFailedConnection.
  rewrite Hstarted, Hcur. cbn [negb mbind option_bind].
  destruct (isIkev2Protocol (protocol cur)),
    (isFailedIkev2CounterAlreadyIncremented_ p) eqn:Hflag;
    cbn [andb negb orb]; case_bool_decide as Hlast;
    (eexists _, _; split; [reflexivity|]);
    cbn [attemps_ bStarted_ portMap_ settings curAttempt_ bIsAllFailed_
         isFailedIkev2CounterAlreadyIncremented_ failedIkev2Counter_ locationInfo_];
    repeat split; try reflexivity; try lia; try (intros; exfalso; tauto);
    try (intros; exfalso; lia).
Qed.

(** [k] failed connections that all stay before the last attempt: the
    attempts that failed are the [k] attempts from the cursor on. *)
Lemma putFailedConnections_prefix k : forall w (p : @Policy L),
  bStarted_ p = true ->
  curAttempt_ p + k < length (attemps_ p) ->
  exists w' p',
    putFailedConnections k (w, p) = Some (w', p')
    /\ attemps_ p' = attemps_ p
    /\ bStarted_ p' = true
    /\ portMap_ p' = portMap_ p
    /\ settings w' = settings w
    /\ curAttempt_ p' = curAttempt_ p + k
    /\ bIsAllFailed_ p' = bIsAllFailed_ p
    /\ isFailedIkev2CounterAlreadyIncremented_ p'
       = isFailedIkev2CounterAlreadyIncremented_ p
         || existsb (fun a => isIkev2Protocol (protocol a))
              (take k (drop (curAttempt_ p) (attemps_ p)))
    /\ failedIkev2Counter_ w'
       = (failedIkev2Counter_ w
          + (if negb (isFailedIkev2CounterAlreadyIncremented_ p)
                && existsb (fun a => isIkev2Protocol (protocol a))
                     (take k (drop (curAttempt_ p) (attemps_ p)))
             then 1 else 0))%Z
    /\ locationInfo_ p'
       = Nat.iter
           (length (List.filter changeNode
                      (take k (drop (curAttempt_ p) (attemps_ p)))))
           selectNextNode (locationInfo_ p).
Proof.
  induction k as [|k IH]; intros w p Hstarted Hcur.
  - exists w, p. cbn [putFailedConnections firstn existsb List.filter length].
    rewrite orb_false_r, andb_false_r.
    repeat split; try reflexivity; try assumption; lia.
  - destruct (lookup_lt_is_Some_2 (attemps_ p) (curAttempt_ p)) as [cur Hlook]; [lia|].
    destruct (putFailedConnection_step w p cur Hstarted Hlook)
      as (w1 & p1 & Hput & Hatt & Hs & Hmap & Hset & Hflag & Hcount & Hadv & _).
    destruct Hadv as (Hc1 & Hf1 & Hloc1); [lia|].
    destruct (IH w1 p1 Hs)
      as (w2 & p2 & Hputs & Hatt2 & Hs2 & Hmap2 & Hset2 & Hc2 & Hf2 & Hflag2
          & Hcount2 & Hloc2).
    { rewrite Hatt, Hc1. lia. }
    exists w2, p2. cbn [putFailedConnections]. rewrite Hput. cbn [mbind option_bind].
    rewrite Hatt, Hc1 in Hflag2, Hcount2, Hloc2.
    rewrite (drop_S _ _ _ Hlook). cbn [firstn existsb List.filter].
    split; [exact Hputs|]. split; [congruence|]. split; [exact Hs2|].
    split; [congruence|]. split; [congruence|]. split; [lia|].
    split; [congruence|].
    split; [rewrite Hflag2, Hflag; by rewrite orb_assoc|].
    split.
    + rewrite Hcount2, Hcount, Hflag.
      destruct (isFailedIkev2CounterAlreadyIncremented_ p),
        (isIkev2Protocol (protocol cur)),
        (existsb (fun a => isIkev2Protocol (protocol a))
           (take k (drop (S (curAttempt_ p)) (attemps_ p))));
        cbn [negb andb orb]; lia.
    + rewrite Hloc2, Hloc1.
      destruct (changeNode cur); [|reflexivity].
      cbn [length]. by rewrite Nat.iter_succ_r.
Qed.

(** Failed connections at the last attempt: the cursor stays, the failure flag
    is set, the node selection is left alone. *)
Lemma putFailedConnections_at_last m : forall w (p : @Policy L) final,
  bStarted_ p = true ->
  attemps_ p !! curAttempt_ p = Some final ->
  curAttempt_ p = length (attemps_ p) - 1 ->
  exists w' p',
    putFailedConnections (S m) (w, p) = Some (w', p')
    /\ attemps_ p' = attemps_ p
    /\ bStarted_ p' = true
    /\ portMap_ p' = portMap_ p
    /\ settings w' = settings w
    /\ curAttempt_ p' = curAttempt_ p
    /\ bIsAllFailed_ p' = true
    /\ locationInfo_ p' = locationInfo_ p
    /\ isFailedIkev2CounterAlreadyIncremented_ p'
       = isFailedIkev2CounterAlreadyIncremented_ p
         || isIkev2Protocol (protocol final)
    /\ failedIkev2Counter_ w'
       = (failedIkev2Counter_ w
          + (if negb (isFailedIkev2CounterAlreadyIncremented_ p)
                && isIkev2Protocol (protocol final) then 1 else 0))%Z.
Proof.
  induction m as [|m IH]; intros w p final Hstarted Hlook Hcur.
  - destruct (putFailedConnection_step w p final Hstarted Hlook)
      as (w1 & p1 & Hput & Hatt & Hs & Hmap & Hset & Hflag & Hcount & _ & Hlast).
    destruct Hlast as (Hc1 & Hf1 & Hloc1); [lia|].
    exists w1, p1. cbn [putFailedConnections]. rewrite Hput. cbn [mbind option_bind].
    auto 10.
  - destruct (putFailedConnection_step w p final Hstarted Hlook)
      as (w1 & p1 & Hput & Hatt & Hs & Hmap & Hset & Hflag & Hcount & _ & Hlast).
    destruct Hlast as (Hc1 & Hf1 & Hloc1); [lia|].
    destruct (IH w1 p1 final Hs)
      as (w2 & p2 & Hputs & Hatt2 & Hs2 & Hmap2 & Hset2 & Hc2 & Hf2 & Hloc2
          & Hflag2 & Hcount2).
    { by rewrite Hatt, Hc1. }
    { rewrite Hatt, Hc1. exact Hcur. }
    exists w2, p2.
    change (putFailedConnections (S (S m)) (w, p))
      with (wp' ← putFailedConnection (w, p); putFailedConnections (S m) wp').
    rewrite Hput. cbn [mbind option_bind].
    split; [exact Hputs|]. split; [congruence|]. split; [exact Hs2|].
    split; [congruence|]. split; [congruence|]. split; [congruence|].
    split; [exact Hf2|]. split; [congruence|].
    split; [rewrite Hflag2, Hflag; by destruct (isFailedIkev2CounterAlreadyIncremented_ p),
                                         (isIkev2Protocol (protocol final))|].
    rewrite Hcount2, Hcount, Hflag.
    destruct (isFailedIkev2CounterAlreadyIncremented_ p),
      (isIkev2Protocol (protocol final)); cbn [negb andb orb]; lia.
Qed.

Lemma putFailedConnections_add a : forall b (wp : World * @Policy L),
  putFailedConnections (a + b) wp
  = wp' ← putFailedConnections a wp; putFailedConnections b wp'.
Proof.
  induction a as [|a IH]; intros b wp; [reflexivity|].
  cbn [Nat.add putFailedConnections].
  destruct (putFailedConnection wp) as [wp1|]; [|reflexivity].
  cbn [mbind option_bind]. apply IH.
Qed.

(** Any number of failed connections of a started policy, from the start of a
    non-empty plan. *)
Lemma putFailedConnections_from_start n w (p : @Policy L) :
  bStarted_ p = true ->
  curAttempt_ p = 0 ->
  bIsAllFailed_ p = false ->
  attemps_ p ≠ [] ->
  exists w' p',
    putFailedConnections n (w, p) = Some (w', p')
    /\ attemps_ p' = attemps_ p
    /\ bStarted_ p' = true
    /\ portMap_ p' = portMap_ p
    /\ settings w' = settings w
    /\ curAttempt_ p' = n `min` (length (attemps_ p) - 1)
    /\ bIsAllFailed_ p' = bool_decide (length (attemps_ p) <= n)
    /\ locationInfo_ p'
       = Nat.iter
           (length (List.filter changeNode
                      (take (n `min` (length (attemps_ p) - 1)) (attemps_ p))))
           selectNextNode (locationInfo_ p)
    /\ isFailedIkev2CounterAlreadyIncremented_ p'
       = isFailedIkev2CounterAlreadyIncremented_ p
         || existsb (fun a => isIkev2Protocol (protocol a)) (take n (attemps_ p))
    /\ failedIkev2Counter_ w'
       = (failedIkev2Counter_ w
          + (if negb (isFailedIkev2CounterAlreadyIncremented_ p)
                && existsb (fun a => isIkev2Protocol (protocol a))
                     (take n (attemps_ p))
             then 1 else 0))%Z.
Proof.
  intros Hstarted Hcur Hfailed Hne.
  assert (0 < length (attemps_ p)) as Hlen.
  { destruct (attemps_ p); [congruence|cbn; lia]. }
  destruct (decide (n < length (attemps_ p))) as [Hn|Hn].
  - destruct (putFailedConnections_prefix n w p Hstarted)
      as (w' & p' & Hputs & Hatt & Hs & Hmap & Hset & Hc & Hf & Hflag & Hcount & Hloc);
      [lia|].
    rewrite Hcur in Hc, Hflag, Hcount, Hloc. rewrite drop_0 in Hflag, Hcount, Hloc.
    exists w', p'. rewrite Nat.min_l by lia.
    rewrite bool_decide_eq_false_2 by lia.
    repeat split; try assumption; congruence.
  - set (len := length (attemps_ p)) in *.
    destruct (putFailedConnections_prefix (len - 1) w p Hstarted)
      as (w1 & p1 & Hputs & Hatt & Hs & Hmap & Hset & Hc & Hf & Hflag & Hcount & Hloc);
      [lia|].
    rewrite Hcur in Hc, Hflag, Hcount, Hloc. rewrite drop_0 in Hflag, Hcount, Hloc.
    destruct (lookup_lt_is_Some_2 (attemps_ p) (len - 1)) as [final Hfinal];
      [lia|].
    destruct (putFailedConnections_at_last (n - len) w1 p1 final Hs)
      as (w2 & p2 & Hputs2 & Hatt2 & Hs2 & Hmap2 & Hset2 & Hc2 & Hf2 & Hloc2
          & Hflag2 & Hcount2).
    { by rewrite Hatt, Hc. }
    { rewrite Hatt, Hc. reflexivity. }
    exists w2, p2. rewrite Nat.min_r by lia.
    rewrite bool_decide_eq_true_2 by lia.
    assert (take n (attemps_ p) = take (len - 1) (attemps_ p) ++ [final]) as Htake.
    { rewrite (take_ge (attemps_ p) n) by lia.
      rewrite <- (take_S_r _ _ _ Hfinal).
      replace (S (len - 1)) with len by lia. by rewrite take_ge by lia. }
    rewrite Htake, existsb_app. cbn [existsb]. rewrite orb_false_r.
    split.
    { replace n with ((len - 1) + S (n - len)) by lia.
      rewrite putFailedConnections_add, Hputs. exact Hputs2. }
    split; [congruence|]. split; [exact Hs2|].
    split; [congruence|]. split; [congruence|].
    split; [rewrite Hc2, Hc; lia|].
    split; [exact Hf2|]. split; [congruence|].
    split; [rewrite Hflag2, Hflag; by rewrite orb_assoc|].
    rewrite Hcount2, Hcount, Hflag.
    destruct (isFailedIkev2CounterAlreadyIncremented_ p),
      (existsb (fun a => isIkev2Protocol (protocol a))
         (take (len - 1) (attemps_ p))),
      (isIkev2Protocol (protocol final)); cbn [negb andb orb]; lia.
Qed.

(** X1: exhaustion. From the start of a non-empty plan of length L, every number
    n of calls of [putFailedConnection] on a started policy succeeds, leaves
    the cursor at min(n, L-1), inside the plan, and makes [isFailed] true
    exactly when n is at least L: once failed, the policy stays failed. *)
Theorem isFailed_after_any_number_of_calls n w (p : @Policy L) :
  bStarted_ p = true ->
  curAttempt_ p = 0 ->
  bIsAllFailed_ p = false ->
  attemps_ p ≠ [] ->
  exists w' p',
    putFailedConnections n (w, p) = Some (w', p')
    /\ attemps_ p' = attemps_ p
    /\ curAttempt_ p' = n `min` (length (attemps_ p) - 1)
    /\ curAttempt_ p' < length (attemps_ p')
    /\ isFailed p' = bool_decide (length (attemps_ p) <= n).
Proof.
  intros Hstarted Hcur Hfailed Hne.
  destruct (putFailedConnections_from_start n w p Hstarted Hcur Hfailed Hne)
    as (w' & p' & Hputs & Hatt & Hs & _ & _ & Hc & Hf & _).
  exists w', p'. split; [exact Hputs|]. split; [exact Hatt|]. split; [exact Hc|].
  split.
  - rewrite Hatt, Hc. destruct (attemps_ p); [congruence|cbn [length]; lia].
  - unfold isFailed. by rewrite Hs, Hf.
Qed.

(** X2: node rotation. After n failed connections from the start of the plan
    the node selector has been advanced once for every attempt marked
    [changeNode] among the first min(n, L-1) attempts; the failure of the last
    attempt of the plan never advances it. *)
Theorem nodes_advanced_by_failed_attempts n w (p : @Policy L) :
  bStarted_ p = true ->
  curAttempt_ p = 0 ->
  bIsAllFailed_ p = false ->
  attemps_ p ≠ [] ->
  exists w' p',
    putFailedConnections n (w, p) = Some (w', p')
    /\ locationInfo_ p'
       = Nat.iter
           (length (List.filter changeNode
                      (take (n `min` (length (attemps_ p) - 1)) (attemps_ p))))
           selectNextNode (locationInfo_ p).
Proof.
  intros Hstarted Hcur Hfailed Hne.
  destruct (putFailedConnections_from_start n w p Hstarted Hcur Hfailed Hne)
    as (w' & p' & Hputs & _ & _ & _ & _ & _ & _ & Hloc & _).
  by exists w', p'.
Qed.

(** X3: IKEv2 failure counter. Over any number n of failed connections from the
    start of the plan the static counter goes up by one if the policy has not
    counted yet and one of the first n attempts is IKEv2, and stays as it is
    otherwise; the settings are not written. *)
Theorem ikev2_counter_counts_once n w (p : @Policy L) :
  bStarted_ p = true ->
  curAttempt_ p = 0 ->
  bIsAllFailed_ p = false ->
  attemps_ p ≠ [] ->
  exists w' p',
    putFailedConnections n (w, p) = Some (w', p')
    /\ settings w' = settings w
    /\ failedIkev2Counter_ w'
       = (failedIkev2Counter_ w
          + (if negb (isFailedIkev2CounterAlreadyIncremented_ p)
                && existsb (fun a => isIkev2Protocol (protocol a))
                     (take n (attemps_ p))
             then 1 else 0))%Z
    /\ isFailedIkev2CounterAlreadyIncremented_ p'
       = isFailedIkev2CounterAlreadyIncremented_ p
         || existsb (fun a => isIkev2Protocol (protocol a)) (take n (attemps_ p)).
Proof.
  intros Hstarted Hcur Hfailed Hne.
  destruct (putFailedConnections_from_start n w p Hstarted Hcur Hfailed Hne)
    as (w' & p' & Hputs & _ & _ & _ & Hset & _ & _ & _ & Hflag & Hcount).
  by exists w', p'.
Qed.

(** X4: reset. After any number of failed connections, [reset] puts the cursor
    back at the start of the same plan and clears the failure: the plan can
    be run through again, and fails again after L calls.  The node selection
    is not rewound, and the IKEv2 failure counter is at most one above its
    value before the first run. *)
Theorem reset_restarts_the_same_plan n m w (p : @Policy L) :
  bStarted_ p = true ->
  curAttempt_ p = 0 ->
  bIsAllFailed_ p = false ->
  attemps_ p ≠ [] ->
  exists w1 p1 w2 p2,
    putFailedConnections n (w, p) = Some (w1, p1)
    /\ attemps_ (reset p1) = attemps_ p
    /\ locationInfo_ (reset p1) = locationInfo_ p1
    /\ isFailed (reset p1) = false
    /\ putFailedConnections m (w1, reset p1) = Some (w2, p2)
    /\ curAttempt_ p2 = m `min` (length (attemps_ p) - 1)
    /\ isFailed p2 = bool_decide (length (attemps_ p) <= m)
    /\ (failedIkev2Counter_ w <= failedIkev2Counter_ w2 <= failedIkev2Counter_ w + 1)%Z.
Proof.
  intros Hstarted Hcur Hfailed Hne.
  destruct (putFailedConnections_from_start n w p Hstarted Hcur Hfailed Hne)
    as (w1 & p1 & Hputs & Hatt & Hs & _ & _ & _ & _ & _ & Hflag & Hcount).
  destruct (putFailedConnections_from_start m w1 (reset p1))
    as (w2 & p2 & Hputs2 & Hatt2 & Hs2 & _ & _ & Hc2 & Hf2 & _ & _ & Hcount2);
    [exact Hs|reflexivity|reflexivity|cbn [reset attemps_]; congruence|].
  cbn [reset attemps_ isFailedIkev2CounterAlreadyIncremented_] in Hatt2, Hc2, Hf2, Hcount2.
  exists w1, p1, w2, p2. split; [exact Hputs|]. split; [exact Hatt|].
  split; [reflexivity|].
  split; [unfold isFailed; cbn [reset bStarted_ bIsAllFailed_]; by rewrite Hs|].
  split; [exact Hputs2|]. rewrite Hatt in Hc2, Hf2, Hcount2.
  split; [exact Hc2|].
  split; [unfold isFailed; by rewrite Hs2, Hf2|].
  rewrite Hcount2, Hcount, Hflag.
  destruct (isFailedIkev2CounterAlreadyIncremented_ p),
    (existsb (fun a => isIkev2Protocol (protocol a)) (take n (attemps_ p))),
    (existsb (fun a => isIkev2Protocol (protocol a)) (take m (attemps_ p)));
    cbn [negb andb orb]; lia.
Qed.

(** X5: before start. On a policy that has not been started, failed
    connections change nothing, whatever their number, and [isFailed] is
    false even with the failure flag set. *)
Theorem not_started_ignores_failures n w (p : @Policy L) :
  bStarted_ p = false ->
  putFailedConnections n (w, p) = Some (w, p) /\ isFailed p = false.
Proof.
  intros Hstarted. split.
  - induction n as [|n IH]; [reflexivity|].
    cbn [putFailedConnections]. unfold putFailedConnection at 1.
    rewrite Hstarted. cbn [negb mbind option_bind]. exact IH.
  - unfold isFailed. by rewrite Hstarted.
Qed.

(** ** More on the construction of the plan *)

Lemma copyPerNode_acc nodes : forall attemps localAttemps,
  copyPerNode nodes attemps localAttemps
  = attemps ++ copyPerNode nodes [] localAttemps.
Proof.
  induction nodes as [|n IH]; intros attemps localAttemps; cbn [copyPerNode].
  - by rewrite app_nil_r.
  - rewrite (IH (attemps ++ localAttemps)), (IH ([] ++ localAttemps)).
    by rewrite <- app_assoc.
Qed.

Lemma copyPerNode_lookup nodes (localAttemps : list AttemptInfo) : forall i,
  i < nodes * length localAttemps ->
  copyPerNode nodes [] localAttemps !! i
  = localAttemps !! (i mod length localAttemps).
Proof.
  induction nodes as [|n IH]; intros i Hi; [lia|].
  cbn [copyPerNode]. rewrite copyPerNode_acc. cbn [app].
  destruct (decide (i < length localAttemps)) as [Hlt|Hge].
  - rewrite lookup_app_l by exact Hlt. by rewrite Nat.mod_small.
  - rewrite lookup_app_r by lia. rewrite IH by lia.
    replace (i mod length localAttemps)
      with ((i - length localAttemps + 1 * length localAttemps)
            mod length localAttemps)
      by (f_equal; lia).
    by rewrite Nat.Div0.mod_add.
Qed.

(** X6: the plan is periodic. The attempt at position i of the plan is the
    attempt at position i mod n of the sorted list of n attempts that the
    constructor builds once: the same sequence for every node, and a second
    time for all nodes. *)
Theorem plan_repeats_sorted_attempts w bStarted (bli : L) (portMap : PortMap)
    isProxyEnabled i :
  i < length (attemps_ (mkPolicy w bStarted bli portMap isProxyEnabled)) ->
  attemps_ (mkPolicy w bStarted bli portMap isProxyEnabled) !! i
  = sortedLocal w portMap isProxyEnabled
      !! (i mod length (sortedLocal w portMap isProxyEnabled)).
Proof.
  cbn [construct attemps_]. rewrite length_app, copyPerNode_length. cbn [length].
  set (l := sortedLocal w portMap isProxyEnabled). intros Hi.
  destruct (decide (i < nodesCount bli * length l)) as [Hlt|Hge].
  - rewrite lookup_app_l by (rewrite copyPerNode_length; cbn [length]; lia).
    by apply copyPerNode_lookup.
  - rewrite lookup_app_r by (rewrite copyPerNode_length; cbn [length]; lia).
    rewrite copyPerNode_length. cbn [length Nat.add].
    rewrite copyPerNode_lookup by lia.
    replace (i mod length l)
      with ((i - nodesCount bli * length l + nodesCount bli * length l)
            mod length l)
      by (f_equal; lia).
    by rewrite Nat.Div0.mod_add.
Qed.

Lemma buildLocalAttemps_elem_of isProxyEnabled counter items : forall i a,
  a ∈ buildLocal isProxyEnabled counter items i ->
  exists j item,
    portMapInd a = i + j
    /\ items !! j = Some item
    /\ types.protocol item = protocol a
    /\ passes isProxyEnabled counter item = true
    /\ changeNode a = false.
Proof.
  induction items as [|item rest IH]; intros i a; cbn [buildLocalAttemps].
  - intros Ha. by apply elem_of_nil in Ha.
  - assert (forall b, b ∈ buildLocal isProxyEnabled counter rest (S i) ->
              exists j item',
                portMapInd b = i + j
                /\ (item :: rest) !! j = Some item'
                /\ types.protocol item' = protocol b
                /\ passes isProxyEnabled counter item' = true
                /\ changeNode b = false) as Hrest.
    { intros b Hb. destruct (IH _ _ Hb) as (j & item' & Hj & Hlook & Hrest).
      exists (S j), item'. split; [lia|]. split; [exact Hlook|exact Hrest]. }
    unfold eligible in *.
    destruct (isProxyEnabled && bool_decide (types.protocol item = OPENVPN_UDP))
      eqn:Hudp; [apply Hrest|].
    destruct ((MAX_IKEV2_FAILED_ATTEMPTS <=? counter)%Z
              && isIkev2Protocol (types.protocol item)) eqn:Hik; [apply Hrest|].
    intros Ha. apply elem_of_cons in Ha as [->|Ha]; [|by apply Hrest].
    exists 0, item. cbn [portMapInd protocol changeNode lookup list_lookup].
    rewrite Hudp, Hik. repeat split; try reflexivity. lia.
Qed.

Lemma buildLocalAttemps_complete isProxyEnabled counter items : forall i j item,
  items !! j = Some item ->
  passes isProxyEnabled counter item = true ->
  exists a,
    a ∈ buildLocal isProxyEnabled counter items i
    /\ portMapInd a = i + j
    /\ protocol a = types.protocol item.
Proof.
  induction items as [|item' rest IH]; intros i j item Hlook Hpass;
    [by rewrite lookup_nil in Hlook|].
  cbn [buildLocalAttemps].
  destruct j as [|j].
  - cbn in Hlook. injection Hlook as ->. unfold eligible in Hpass.
    apply andb_prop in Hpass as [Hudp Hik].
    apply negb_true_iff in Hudp, Hik. rewrite Hudp, Hik.
    eexists. split; [apply list_elem_of_here|]. cbn. split; [lia|reflexivity].
  - cbn in Hlook. destruct (IH (S i) j item Hlook Hpass) as (a & Ha & Hind & Hp).
    exists a. split; [|split; [lia|exact Hp]].
    destruct (isProxyEnabled && bool_decide (types.protocol item' = OPENVPN_UDP));
      [exact Ha|].
    destruct ((MAX_IKEV2_FAILED_ATTEMPTS <=? counter)%Z
              && isIkev2Protocol (types.protocol item')); [exact Ha|].
    by apply list_elem_of_further.
Qed.

(** Marking the last attempt changes neither protocols nor indices. *)
Lemma markLast_map {B} (g : AttemptInfo -> B) l :
  (forall a, g (setChangeNode true a) = g a) ->
  map g (markLast l) = map g l.
Proof.
  intros Hg. unfold markLast. case_bool_decide; [|reflexivity].
  apply list_eq. intros j. rewrite !list_lookup_fmap.
  destruct (decide (j = length l - 1)) as [->|Hne].
  - rewrite list_lookup_alter_eq. destruct (l !! (length l - 1)); cbn; [|reflexivity].
    by rewrite Hg.
  - rewrite list_lookup_alter_ne by congruence. reflexivity.
Qed.

Lemma markLast_elem_of l a :
  a ∈ markLast l ->
  exists b, b ∈ l /\ protocol a = protocol b /\ portMapInd a = portMapInd b.
Proof.
  intros Ha.
  apply list_elem_of_In, (in_map (fun a => (protocol a, portMapInd a))) in Ha.
  rewrite markLast_map in Ha by reflexivity.
  apply in_map_iff in Ha. destruct Ha as (b & Hb & Hin).
  exists b. apply list_elem_of_In in Hin. injection Hb as Hp Hi. auto.
Qed.

Lemma markLast_elem_of_inv l b :
  b ∈ l ->
  exists a, a ∈ markLast l /\ protocol a = protocol b /\ portMapInd a = portMapInd b.
Proof.
  intros Hb.
  apply list_elem_of_In, (in_map (fun a => (protocol a, portMapInd a))) in Hb.
  rewrite <- (markLast_map (fun a => (protocol a, portMapInd a)) l) in Hb
    by reflexivity.
  apply in_map_iff in Hb. destruct Hb as (a & Ha & Hin).
  exists a. apply list_elem_of_In in Hin. injection Ha as Hp Hi. auto.
Qed.

Lemma plan_elem_of_sorted w bStarted (bli : L) (portMap : PortMap) isProxyEnabled a :
  a ∈ attemps_ (mkPolicy w bStarted bli portMap isProxyEnabled) ->
  a ∈ sortedLocal w portMap isProxyEnabled.
Proof.
  cbn [construct attemps_]. intros Ha. apply elem_of_app in Ha.
  destruct Ha as [Ha|Ha];
    (apply copyPerNode_elem_of in Ha; destruct Ha as [Ha|Ha];
     [by apply elem_of_nil in Ha|exact Ha]).
Qed.

Lemma sorted_elem_of_plan w bStarted (bli : L) (portMap : PortMap) isProxyEnabled a :
  0 < nodesCount bli ->
  a ∈ sortedLocal w portMap isProxyEnabled ->
  a ∈ attemps_ (mkPolicy w bStarted bli portMap isProxyEnabled).
Proof.
  intros Hnodes Ha. cbn [construct attemps_]. apply elem_of_app. left.
  destruct (nodesCount bli) as [|n]; [lia|]. cbn [copyPerNode].
  rewrite copyPerNode_acc. cbn [app]. apply elem_of_app. by left.
Qed.

(** Every attempt of the plan points at the port map entry it was made for. *)
Lemma plan_attempt_entry w bStarted (bli : L) (portMap : PortMap) isProxyEnabled a :
  a ∈ attemps_ (mkPolicy w bStarted bli portMap isProxyEnabled) ->
  exists item,
    portMap !! portMapInd a = Some item
    /\ types.protocol item = protocol a
    /\ passes isProxyEnabled (failedIkev2Counter_ w) item = true.
Proof.
  intros Ha. apply plan_elem_of_sorted in Ha.
  unfold sortedLocalAttemps in Ha. rewrite moveSavedFirst_Permutation in Ha.
  apply markLast_elem_of in Ha. destruct Ha as (b & Hb & Hp & Hi).
  destruct (buildLocalAttemps_elem_of _ _ _ _ _ Hb)
    as (j & item & Hj & Hlook & Hproto & Hpass & _).
  exists item. rewrite Hi, Hj, Hp. cbn [Nat.add]. auto.
Qed.

(** X7: IKEv2 filter. Once the IKEv2 failure counter has reached
    [MAX_IKEV2_FAILED_ATTEMPTS], a newly built plan holds no IKEv2 attempt,
    whatever the port map, the proxy flag and the saved protocol. *)
Theorem ikev2_dropped_after_failures w bStarted (bli : L) (portMap : PortMap)
    isProxyEnabled :
  (MAX_IKEV2_FAILED_ATTEMPTS <= failedIkev2Counter_ w)%Z ->
  Forall (fun a => isIkev2Protocol (protocol a) = false)
    (attemps_ (mkPolicy w bStarted bli portMap isProxyEnabled)).
Proof.
  intros Hmax. apply Forall_forall. intros a Ha.
  destruct (plan_attempt_entry _ _ _ _ _ _ Ha) as (item & _ & <- & Hpass).
  unfold eligible in Hpass. apply andb_prop in Hpass as [_ Hik].
  apply negb_true_iff in Hik.
  rewrite (proj2 (Z.leb_le _ _) Hmax) in Hik. exact Hik.
Qed.

(** X8: every entry gets its attempts. With at least one node, every port map
    entry that passes the proxy test and the IKEv2 test has an attempt in the
    plan that carries its protocol and its index in the port map. *)
Theorem eligible_entry_is_attempted w bStarted (bli : L) (portMap : PortMap)
    isProxyEnabled j item :
  0 < nodesCount bli ->
  portMap !! j = Some item ->
  passes isProxyEnabled (failedIkev2Counter_ w) item = true ->
  exists a,
    a ∈ attemps_ (mkPolicy w bStarted bli portMap isProxyEnabled)
    /\ portMapInd a = j
    /\ protocol a = types.protocol item.
Proof.
  intros Hnodes Hlook Hpass.
  destruct (buildLocalAttemps_complete isProxyEnabled (failedIkev2Counter_ w)
              portMap 0 j item Hlook Hpass) as (b & Hb & Hi & Hp).
  destruct (markLast_elem_of_inv _ _ Hb) as (a & Ha & Hpa & Hia).
  cbn [Nat.add] in Hi. exists a. split; [|split; congruence].
  apply sorted_elem_of_plan; [exact Hnodes|].
  unfold sortedLocalAttemps. by rewrite moveSavedFirst_Permutation.
Qed.

(** X9: the descriptor always resolves. When every port map entry has at least
    one port, a policy that holds the plan built from the port map and whose
    cursor is inside the plan has a current connection descriptor; its
    protocol is that of the port map entry the attempt points at, and its port
    the first port of that entry. *)
Theorem descriptor_resolves_inside_plan w bStarted (bli : L) (portMap : PortMap)
    isProxyEnabled (q : @Policy L) :
  attemps_ q = attemps_ (mkPolicy w bStarted bli portMap isProxyEnabled) ->
  portMap_ q = portMap ->
  curAttempt_ q < length (attemps_ q) ->
  Forall (fun item => types.ports item ≠ []) portMap ->
  exists ccd cur item,
    getCurrentConnectionSettings getUseIpInd q = Some ccd
    /\ attemps_ q !! curAttempt_ q = Some cur
    /\ portMap !! portMapInd cur = Some item
    /\ ccd_protocol ccd = types.protocol item
    /\ types.ports item !! 0 = Some (port ccd).
Proof.
  intros Hatt Hmap Hcur Hports.
  destruct (lookup_lt_is_Some_2 _ _ Hcur) as [cur Hlook].
  assert (cur ∈ attemps_ (mkPolicy w bStarted bli portMap isProxyEnabled)) as Hin.
  { rewrite <- Hatt. by eapply list_elem_of_lookup_2. }
  destruct (plan_attempt_entry _ _ _ _ _ _ Hin) as (item & Hitem & Hproto & _).
  assert (exists port0, types.ports item !! 0 = Some port0) as [port0 Hport].
  { rewrite Forall_forall in Hports.
    specialize (Hports item (list_elem_of_lookup_2 _ _ _ Hitem)).
    destruct (types.ports item) as [|port0 rest]; [congruence|by exists port0]. }
  unfold getCurrentConnectionSettings.
  rewrite Hlook. cbn [mbind option_bind]. rewrite Hmap, Hitem.
  cbn [mbind option_bind]. rewrite Hport. cbn [mbind option_bind].
  eexists _, cur, item. split; [reflexivity|]. cbn [ccd_protocol port]. auto.
Qed.

Lemma filter_length_Permutation {A} (f : A -> bool) (l l' : list A) :
  l ≡ₚ l' -> length (List.filter f l) = length (List.filter f l').
Proof.
  induction 1 as [|x l l' _ IH|x y l|l l' l'' _ IH1 _ IH2]; cbn [List.filter].
  - reflexivity.
  - destruct (f x); cbn [length]; by rewrite IH.
  - destruct (f x), (f y); reflexivity.
  - by rewrite IH1.
Qed.

Lemma buildLocalAttemps_unmarked isProxyEnabled counter items i :
  List.filter changeNode (buildLocal isProxyEnabled counter items i) = [].
Proof.
  revert i. induction items as [|item rest IH]; intros i; cbn [buildLocalAttemps];
    [reflexivity|].
  destruct (isProxyEnabled && bool_decide (types.protocol item = OPENVPN_UDP));
    [apply IH|].
  destruct ((MAX_IKEV2_FAILED_ATTEMPTS <=? counter)%Z
            && isIkev2Protocol (types.protocol item)); [apply IH|].
  cbn [List.filter changeNode]. apply IH.
Qed.

Lemma markLast_snoc l a : markLast (l ++ [a]) = l ++ [setChangeNode true a].
Proof.
  unfold markLast. rewrite length_app. cbn [length].
  rewrite bool_decide_eq_true_2 by lia.
  replace (length l + 1 - 1) with (length l + 0) by lia.
  by rewrite alter_app_r.
Qed.

Lemma markLast_marks_one l :
  List.filter changeNode l = [] ->
  length (List.filter changeNode (markLast l)) = 1 `min` length l.
Proof.
  intros Hnone. destruct (decide (l = [])) as [->|Hne]; [reflexivity|].
  destruct (exists_last Hne) as (l' & a & ->).
  rewrite List.filter_app in Hnone. apply app_eq_nil in Hnone as [Hnone _].
  rewrite markLast_snoc, List.filter_app, Hnone, !length_app.
  unfold setChangeNode. cbn [List.filter changeNode length app]. lia.
Qed.

Lemma copyPerNode_filter_length (f : AttemptInfo -> bool) nodes :
  forall attemps localAttemps,
  length (List.filter f (copyPerNode nodes attemps localAttemps))
  = length (List.filter f attemps) + nodes * length (List.filter f localAttemps).
Proof.
  induction nodes as [|n IH]; intros attemps localAttemps; cbn [copyPerNode].
  - lia.
  - rewrite IH, List.filter_app, length_app. lia.
Qed.

(** X10: one node change per pass. Of the attempts the constructor lines up for
    one node exactly one is marked [changeNode], unless there is none at all;
    the plan holds 2 * N such marks. *)
Theorem one_node_change_per_pass w bStarted (bli : L) (portMap : PortMap)
    isProxyEnabled :
  length (List.filter changeNode (sortedLocal w portMap isProxyEnabled))
  = 1 `min` length (List.filter (passes isProxyEnabled (failedIkev2Counter_ w)) portMap)
  /\ length (List.filter changeNode
               (attemps_ (mkPolicy w bStarted bli portMap isProxyEnabled)))
     = 2 * nodesCount bli
       * (1 `min` length (List.filter (passes isProxyEnabled (failedIkev2Counter_ w))
                            portMap)).
Proof.
  assert (length (List.filter changeNode (sortedLocal w portMap isProxyEnabled))
          = 1 `min` length (List.filter (passes isProxyEnabled (failedIkev2Counter_ w))
                              portMap)) as Hone.
  { unfold sortedLocalAttemps.
    rewrite (filter_length_Permutation _ _ _ (moveSavedFirst_Permutation _ _)).
    rewrite markLast_marks_one by apply buildLocalAttemps_unmarked.
    by rewrite buildLocalAttemps_length. }
  split; [exact Hone|].
  cbn [construct attemps_].
  rewrite List.filter_app, length_app, copyPerNode_filter_length, Hone.
  cbn [List.filter length]. lia.
Qed.

Lemma first_occurrence saved (l : list AttemptInfo) b :
  b ∈ l ->
  protocol b = saved ->
  exists pre a post,
    l = pre ++ a :: post
    /\ protocol a = saved
    /\ Forall (fun c => protocol c ≠ saved) pre.
Proof.
  induction l as [|c l IH]; intros Hb Hp; [by apply elem_of_nil in Hb|].
  destruct (decide (protocol c = saved)) as [Hc|Hc].
  - exists [], c, l. repeat split; [exact Hc|constructor].
  - apply elem_of_cons in Hb as [->|Hb]; [congruence|].
    destruct (IH Hb Hp) as (pre & a & post & -> & Ha & Hpre).
    exists (c :: pre), a, post. repeat split; [exact Ha|by constructor].
Qed.

(** X11: a recorded success leads the next plan. If the name of a protocol is
    read back as that protocol, then after a success with it the policy built
    next has it as saved protocol, and, whenever an entry with that protocol
    passes the tests, starts its list of attempts with it, or with an IKEv2
    attempt followed by it. *)
Theorem recorded_success_leads_next_plan w (p : @Policy L) cur :
  attemps_ p !! curAttempt_ p = Some cur ->
  protocol cur ≠ UNINITIALIZED ->
  fromString (toLongString (protocol cur)) = protocol cur ->
  exists w',
    saveCurrentSuccessfullConnectionSettings toLongString w p = Some w'
    /\ lastSuccessProtocolSaved fromString w' = protocol cur
    /\ forall (portMap : PortMap) isProxyEnabled item,
         In item portMap ->
         passes isProxyEnabled (failedIkev2Counter_ w') item = true ->
         types.protocol item = protocol cur ->
         exists a,
           protocol a = protocol cur
           /\ (sortedLocal w' portMap isProxyEnabled !! 0 = Some a
               \/ exists first,
                    sortedLocal w' portMap isProxyEnabled !! 0 = Some first
                    /\ isIkev2Protocol (protocol first) = true
                    /\ sortedLocal w' portMap isProxyEnabled !! 1 = Some a).
Proof.
  intros Hcur Hinit Hname. unfold saveCurrentSuccessfullConnectionSettings.
  rewrite Hcur. cbn [mbind option_bind]. eexists. split; [reflexivity|].
  assert (forall counter,
            lastSuccessProtocolSaved fromString
              {| failedIkev2Counter_ := counter;
                 settings := <[successConnectionProtocol
                               := toLongString (protocol cur)]> (settings w) |}
            = protocol cur) as Hsaved.
  { intros counter. unfold lastSuccessProtocolSaved. cbn [settings].
    by rewrite lookup_insert_eq. }
  split; [apply Hsaved|].
  intros portMap isProxyEnabled item Hin Hpass Hproto.
  apply In_nth_error in Hin. destruct Hin as [j Hj].
  assert (portMap !! j = Some item) as Hlook.
  { clear -Hj. revert j Hj. induction portMap as [|x l IH]; intros [|j] Hj;
      try discriminate; [exact Hj|by apply IH]. }
  destruct (buildLocalAttemps_complete isProxyEnabled _ portMap 0 j item Hlook Hpass)
    as (b & Hb & _ & Hpb).
  destruct (markLast_elem_of_inv _ _ Hb) as (b' & Hb' & Hpb' & _).
  destruct (first_occurrence (protocol cur) _ b' Hb' ltac:(congruence))
    as (pre & a & post & Hsplit & Ha & Hpre).
  exists a. split; [exact Ha|].
  unfold sortedLocalAttemps. rewrite Hsaved. cbn [failedIkev2Counter_] in *.
  rewrite Hsplit.
  rewrite moveSavedFirst_split by assumption.
  destruct (pre ++ post) as [|first rest]; [by left|].
  destruct (isIkev2Protocol (protocol first)) eqn:Hik; [right|by left].
  exists first. auto.
Qed.
End PolicyFacts.

(** ** The plan on concrete port maps *)

Section PolicyExamples.
Import types AutoConnSettingsPolicy.

Example sample_plan_three :
  attemps_ (construct 4 sample_fromString sample_world true sample_location
              sample_portMap_three false)
  = [ {| protocol := IKEV2; portMapInd := 0; changeNode := false |};
      {| protocol := OPENVPN_UDP; portMapInd := 1; changeNode := false |};
      {| protocol := WIREGUARD; portMapInd := 2; changeNode := true |};
      {| protocol := IKEV2; portMapInd := 0; changeNode := false |};
      {| protocol := OPENVPN_UDP; portMapInd := 1; changeNode := false |};
      {| protocol := WIREGUARD; portMapInd := 2; changeNode := true |} ].
Proof. reflexivity. Qed.

Example sample_plan_three_wireguard_saved :
  attemps_ (construct 4 sample_fromString sample_world_wireguard true
              sample_location sample_portMap_three true)
  = [ {| protocol := IKEV2; portMapInd := 0; changeNode := false |};
      {| protocol := WIREGUARD; portMapInd := 2; changeNode := true |};
      {| protocol := IKEV2; portMapInd := 0; changeNode := false |};
      {| protocol := WIREGUARD; portMapInd := 2; changeNode := true |} ].
Proof. vm_compute. reflexivity. Qed.

End PolicyExamples.

Section PolicyWitnesses.
Import types AutoConnSettingsPolicy.

(** With an empty plan there is no attempt under the cursor to fail. *)
Example empty_plan_has_no_current_attempt :
  attemps_ sample_policy_empty = []
  /\ putFailedConnection (sample_world, sample_policy_empty) = None.
Proof. split; reflexivity. Qed.

Lemma putFailedConnection_exhausts_plan_witness :
  (bStarted_ sample_policy_tcp = true
   /\ curAttempt_ sample_policy_tcp = 0
   /\ bIsAllFailed_ sample_policy_tcp = false
   /\ attemps_ sample_policy_tcp ≠ [])
  /\ (forall k, k < length (attemps_ sample_policy_tcp) ->
        exists w' p',
          putFailedConnections k (sample_world, sample_policy_tcp) = Some (w', p')
          /\ isFailed p' = false)
  /\ (exists w' p',
        putFailedConnections (length (attemps_ sample_policy_tcp))
          (sample_world, sample_policy_tcp) = Some (w', p')
        /\ isFailed p' = true).
Proof.
  split.
  - repeat split; try reflexivity. vm_compute. discriminate.
  - apply (putFailedConnection_exhausts_plan sample_world sample_policy_tcp);
      try reflexivity.
    vm_compute. discriminate.
Defined.

(** C3 (as stated). With the proxy flag set and a port map of IKEv2,
    OpenVPN-UDP and WireGuard, the plan still holds the IKEv2 and the WireGuard
    attempts, both UDP-transported. *)
Lemma proxy_keeps_udp_transported :
  ~ Forall (fun a => udpTransported (protocol a) = false)
      (attemps_ (construct 4 sample_fromString sample_world true sample_location
                   sample_portMap_three true)).
Proof. intros Hall. apply Forall_inv in Hall. vm_compute in Hall. discriminate. Qed.

(** C5 (as stated). A success with OpenVPN-TCP after two IKEv2 failures: the
    settings hold the protocol name and nothing else, and the counter, 2 in
    this process, is not what the next process starts with. *)
Lemma failure_counter_not_persisted :
  exists w',
    saveCurrentSuccessfullConnectionSettings sample_toLongString
      sample_world_two_failures sample_policy_tcp = Some w'
    /\ failedIkev2Counter_ w' = 2%Z
    /\ settings w' = {[ successConnectionProtocol := "TCP" ]}
    /\ failedIkev2Counter_ (processRestart w') ≠ failedIkev2Counter_ w'.
Proof.
  eexists. split; [reflexivity|]. cbn [failedIkev2Counter_ settings processRestart].
  split; [reflexivity|]. split; [apply insert_empty|]. vm_compute. discriminate.
Qed.

Lemma success_saves_only_the_protocol_witness :
  attemps_ sample_policy_tcp !! curAttempt_ sample_policy_tcp
  = Some {| protocol := OPENVPN_TCP; portMapInd := 0; changeNode := true |}
  /\ exists w',
       saveCurrentSuccessfullConnectionSettings sample_toLongString
         sample_world_two_failures sample_policy_tcp = Some w'
       /\ settings w' !! successConnectionProtocol = Some "TCP"
       /\ failedIkev2Counter_ w' = 2%Z
       /\ failedIkev2Counter_ (processRestart w') = 0%Z.
Proof.
  split; [reflexivity|].
  destruct (success_saves_only_the_protocol sample_toLongString
              sample_world_two_failures sample_policy_tcp
              {| protocol := OPENVPN_TCP; portMapInd := 0; changeNode := true |}
              eq_refl)
    as (w' & Hsave & Hkey & _ & _ & Hcounter & Hrestart & _).
  exists w'. auto.
Defined.

(** C6 (as stated). One OpenVPN-TCP entry with the ports 443 and 1194: the
    first attempt and, after its failure, the second attempt resolve the same
    entry, and both select 443; the second port is not selected. *)
Lemma second_attempt_selects_same_port :
  exists w1 p1 ccd0 ccd1,
    putFailedConnection (sample_world, sample_policy_tcp) = Some (w1, p1)
    /\ getCurrentConnectionSettings sample_getUseIpInd sample_policy_tcp = Some ccd0
    /\ getCurrentConnectionSettings sample_getUseIpInd p1 = Some ccd1
    /\ portMapInd <$> attemps_ sample_policy_tcp !! curAttempt_ sample_policy_tcp
       = Some 0
    /\ portMapInd <$> attemps_ p1 !! curAttempt_ p1 = Some 0
    /\ (ports <$> sample_portMap_tcp !! 0) = Some [443; 1194]%Z
    /\ port ccd0 = 443%Z
    /\ port ccd1 = 443%Z
    /\ Some (port ccd1) ≠ [443; 1194]%Z !! 1.
Proof.
  do 4 eexists. split; [reflexivity|]. split; [reflexivity|].
  split; [reflexivity|]. repeat split. vm_compute. discriminate.
Qed.

Lemma attempt_selects_first_port_witness :
  getCurrentConnectionSettings sample_getUseIpInd sample_policy_tcp
  = Some {| connectionNodeType := CONNECTION_NODE_DEFAULT;
            ccd_protocol := OPENVPN_TCP;
            port := 443;
            ip := "";
            hostname := "";
            dnsHostName := "";
            wgPeerPublicKey := "";
            verifyX509name := "";
            username := "";
            password := "";
            staticIpPorts := [] |}
  /\ exists cur item,
       attemps_ sample_policy_tcp !! curAttempt_ sample_policy_tcp = Some cur
       /\ portMap_ sample_policy_tcp !! portMapInd cur = Some item
       /\ ports item !! 0 = Some 443%Z.
Proof.
  split; [reflexivity|].
  exact (proj1 (attempt_selects_first_port sample_getUseIpInd sample_policy_tcp
                  _ eq_refl)).
Defined.

Lemma saved_protocol_reinserted_witness :
  (lastSuccessProtocolSaved sample_fromString sample_world_wireguard
   ≠ UNINITIALIZED
   /\ markLast (buildLocalAttemps 4 false 0 sample_portMap_three 0)
      = [ {| protocol := IKEV2; portMapInd := 0; changeNode := false |};
          {| protocol := OPENVPN_UDP; portMapInd := 1; changeNode := false |} ]
        ++ {| protocol := WIREGUARD; portMapInd := 2; changeNode := true |} :: []
   /\ WIREGUARD = lastSuccessProtocolSaved sample_fromString sample_world_wireguard
   /\ lastSuccessProtocolSaved sample_fromString sample_world_wireguard ≠ IKEV2)
  /\ sortedLocalAttemps 4 sample_fromString sample_world_wireguard
       sample_portMap_three false !! 1
     = Some {| protocol := WIREGUARD; portMapInd := 2; changeNode := true |}
  /\ attemps_ (construct 4 sample_fromString sample_world_wireguard true
                 sample_location sample_portMap_three false) !! 1
     = Some {| protocol := WIREGUARD; portMapInd := 2; changeNode := true |}.
Proof.
  assert (lastSuccessProtocolSaved sample_fromString sample_world_wireguard
          = WIREGUARD) as Hsaved by (vm_compute; reflexivity).
  split.
  - rewrite Hsaved. repeat split; try discriminate.
  - destruct (saved_protocol_reinserted 4 sample_fromString
                sample_world_wireguard true sample_location sample_portMap_three
                false
                [ {| protocol := IKEV2; portMapInd := 0; changeNode := false |};
                  {| protocol := OPENVPN_UDP; portMapInd := 1; changeNode := false |} ]
                {| protocol := WIREGUARD; portMapInd := 2; changeNode := true |}
                [])
      as (_ & _ & _ & Hparticular).
    + rewrite Hsaved. discriminate.
    + reflexivity.
    + rewrite Hsaved. reflexivity.
    + rewrite Hsaved. repeat constructor; discriminate.
    + destruct (Hparticular ltac:(rewrite Hsaved; discriminate) _ eq_refl eq_refl)
        as (_ & Hlocal & Hplan).
      split; [exact Hlocal|]. apply Hplan. vm_compute. lia.
Defined.


(** ** Witnesses for the further properties *)

Lemma isFailed_after_any_number_of_calls_witness :
  (bStarted_ sample_policy_three = true
   /\ curAttempt_ sample_policy_three = 0
   /\ bIsAllFailed_ sample_policy_three = false
   /\ attemps_ sample_policy_three ≠ [])
  /\ exists w' p',
       putFailedConnections 20 (sample_world, sample_policy_three) = Some (w', p')
       /\ curAttempt_ p' = 11
       /\ isFailed p' = true.
Proof.
  split; [repeat split; try reflexivity; vm_compute; discriminate|].
  destruct (isFailed_after_any_number_of_calls 20 sample_world sample_policy_three)
    as (w' & p' & Hputs & _ & Hc & _ & Hf);
    try reflexivity; [vm_compute; discriminate|].
  exists w', p'. auto.
Defined.

Lemma nodes_advanced_by_failed_attempts_witness :
  (bStarted_ sample_policy_three = true
   /\ curAttempt_ sample_policy_three = 0
   /\ bIsAllFailed_ sample_policy_three = false
   /\ attemps_ sample_policy_three ≠ [])
  /\ exists w' p',
       putFailedConnections 12 (sample_world, sample_policy_three) = Some (w', p')
       /\ locationInfo_ p' = {| sample_nodes := 2; sample_selected := 3 |}.
Proof.
  split; [repeat split; try reflexivity; vm_compute; discriminate|].
  destruct (nodes_advanced_by_failed_attempts 12 sample_world sample_policy_three)
    as (w' & p' & Hputs & Hloc);
    try reflexivity; [vm_compute; discriminate|].
  exists w', p'. auto.
Defined.

Lemma ikev2_counter_counts_once_witness :
  (bStarted_ sample_policy_three = true
   /\ curAttempt_ sample_policy_three = 0
   /\ bIsAllFailed_ sample_policy_three = false
   /\ attemps_ sample_policy_three ≠ [])
  /\ exists w' p',
       putFailedConnections 12 (sample_world_two_failures, sample_policy_three)
       = Some (w', p')
       /\ failedIkev2Counter_ w' = 3%Z
       /\ settings w' = ∅.
Proof.
  split; [repeat split; try reflexivity; vm_compute; discriminate|].
  destruct (ikev2_counter_counts_once 12 sample_world_two_failures
              sample_policy_three)
    as (w' & p' & Hputs & Hset & Hcount & _);
    try reflexivity; [vm_compute; discriminate|].
  exists w', p'. auto.
Defined.

Lemma reset_restarts_the_same_plan_witness :
  (bStarted_ sample_policy_three = true
   /\ curAttempt_ sample_policy_three = 0
   /\ bIsAllFailed_ sample_policy_three = false
   /\ attemps_ sample_policy_three ≠ [])
  /\ exists w1 p1 w2 p2,
       putFailedConnections 12 (sample_world, sample_policy_three) = Some (w1, p1)
       /\ isFailed (reset p1) = false
       /\ putFailedConnections 12 (w1, reset p1) = Some (w2, p2)
       /\ isFailed p2 = true
       /\ (failedIkev2Counter_ w2 <= 1)%Z.
Proof.
  split; [repeat split; try reflexivity; vm_compute; discriminate|].
  destruct (reset_restarts_the_same_plan 12 12 sample_world sample_policy_three)
    as (w1 & p1 & w2 & p2 & Hputs & _ & _ & Hf1 & Hputs2 & _ & Hf2 & Hcount);
    try reflexivity; [vm_compute; discriminate|].
  exists w1, p1, w2, p2. repeat split; try assumption.
  change (failedIkev2Counter_ sample_world) with 0%Z in Hcount. lia.
Defined.

Lemma not_started_ignores_failures_witness :
  bStarted_ sample_policy_not_started = false
  /\ putFailedConnections 30 (sample_world, sample_policy_not_started)
     = Some (sample_world, sample_policy_not_started)
  /\ isFailed sample_policy_not_started = false.
Proof.
  split; [reflexivity|].
  exact (not_started_ignores_failures 30 sample_world sample_policy_not_started
           eq_refl).
Defined.

Lemma plan_repeats_sorted_attempts_witness :
  7 < length (attemps_ sample_policy_three)
  /\ attemps_ sample_policy_three !! 7
     = Some {| protocol := OPENVPN_UDP; portMapInd := 1; changeNode := false |}.
Proof.
  assert (7 < length (attemps_ sample_policy_three)) as Hlt by (vm_compute; lia).
  split; [exact Hlt|].
  unfold sample_policy_three in *.
  rewrite (plan_repeats_sorted_attempts 4 sample_fromString sample_world true
             sample_location_two_nodes sample_portMap_three false 7 Hlt).
  reflexivity.
Defined.

Lemma ikev2_dropped_after_failures_witness :
  (4 <= failedIkev2Counter_ sample_world_four_failures)%Z
  /\ Forall (fun a => isIkev2Protocol (protocol a) = false)
       (attemps_ (construct 4 sample_fromString sample_world_four_failures true
                    sample_location sample_portMap_three false)).
Proof.
  assert (4 <= failedIkev2Counter_ sample_world_four_failures)%Z as Hmax
    by (vm_compute; discriminate).
  split; [exact Hmax|].
  exact (ikev2_dropped_after_failures 4 sample_fromString
           sample_world_four_failures true sample_location sample_portMap_three
           false Hmax).
Defined.

Lemma eligible_entry_is_attempted_witness :
  (0 < nodesCount sample_location_two_nodes
   /\ sample_portMap_three !! 2
      = Some {| types.protocol := WIREGUARD; ports := [51820]%Z |}
   /\ eligible 4 true 0
        {| types.protocol := WIREGUARD; ports := [51820]%Z |} = true)
  /\ exists a,
       a ∈ attemps_ (construct 4 sample_fromString sample_world true
                       sample_location_two_nodes sample_portMap_three true)
       /\ portMapInd a = 2
       /\ protocol a = WIREGUARD.
Proof.
  assert (0 < nodesCount sample_location_two_nodes) as Hnodes by (vm_compute; lia).
  split; [repeat split; try reflexivity; exact Hnodes|].
  exact (eligible_entry_is_attempted 4 sample_fromString sample_world true
           sample_location_two_nodes sample_portMap_three true 2
           {| types.protocol := WIREGUARD; ports := [51820]%Z |}
           Hnodes eq_refl eq_refl).
Defined.

Lemma descriptor_resolves_inside_plan_witness :
  (curAttempt_ sample_policy_three < length (attemps_ sample_policy_three)
   /\ Forall (fun item => ports item ≠ []) sample_portMap_three)
  /\ exists ccd,
       getCurrentConnectionSettings sample_getUseIpInd sample_policy_three
       = Some ccd
       /\ ccd_protocol ccd = IKEV2
       /\ port ccd = 500%Z.
Proof.
  assert (curAttempt_ sample_policy_three < length (attemps_ sample_policy_three))
    as Hcur by (vm_compute; lia).
  assert (Forall (fun item => ports item ≠ []) sample_portMap_three) as Hports
    by (repeat constructor; discriminate).
  split; [by split|].
  destruct (descriptor_resolves_inside_plan 4 sample_fromString sample_getUseIpInd
              sample_world true sample_location_two_nodes sample_portMap_three
              false sample_policy_three eq_refl eq_refl Hcur Hports)
    as (ccd & cur & item & Hccd & Hlook & Hitem & Hproto & Hport).
  exists ccd. split; [exact Hccd|].
  vm_compute in Hlook. injection Hlook as <-.
  vm_compute in Hitem. injection Hitem as <-.
  split; [exact Hproto|]. vm_compute in Hport. by injection Hport.
Defined.

Lemma recorded_success_leads_next_plan_witness :
  (attemps_ sample_policy_tcp !! curAttempt_ sample_policy_tcp
   = Some {| protocol := OPENVPN_TCP; portMapInd := 0; changeNode := true |}
   /\ OPENVPN_TCP ≠ UNINITIALIZED
   /\ sample_fromString (sample_toLongString OPENVPN_TCP) = OPENVPN_TCP)
  /\ exists w',
       saveCurrentSuccessfullConnectionSettings sample_toLongString sample_world
         sample_policy_tcp = Some w'
       /\ lastSuccessProtocolSaved sample_fromString w' = OPENVPN_TCP.
Proof.
  split; [repeat split; try reflexivity; discriminate|].
  destruct (recorded_success_leads_next_plan 4 sample_toLongString
              sample_fromString sample_world sample_policy_tcp
              {| protocol := OPENVPN_TCP; portMapInd := 0; changeNode := true |}
              eq_refl ltac:(discriminate) eq_refl)
    as (w' & Hsave & Hsaved & _).
  exists w'. auto.
Defined.
End PolicyWitnesses.

(** * Properties of the WireGuard connection *)

Section WireGuardFacts.
Import WireGuardConnection.

(** Membership in an explicit list of outputs. *)
Ltac not_among :=
  let Hin := fresh "Hin" in
  intros Hin;
  repeat (apply elem_of_cons in Hin as [Hin|Hin]; [discriminate Hin|]);
  by apply elem_of_nil in Hin.

Ltac among :=
  repeat first [apply list_elem_of_here | apply list_elem_of_further].

Example sample_run_timeout :
  snd (run sample_env_timeout (startConnect true constructed))
  = [helper_enableDnsLeaksProtection;
     error STATE_TIMEOUT_FOR_AUTOMATIC; quit;
     helper_stopWireGuard; disconnected; helper_disableDnsLeaksProtection].
Proof. vm_compute. reflexivity. Qed.

Example sample_run_connected :
  snd (run sample_env_connected (startConnect true constructed))
  = [helper_enableDnsLeaksProtection; connected; quit;
     helper_stopWireGuard; disconnected; helper_disableDnsLeaksProtection].
Proof. vm_compute. reflexivity. Qed.

(** C9. [startDisconnect] on a connection whose thread is not running and
    whose service is stopped, or stopping, emits [disconnected] and nothing
    else; a connection that was never started is such a connection, whatever
    the service control manager would answer. *)
Theorem startDisconnect_not_running_emits_disconnected query c :
  isRunning c = false ->
  isDisconnected query c = true ->
  startDisconnect query c = (c, [disconnected])
  /\ forall query', startDisconnect query' constructed = (constructed, [disconnected]).
Proof.
  intros Hrun Hdis. split.
  - unfold startDisconnect. by rewrite Hrun, Hdis.
  - intros query'. reflexivity.
Qed.

Lemma startDisconnect_not_running_emits_disconnected_witness :
  (isRunning (threadFinished (startConnect true constructed)) = false
   /\ isDisconnected (Some SERVICE_STOP_PENDING)
        (setServiceOpen true (threadFinished (startConnect true constructed)))
      = true)
  /\ startDisconnect (Some SERVICE_STOP_PENDING)
       (setServiceOpen true (threadFinished (startConnect true constructed)))
     = (setServiceOpen true (threadFinished (startConnect true constructed)),
        [disconnected]).
Proof.
  split; [split; reflexivity|].
  exact (proj1 (startDisconnect_not_running_emits_disconnected
                  (Some SERVICE_STOP_PENDING)
                  (setServiceOpen true (threadFinished (startConnect true constructed)))
                  eq_refl eq_refl)).
Defined.

(** A service that is open and running keeps [startDisconnect] silent. *)
Example startDisconnect_service_running :
  startDisconnect (Some SERVICE_RUNNING)
    (setServiceOpen true (threadFinished (startConnect true constructed)))
  = (setServiceOpen true (threadFinished (startConnect true constructed)), []).
Proof. reflexivity. Qed.

(** What a slot may do to the object and emit, as far as the timeout of the
    automatic mode is concerned: no timeout error, [connectedSignalEmited_] set
    exactly when [connected] is emitted, mode and stop request as they were
    unless the owner asked to stop. *)
Lemma onWireguardHandshakeFailure_outputs poll :
  onWireguardHandshakeFailure poll = [] \/ onWireguardHandshakeFailure poll = [quit].
Proof. unfold onWireguardHandshakeFailure. repeat case_match; auto. Qed.

Lemma onGetWireguardStats_outputs status c c' out :
  onGetWireguardStats status c = (c', out) ->
  (error STATE_TIMEOUT_FOR_AUTOMATIC ∉ out)
  /\ (quit ∉ out)
  /\ (connectedSignalEmited_ c' = true
      <-> connectedSignalEmited_ c = true \/ connected ∈ out)
  /\ isAutomaticConnectionMode_ c' = isAutomaticConnectionMode_ c
  /\ stopRequested_ c' = stopRequested_ c.
Proof.
  unfold onGetWireguardStats, onTunnelConnected.
  destruct status as [st|]; [destruct (bool_decide (state st = ACTIVE));
    [destruct (connectedSignalEmited_ c) eqn:Hc, (0 <? lastHandshake st)%Z|]|];
    cbn; intros [= <- <-]; cbn; rewrite ?Hc;
    (split; [not_among|]); (split; [not_among|]);
    (split; [|by split]); split; auto; try (intros _; right; among);
    try (intros [Hf|Hin]; [first [exact Hf|discriminate Hf]|exfalso; revert Hin; not_among]).
Qed.

Lemma onGetWireguardLogUpdates_outputs poll c c' out :
  onGetWireguardLogUpdates poll c = (c', out) ->
  (error STATE_TIMEOUT_FOR_AUTOMATIC ∉ out)
  /\ (connectedSignalEmited_ c' = true
      <-> connectedSignalEmited_ c = true \/ connected ∈ out)
  /\ isAutomaticConnectionMode_ c' = isAutomaticConnectionMode_ c
  /\ stopRequested_ c' = stopRequested_ c.
Proof.
  unfold onGetWireguardLogUpdates, onTunnelConnected.
  destruct (wireguardLog c);
    [destruct (onWireguardHandshakeFailure_outputs poll) as [-> | ->];
     destruct (connectedSignalEmited_ c) eqn:Hc, (isTunnelRunning poll),
       (handshakeFailed poll)|];
    cbn; intros [= <- <-]; cbn; rewrite ?Hc;
    (split; [not_among|]);
    (split; [|by split]); split; auto; try (intros _; right; among);
    try (intros [Hf|Hin]; [first [exact Hf|discriminate Hf]|exfalso; revert Hin; not_among]).
Qed.

Lemma dispatch_outputs pending c ev pending' c' out :
  dispatch pending c ev = (pending', (c', out)) ->
  (ev ≠ timerTimeoutForAutomatic -> pending' = pending)
  /\ (pending = false -> pending' = false)
  /\ (pending = false \/ ev ≠ timerTimeoutForAutomatic ->
      error STATE_TIMEOUT_FOR_AUTOMATIC ∉ out)
  /\ (connectedSignalEmited_ c' = true
      <-> connectedSignalEmited_ c = true \/ connected ∈ out).
Proof.
  destruct ev as [status|query|poll| |]; cbn [dispatch].
  - destruct (onGetWireguardStats status c) as [c1 out1] eqn:Hs.
    intros [= <- <- <-].
    destruct (onGetWireguardStats_outputs _ _ _ _ Hs) as (? & _ & ? & _). auto.
  - unfold onCheckServiceRunning.
    destruct (isDisconnected query c); intros [= <- <- <-];
      (split; [auto|]); (split; [auto|]); (split; [intros _; not_among|]);
      (split; [auto|]); (intros [Hf|Hin]; [exact Hf|exfalso; revert Hin; not_among]).
  - destruct (onGetWireguardLogUpdates poll c) as [c1 out1] eqn:Hs.
    intros [= <- <- <-].
    destruct (onGetWireguardLogUpdates_outputs _ _ _ _ Hs) as (? & ? & _). auto.
  - unfold onAutomaticConnectionTimeout.
    destruct pending, (connectedSignalEmited_ c) eqn:Hc; cbn; intros [= <- <- <-];
      (split; [congruence|]); (split; [auto|]); rewrite ?Hc;
      (split;
       [first [intros _; not_among
              |intros [Hf|Hf]; [discriminate Hf|congruence]]|]);
      (split; [auto|]);
      (intros [Hf|Hin]; [exact Hf|exfalso; revert Hin; not_among]).
  - unfold startDisconnect.
    destruct (isRunning c); [|destruct (isDisconnected None c)];
      intros [= <- <- <-]; cbn;
      (split; [auto|]); (split; [auto|]); (split; [intros _; not_among|]);
      (split; [auto|]); (intros [Hf|Hin]; [exact Hf|exfalso; revert Hin; not_among]).
Qed.

Lemma exec_running_no_quit pending c events : forall c1 out1,
  exec pending c events = (c1, out1, false) -> quit ∉ out1.
Proof.
  revert pending c. induction events as [|ev rest IH]; intros pending c c1 out1.
  - cbn [exec]. intros [= <- <-]. not_among.
  - cbn [exec]. destruct (dispatch pending c ev) as [pending' [c' out]].
    destruct (quitCalled out) eqn:Hq; [discriminate|].
    destruct (exec pending' c' rest) as [[c2 out2] returned] eqn:Hrest.
    intros [= <- <- ->]. apply bool_decide_eq_false in Hq.
    specialize (IH _ _ _ _ Hrest). intros Hin. apply elem_of_app in Hin. tauto.
Qed.

Lemma exec_app pending c pre events : forall c1 out1,
  timerTimeoutForAutomatic ∉ pre ->
  exec pending c pre = (c1, out1, false) ->
  exec pending c (pre ++ events)
  = (let '(c2, out2, returned) := exec pending c1 events in
     (c2, out1 ++ out2, returned)).
Proof.
  revert pending c. induction pre as [|ev rest IH]; intros pending c c1 out1 Hpre.
  - cbn [exec app]. intros [= <- <-].
    by destruct (exec pending c events) as [[c2 out2] returned].
  - apply not_elem_of_cons in Hpre. destruct Hpre as [Hev Hrest].
    cbn [exec app].
    destruct (dispatch pending c ev) as [pending' [c' out]] eqn:Hd.
    destruct (dispatch_outputs _ _ _ _ _ _ Hd) as (Hpending & _).
    rewrite (Hpending (not_eq_sym Hev)).
    destruct (quitCalled out); [discriminate|].
    destruct (exec pending c' rest) as [[c2 out2] returned] eqn:Hexec.
    intros [= <- <- ->]. rewrite (IH _ _ _ _ Hrest Hexec).
    destruct (exec pending c2 events) as [[c3 out3] returned].
    by rewrite app_assoc.
Qed.

Lemma exec_no_timeout_error pending c events :
  pending = false \/ timerTimeoutForAutomatic ∉ events ->
  error STATE_TIMEOUT_FOR_AUTOMATIC ∉ snd (fst (exec pending c events)).
Proof.
  revert pending c. induction events as [|ev rest IH]; intros pending c Hcase.
  - cbn. not_among.
  - cbn [exec]. destruct (dispatch pending c ev) as [pending' [c' out]] eqn:Hd.
    destruct (dispatch_outputs _ _ _ _ _ _ Hd) as (Hsame & Hoff & Hout & _).
    assert (error STATE_TIMEOUT_FOR_AUTOMATIC ∉ out) as Hnot.
    { apply Hout. destruct Hcase as [Hp|Hin]; [by left|right].
      intros ->. apply Hin. among. }
    destruct (quitCalled out); [exact Hnot|].
    assert (pending' = false \/ timerTimeoutForAutomatic ∉ rest) as Hcase'.
    { destruct Hcase as [Hp|Hin]; [left; by apply Hoff|right].
      intros Hin'. apply Hin. by apply list_elem_of_further. }
    specialize (IH pending' c' Hcase').
    destruct (exec pending' c' rest) as [[c2 out2] returned]. cbn in *.
    intros Hin. apply elem_of_app in Hin. tauto.
Qed.

Lemma exec_connected_flag pending c events : forall c1 out returned,
  exec pending c events = (c1, out, returned) ->
  connectedSignalEmited_ c1 = true
  <-> connectedSignalEmited_ c = true \/ connected ∈ out.
Proof.
  revert pending c. induction events as [|ev rest IH]; intros pending c c1 out returned.
  - cbn [exec]. intros [= <- <- <-]. split; [by left|].
    intros [Hf|Hin]; [exact Hf|by apply elem_of_nil in Hin].
  - cbn [exec]. destruct (dispatch pending c ev) as [pending' [c' out']] eqn:Hd.
    destruct (dispatch_outputs _ _ _ _ _ _ Hd) as (_ & _ & _ & Hflag).
    destruct (quitCalled out'); [intros [= <- <- <-]; exact Hflag|].
    destruct (exec pending' c' rest) as [[c2 out2] returned'] eqn:Hexec.
    intros [= <- <- <-]. rewrite (IH _ _ _ _ _ Hexec), Hflag, elem_of_app. tauto.
Qed.

(** The first poll of the log and of the statistics, before [exec()]. *)
Lemma first_polls env c cA outA cB outB :
  onGetWireguardLogUpdates (env_firstLogPoll env) c = (cA, outA) ->
  (if negb (connectedSignalEmited_ cA)
   then onGetWireguardStats (env_firstStats env) cA else (cA, [])) = (cB, outB) ->
  (error STATE_TIMEOUT_FOR_AUTOMATIC ∉ outA ++ outB)
  /\ (connectedSignalEmited_ cB = true
      <-> connectedSignalEmited_ c = true \/ connected ∈ outA ++ outB)
  /\ isAutomaticConnectionMode_ cB = isAutomaticConnectionMode_ c
  /\ stopRequested_ cB = stopRequested_ c.
Proof.
  intros HA HB.
  destruct (onGetWireguardLogUpdates_outputs _ _ _ _ HA) as (HeA & HfA & HmA & HsA).
  destruct (connectedSignalEmited_ cA) eqn:HcA; cbn [negb] in HB.
  - injection HB as <- <-. rewrite app_nil_r, HcA. repeat split; auto.
    intros _. by apply HfA.
  - destruct (onGetWireguardStats_outputs _ _ _ _ HB) as (HeB & _ & HfB & HmB & HsB).
    split; [intros Hin; apply elem_of_app in Hin; tauto|].
    split; [|split; congruence].
    rewrite HfB, elem_of_app. rewrite ?HcA. intuition congruence.
Qed.

(** The part of [run()] after the service has started, up to and including
    the timeout of the automatic mode. *)
Lemma runStarted_timeout env c pre post c1 out1 :
  connectedSignalEmited_ c = false ->
  isAutomaticConnectionMode_ c = true ->
  stopRequested_ c = false ->
  env_events env = pre ++ timerTimeoutForAutomatic :: post ->
  timerTimeoutForAutomatic ∉ pre ->
  runStarted (withEvents pre env) c = (c1, out1, false) ->
  (error STATE_TIMEOUT_FOR_AUTOMATIC ∉ out1)
  /\ (quit ∉ out1)
  /\ (connected ∉ out1 ->
      connectedSignalEmited_ c1 = false
      /\ exists c2 out4,
           onGetWireguardStats (env_finalStats env) c1 = (c2, out4)
           /\ runStarted env c
              = (c2, (out1 ++ [error STATE_TIMEOUT_FOR_AUTOMATIC; quit]) ++ out4, true))
  /\ (connected ∈ out1 ->
      connectedSignalEmited_ c1 = true
      /\ error STATE_TIMEOUT_FOR_AUTOMATIC ∉ snd (fst (runStarted env c))).
Proof.
  intros Hflag Hmode Hstop Hevents Hpre. unfold runStarted.
  cbn [withEvents env_firstLogPoll env_firstStats env_events env_finalStats].
  destruct (onGetWireguardLogUpdates (env_firstLogPoll env) c) as [cA outA] eqn:HA.
  destruct (if negb (connectedSignalEmited_ cA)
            then onGetWireguardStats (env_firstStats env) cA else (cA, []))
    as [cB outB] eqn:HB.
  destruct (first_polls _ _ _ _ _ _ HA HB) as (HeAB & HfB & HmB & HsB).
  rewrite HsB, Hstop, HmB, Hmode. cbn [negb].
  destruct (quitCalled (outA ++ outB)) eqn:Hq.
  { destruct (onGetWireguardStats (env_finalStats env) cB). discriminate. }
  apply bool_decide_eq_false in Hq.
  destruct (exec true cB pre) as [[c3 out3] returned] eqn:Hexec.
  destruct returned.
  { destruct (onGetWireguardStats (env_finalStats env) c3). discriminate. }
  intros [= <- <-].
  pose proof (exec_running_no_quit _ _ _ _ _ Hexec) as Hq3.
  pose proof (exec_no_timeout_error true cB pre (or_intror Hpre)) as He3.
  rewrite Hexec in He3. cbn [fst snd] in He3.
  pose proof (exec_connected_flag _ _ _ _ _ _ Hexec) as Hf3.
  rewrite Hevents, (exec_app _ _ _ _ _ _ Hpre Hexec).
  cbn [exec dispatch]. unfold onAutomaticConnectionTimeout.
  split.
  { intros Hin. apply elem_of_cons in Hin as [Hin|Hin]; [discriminate|].
    rewrite app_assoc in Hin. apply elem_of_app in Hin. tauto. }
  split.
  { intros Hin. apply elem_of_cons in Hin as [Hin|Hin]; [discriminate|].
    rewrite app_assoc in Hin. apply elem_of_app in Hin. tauto. }
  split.
  - intros Hnot.
    assert (connectedSignalEmited_ c3 = false) as Hc3.
    { destruct (connectedSignalEmited_ c3) eqn:Hc3; [|reflexivity].
      exfalso. apply Hnot. apply list_elem_of_further.
      rewrite app_assoc. apply elem_of_app.
      destruct (proj1 Hf3 eq_refl) as [HcB|Hin]; [left|by right].
      destruct (proj1 HfB HcB) as [Hc|Hin]; [congruence|exact Hin]. }
    split; [exact Hc3|]. rewrite Hc3. cbn [negb].
    unfold quitCalled. rewrite bool_decide_eq_true_2 by among.
    destruct (onGetWireguardStats (env_finalStats env) c3) as [c4 out4].
    exists c4, out4. split; [reflexivity|].
    f_equal. f_equal. cbn [app]. f_equal. by rewrite <- !app_assoc.
  - intros Hin.
    assert (connectedSignalEmited_ c3 = true) as Hc3.
    { apply elem_of_cons in Hin as [Hin|Hin]; [discriminate|].
      rewrite app_assoc in Hin. apply elem_of_app in Hin.
      apply Hf3. destruct Hin as [Hin|Hin]; [left|by right].
      apply HfB. by right. }
    split; [exact Hc3|]. rewrite Hc3. cbn [negb].
    unfold quitCalled at 1. rewrite bool_decide_eq_false_2 by not_among.
    pose proof (exec_no_timeout_error false c3 post (or_introl eq_refl)) as He5.
    destruct (exec false c3 post) as [[c5 out5] returned5]. cbn [fst snd] in He5.
    assert (error STATE_TIMEOUT_FOR_AUTOMATIC
            ∉ helper_enableDnsLeaksProtection
              :: outA ++ outB ++ out3 ++ [] ++ out5) as Hbefore.
    { intros Hin'. apply elem_of_cons in Hin' as [Hin'|Hin']; [discriminate|].
      rewrite app_assoc in Hin'. apply elem_of_app in Hin' as [Hin'|Hin']; [tauto|].
      apply elem_of_app in Hin' as [Hin'|Hin']; [tauto|]. tauto. }
    destruct returned5; [|exact Hbefore].
    destruct (onGetWireguardStats (env_finalStats env) c5) as [c6 out6] eqn:H6.
    destruct (onGetWireguardStats_outputs _ _ _ _ H6) as (He6 & _).
    cbn [fst snd]. intros Hin'. apply elem_of_app in Hin'. tauto.
Qed.

(** C8. In automatic mode, with the service started and the thread inside
    [exec()], the first timeout of the single-shot timer does one of two
    things.  If no [connected] has been emitted in this run, the slot emits the
    error [STATE_TIMEOUT_FOR_AUTOMATIC] and calls [quit()]; the outputs of the
    whole run then hold that error once and that call once.  If [connected] has
    been emitted, the slot emits nothing and the run holds no such error. *)
Theorem automatic_timeout_fires_once env c0 pre post c1 out1 :
  env_startWireGuard env = EXECUTE_SUCCESS ->
  env_generateConfigFile env = true ->
  env_startService env = serviceStarted ->
  env_events env = pre ++ timerTimeoutForAutomatic :: post ->
  timerTimeoutForAutomatic ∉ pre ->
  run (withEvents pre env) (startConnect true c0) = (c1, out1) ->
  isRunning c1 = true ->
  (connected ∉ out1 ->
   onAutomaticConnectionTimeout c1
   = (c1, [error STATE_TIMEOUT_FOR_AUTOMATIC; quit])
   /\ exists teardown,
        snd (run env (startConnect true c0))
        = out1 ++ [error STATE_TIMEOUT_FOR_AUTOMATIC; quit] ++ teardown
        /\ (error STATE_TIMEOUT_FOR_AUTOMATIC ∉ out1)
        /\ (error STATE_TIMEOUT_FOR_AUTOMATIC ∉ teardown)
        /\ (quit ∉ out1)
        /\ (quit ∉ teardown))
  /\ (connected ∈ out1 ->
      onAutomaticConnectionTimeout c1 = (c1, [])
      /\ error STATE_TIMEOUT_FOR_AUTOMATIC ∉ snd (run env (startConnect true c0))).
Proof.
  intros Hhelper Hconfig Hservice Hevents Hpre.
  unfold run.
  cbn [withEvents env_startWireGuard env_generateConfigFile env_startService
       env_adapterSetupFailed].
  rewrite Hhelper, Hconfig, Hservice.
  rewrite bool_decide_eq_false_2 by (intros Hne; by apply Hne).
  cbn [negb].
  set (c := setServiceOpen true (setWireguardLog true (startConnect true c0))).
  destruct (runStarted (withEvents pre env) c) as [[c3 out3] returned] eqn:Hrs.
  destruct returned; [intros [= <- <-]; discriminate|].
  intros [= <- <-] _.
  destruct (runStarted_timeout env c pre post c3 out3 eq_refl eq_refl eq_refl
              Hevents Hpre Hrs) as (He & Hq & Hfires & Hsilent).
  split.
  - intros Hnot. destruct (Hfires Hnot) as (Hc3 & c4 & out4 & H4 & Hrun).
    split; [unfold onAutomaticConnectionTimeout; by rewrite Hc3|].
    rewrite Hrun. cbn [snd].
    destruct (onGetWireguardStats_outputs _ _ _ _ H4) as (He4 & Hq4 & _).
    exists (out4 ++ [helper_stopWireGuard]
            ++ (if env_adapterSetupFailed env
                then [error WIREGUARD_ADAPTER_SETUP_FAILED] else [])
            ++ [disconnected] ++ [helper_disableDnsLeaksProtection]).
    split; [by rewrite <- !app_assoc|].
    split; [exact He|]. split; [|split; [exact Hq|]].
    + intros Hin. apply elem_of_app in Hin as [Hin|Hin]; [tauto|].
      destruct (env_adapterSetupFailed env); revert Hin; not_among.
    + intros Hin. apply elem_of_app in Hin as [Hin|Hin]; [tauto|].
      destruct (env_adapterSetupFailed env); revert Hin; not_among.
  - intros Hin. destruct (Hsilent Hin) as (Hc3 & Hrun).
    split; [unfold onAutomaticConnectionTimeout; by rewrite Hc3|].
    destruct (runStarted env c) as [[c5 out5] returned5]. cbn [fst snd] in Hrun.
    destruct returned5; [|exact Hrun]. cbn [snd].
    intros Hin'. apply elem_of_app in Hin' as [Hin'|Hin']; [tauto|].
    destruct (env_adapterSetupFailed env); revert Hin'; not_among.
Qed.

Lemma automatic_timeout_fires_once_witness :
  (env_startWireGuard sample_env_timeout = EXECUTE_SUCCESS
   /\ env_generateConfigFile sample_env_timeout = true
   /\ env_startService sample_env_timeout = serviceStarted
   /\ run (withEvents
             [timerGetWireguardLogUpdates quietPoll;
              timerCheckServiceRunning (Some SERVICE_RUNNING)]
             sample_env_timeout) (startConnect true constructed)
      = (setServiceOpen true (setWireguardLog true (startConnect true constructed)),
         [helper_enableDnsLeaksProtection]))
  /\ exists teardown,
       snd (run sample_env_timeout (startConnect true constructed))
       = [helper_enableDnsLeaksProtection]
         ++ [error STATE_TIMEOUT_FOR_AUTOMATIC; quit] ++ teardown
       /\ (error STATE_TIMEOUT_FOR_AUTOMATIC ∉ teardown)
       /\ (quit ∉ teardown).
Proof.
  split; [repeat split; vm_compute; reflexivity|].
  destruct (automatic_timeout_fires_once sample_env_timeout constructed
              [timerGetWireguardLogUpdates quietPoll;
               timerCheckServiceRunning (Some SERVICE_RUNNING)]
              [timerGetWireguardLogUpdates tunnelUpPoll]
              (setServiceOpen true (setWireguardLog true (startConnect true constructed)))
              [helper_enableDnsLeaksProtection]
              eq_refl eq_refl eq_refl eq_refl)
    as [Hfires _].
  - not_among.
  - vm_compute. reflexivity.
  - reflexivity.
  - destruct Hfires as (_ & teardown & Hrun & _ & He & _ & Hq); [not_among|].
    exists teardown. auto.
Defined.


(** ** More on the run of the thread *)

(** What a slot of the event loop does, whatever the event: the thread stays
    running, the outputs are those of slots, and [connectedSignalEmited_]
    counts the [connected] signals. *)
Lemma onGetWireguardStats_shape status c c' out :
  onGetWireguardStats status c = (c', out) ->
  isRunning c' = isRunning c
  /\ forallb from_slot out = true
  /\ quitCalled out = false
  /\ Nat.b2n (connectedSignalEmited_ c) + length (List.filter is_connected out)
     = Nat.b2n (connectedSignalEmited_ c').
Proof.
  unfold onGetWireguardStats, onTunnelConnected.
  destruct status as [st|]; [destruct (bool_decide (state st = ACTIVE));
    [destruct (connectedSignalEmited_ c) eqn:Hc, (0 <? lastHandshake st)%Z|]|];
    cbn; intros [= <- <-]; cbn; rewrite ?Hc;
    repeat split; try reflexivity; try lia;
    apply bool_decide_eq_false; not_among.
Qed.

Lemma onGetWireguardLogUpdates_shape poll c c' out :
  onGetWireguardLogUpdates poll c = (c', out) ->
  isRunning c' = isRunning c
  /\ forallb from_slot out = true
  /\ Nat.b2n (connectedSignalEmited_ c) + length (List.filter is_connected out)
     = Nat.b2n (connectedSignalEmited_ c').
Proof.
  unfold onGetWireguardLogUpdates, onTunnelConnected.
  destruct (wireguardLog c);
    [destruct (onWireguardHandshakeFailure_outputs poll) as [-> | ->];
     destruct (connectedSignalEmited_ c) eqn:Hc, (isTunnelRunning poll),
       (handshakeFailed poll)|];
    cbn; intros [= <- <-]; cbn; rewrite ?Hc;
    repeat split; try reflexivity; lia.
Qed.

Lemma dispatch_shape pending c ev pending' c' out :
  isRunning c = true ->
  dispatch pending c ev = (pending', (c', out)) ->
  isRunning c' = true
  /\ forallb from_slot out = true
  /\ Nat.b2n (connectedSignalEmited_ c) + length (List.filter is_connected out)
     = Nat.b2n (connectedSignalEmited_ c')
  /\ (ev = ownerStartDisconnect -> quitCalled out = true).
Proof.
  intros Hrun. destruct ev as [status|query|poll| |]; cbn [dispatch].
  - destruct (onGetWireguardStats status c) as [c1 out1] eqn:Hs.
    intros [= <- <- <-].
    destruct (onGetWireguardStats_shape _ _ _ _ Hs) as (Hr & ? & _ & ?).
    rewrite Hr. repeat split; auto; discriminate.
  - unfold onCheckServiceRunning.
    destruct (isDisconnected query c); intros [= <- <- <-]; cbn;
      repeat split; auto; try lia; discriminate.
  - destruct (onGetWireguardLogUpdates poll c) as [c1 out1] eqn:Hs.
    intros [= <- <- <-].
    destruct (onGetWireguardLogUpdates_shape _ _ _ _ Hs) as (Hr & ? & ?).
    rewrite Hr. repeat split; auto; discriminate.
  - unfold onAutomaticConnectionTimeout.
    destruct pending, (connectedSignalEmited_ c) eqn:Hc; cbn; intros [= <- <- <-];
      cbn; rewrite ?Hc; repeat split; auto; try lia; discriminate.
  - unfold startDisconnect. rewrite Hrun. intros [= <- <- <-]. cbn.
    repeat split; auto; try lia.
Qed.

Lemma exec_shape pending c events : forall c' out returned,
  isRunning c = true ->
  exec pending c events = (c', out, returned) ->
  isRunning c' = true
  /\ forallb from_slot out = true
  /\ Nat.b2n (connectedSignalEmited_ c) + length (List.filter is_connected out)
     = Nat.b2n (connectedSignalEmited_ c')
  /\ (ownerStartDisconnect ∈ events -> returned = true).
Proof.
  revert pending c. induction events as [|ev rest IH];
    intros pending c c' out returned Hrun.
  - cbn [exec]. intros [= <- <- <-]. cbn. repeat split; auto; try lia.
    intros Hin. by apply elem_of_nil in Hin.
  - cbn [exec]. destruct (dispatch pending c ev) as [pending1 [c1 out1]] eqn:Hd.
    destruct (dispatch_shape _ _ _ _ _ _ Hrun Hd) as (Hr1 & Hs1 & Hn1 & Hq1).
    destruct (quitCalled out1) eqn:Hq.
    { intros [= <- <- <-]. auto. }
    destruct (exec pending1 c1 rest) as [[c2 out2] returned2] eqn:Hexec.
    intros [= <- <- <-].
    destruct (IH _ _ _ _ _ Hr1 Hexec) as (Hr2 & Hs2 & Hn2 & Hq2).
    split; [exact Hr2|]. split; [rewrite forallb_app; by rewrite Hs1, Hs2|].
    split; [rewrite List.filter_app, length_app; lia|].
    intros Hin. apply elem_of_cons in Hin as [Hev|Hin]; [|by apply Hq2].
    specialize (Hq1 (eq_sym Hev)). congruence.
Qed.

(** A filter finds nothing in a list whose members all satisfy a predicate
    that excludes it. *)
Lemma forallb_filter_nil (g f : Output -> bool) out :
  (forall o, g o = true -> f o = false) ->
  forallb g out = true ->
  List.filter f out = [].
Proof.
  intros Hf. induction out as [|o out IH]; [reflexivity|].
  cbn [forallb List.filter]. intros Hall. apply andb_prop in Hall as [Ho Hall].
  rewrite (Hf o Ho). by apply IH.
Qed.

Lemma runStarted_shape env c c2 out2 returned :
  isRunning c = true ->
  runStarted env c = (c2, out2, returned) ->
  isRunning c2 = true
  /\ (exists slots,
        out2 = helper_enableDnsLeaksProtection :: slots
        /\ forallb from_slot slots = true
        /\ Nat.b2n (connectedSignalEmited_ c)
           + length (List.filter is_connected slots)
           = Nat.b2n (connectedSignalEmited_ c2))
  /\ (ownerStartDisconnect ∈ env_events env -> returned = true).
Proof.
  intros Hrun. unfold runStarted.
  destruct (onGetWireguardLogUpdates (env_firstLogPoll env) c) as [cA outA] eqn:HA.
  destruct (onGetWireguardLogUpdates_shape _ _ _ _ HA) as (HrA & HsA & HnA).
  destruct (if negb (connectedSignalEmited_ cA)
            then onGetWireguardStats (env_firstStats env) cA else (cA, []))
    as [cB outB] eqn:HB.
  assert (isRunning cB = true
          /\ forallb from_slot outB = true
          /\ Nat.b2n (connectedSignalEmited_ cA)
             + length (List.filter is_connected outB)
             = Nat.b2n (connectedSignalEmited_ cB)) as (HrB & HsB & HnB).
  { destruct (negb (connectedSignalEmited_ cA)).
    - destruct (onGetWireguardStats_shape _ _ _ _ HB) as (Hr & Hs & _ & Hn).
      rewrite Hr, HrA. auto.
    - injection HB as <- <-. cbn. rewrite HrA. repeat split; auto; lia. }
  destruct (if negb (stopRequested_ cB)
            then if quitCalled (outA ++ outB) then (cB, [], true)
                 else exec (isAutomaticConnectionMode_ cB) cB (env_events env)
            else (cB, [], true)) as [[c3 out3] returned3] eqn:Hloop.
  assert (isRunning c3 = true
          /\ forallb from_slot out3 = true
          /\ Nat.b2n (connectedSignalEmited_ cB)
             + length (List.filter is_connected out3)
             = Nat.b2n (connectedSignalEmited_ c3)
          /\ (ownerStartDisconnect ∈ env_events env -> returned3 = true))
    as (Hr3 & Hs3 & Hn3 & Hq3).
  { destruct (negb (stopRequested_ cB));
      [destruct (quitCalled (outA ++ outB))|];
      try (injection Hloop as <- <- <-; cbn; repeat split; auto; lia).
    by apply (exec_shape _ _ _ _ _ _ HrB Hloop). }
  destruct returned3.
  - destruct (onGetWireguardStats (env_finalStats env) c3) as [c4 out4] eqn:H4.
    destruct (onGetWireguardStats_shape _ _ _ _ H4) as (Hr4 & Hs4 & _ & Hn4).
    intros [= <- <- <-]. split; [by rewrite Hr4|]. split; [|auto].
    eexists. split; [reflexivity|].
    rewrite !forallb_app, !List.filter_app, !length_app, HsA, HsB, Hs3, Hs4.
    split; [reflexivity|lia].
  - intros [= <- <- <-]. split; [exact Hr3|]. split; [|exact Hq3].
    eexists. split; [reflexivity|].
    rewrite !forallb_app, !List.filter_app, !length_app, HsA, HsB, Hs3.
    split; [reflexivity|lia].
Qed.

(** X12: first signal wins. Whatever the surroundings answer and whatever the
    event loop delivers, one run emits [connected] at most once, and exactly
    once if [connectedSignalEmited_] is set at its end. *)
Theorem connected_emitted_at_most_once env mode c0 :
  length (List.filter is_connected (snd (run env (startConnect mode c0)))) <= 1
  /\ length (List.filter is_connected (snd (run env (startConnect mode c0))))
     = Nat.b2n (connectedSignalEmited_ (fst (run env (startConnect mode c0)))).
Proof.
  assert (length (List.filter is_connected (snd (run env (startConnect mode c0))))
          = Nat.b2n (connectedSignalEmited_ (fst (run env (startConnect mode c0)))))
    as Hcount.
  { unfold run. case_bool_decide; [reflexivity|].
    destruct (env_generateConfigFile env); cbn [negb]; [|reflexivity].
    destruct (env_startService env);
      try (destruct (env_adapterSetupFailed env); reflexivity).
    destruct (runStarted env
                (setServiceOpen true (setWireguardLog true (startConnect mode c0))))
      as [[c2 out2] returned] eqn:Hrs.
    destruct (runStarted_shape env
                (setServiceOpen true (setWireguardLog true (startConnect mode c0)))
                c2 out2 returned eq_refl Hrs)
      as (_ & (slots & -> & _ & Hn) & _).
    cbn [connectedSignalEmited_ setServiceOpen setWireguardLog startConnect
         Nat.b2n Nat.add] in Hn.
    destruct returned; cbn [fst snd]; [|exact Hn].
    rewrite !List.filter_app, !length_app.
    destruct (env_adapterSetupFailed env); cbn; cbn in Hn; lia. }
  split; [|exact Hcount]. rewrite Hcount.
  destruct (connectedSignalEmited_ (fst (run env (startConnect mode c0))));
    cbn [Nat.b2n]; lia.
Qed.

(** The two shapes of a run: the service does not come up and the run is over
    after one error, or it comes up and the run is the slots' outputs between
    the switching on of the DNS leak protection and the teardown. *)
Lemma run_shape env mode c0 cf out :
  run env (startConnect mode c0) = (cf, out) ->
  (serviceCameUp env = false
   /\ isRunning cf = false
   /\ exists pre post,
        out = pre ++ error (startupError env) :: disconnected :: post
        /\ forallb is_stopWireGuard (pre ++ post) = true
        /\ length (pre ++ post)
           = Nat.b2n (bool_decide (env_startWireGuard env = EXECUTE_SUCCESS)))
  \/ (serviceCameUp env = true
      /\ exists slots returned,
           forallb from_slot slots = true
           /\ (ownerStartDisconnect ∈ env_events env -> returned = true)
           /\ isRunning cf = negb returned
           /\ out
              = (helper_enableDnsLeaksProtection :: slots)
                ++ (if returned
                    then [helper_stopWireGuard]
                         ++ (if env_adapterSetupFailed env
                             then [error WIREGUARD_ADAPTER_SETUP_FAILED] else [])
                         ++ [disconnected; helper_disableDnsLeaksProtection]
                    else [])).
Proof.
  unfold run, serviceCameUp, startupError.
  destruct (env_startWireGuard env) eqn:Hhelper.
  2, 3: rewrite bool_decide_eq_true_2 by discriminate;
    rewrite (bool_decide_eq_false_2 (_ = EXECUTE_SUCCESS)) by discriminate;
    intros Hrun; injection Hrun as <- <-; left;
    (split; [reflexivity|]); (split; [reflexivity|]);
    by exists [], [].
  rewrite bool_decide_eq_false_2 by (intros Hne; by apply Hne).
  rewrite bool_decide_eq_true_2 by reflexivity.
  destruct (env_generateConfigFile env); cbn [negb andb].
  2: intros Hrun; injection Hrun as <- <-; left;
    (split; [reflexivity|]); (split; [reflexivity|]);
    by exists [], [helper_stopWireGuard].
  destruct (env_startService env).
  1, 2, 3: intros Hrun; injection Hrun as <- <-; left;
    (split; [reflexivity|]); (split; [reflexivity|]);
    exists [helper_stopWireGuard], [];
    destruct (env_adapterSetupFailed env); by repeat split.
  destruct (runStarted env
              (setServiceOpen true (setWireguardLog true (startConnect mode c0))))
    as [[c2 out2] returned] eqn:Hrs.
  destruct (runStarted_shape env
              (setServiceOpen true (setWireguardLog true (startConnect mode c0)))
              c2 out2 returned eq_refl Hrs)
    as (Hr2 & (slots & -> & Hslots & _) & Hstop).
  intros Hrun. right. split; [reflexivity|]. exists slots, returned.
  split; [exact Hslots|]. split; [exact Hstop|].
  destruct returned; injection Hrun as <- <-; cbn [negb].
  - split; reflexivity.
  - split; [exact Hr2|]. by rewrite app_nil_r.
Qed.

(** X13: the end of a run. A run emits [disconnected] once when it is over and
    not while the thread is inside [exec()]; no signal follows it, only calls
    of the helper. *)
Theorem disconnected_ends_the_run env mode c0 :
  length (List.filter is_disconnected (snd (run env (startConnect mode c0))))
  = Nat.b2n (negb (isRunning (fst (run env (startConnect mode c0)))))
  /\ (isRunning (fst (run env (startConnect mode c0))) = false ->
      exists before after,
        snd (run env (startConnect mode c0)) = before ++ disconnected :: after
        /\ List.filter is_disconnected before = []
        /\ List.filter is_signal after = []).
Proof.
  destruct (run env (startConnect mode c0)) as [cf out] eqn:Hrun. cbn [fst snd].
  destruct (run_shape _ _ _ _ _ Hrun)
    as [(_ & Hover & pre & post & -> & Hstops & _)
       |(_ & slots & returned & Hslots & _ & Hover & ->)].
  - rewrite forallb_app in Hstops. apply andb_prop in Hstops as [Hpre Hpost].
    assert (List.filter is_disconnected pre = []) as Hpre_d
      by (apply (forallb_filter_nil is_stopWireGuard); [by intros []|exact Hpre]).
    assert (List.filter is_disconnected post = []) as Hpost_d
      by (apply (forallb_filter_nil is_stopWireGuard); [by intros []|exact Hpost]).
    assert (List.filter is_signal post = []) as Hpost_s
      by (apply (forallb_filter_nil is_stopWireGuard); [by intros []|exact Hpost]).
    split.
    + rewrite Hover, List.filter_app, length_app. cbn [List.filter is_disconnected].
      by rewrite Hpre_d, Hpost_d.
    + intros _. exists (pre ++ [error (startupError env)]), post.
      split; [by rewrite <- app_assoc|]. split; [|exact Hpost_s].
      rewrite List.filter_app, Hpre_d. reflexivity.
  - rewrite Hover, negb_involutive.
    assert (List.filter is_disconnected slots = []) as Hnone
      by (apply (forallb_filter_nil from_slot); [by intros [| [] | | | | | |]|exact Hslots]).
    destruct returned.
    + split.
      * rewrite List.filter_app, length_app. cbn [List.filter is_disconnected].
        rewrite Hnone. destruct (env_adapterSetupFailed env); reflexivity.
      * intros _.
        exists ((helper_enableDnsLeaksProtection :: slots)
                ++ [helper_stopWireGuard]
                ++ (if env_adapterSetupFailed env
                    then [error WIREGUARD_ADAPTER_SETUP_FAILED] else [])),
          [helper_disableDnsLeaksProtection].
        split; [rewrite <- !app_assoc; by destruct (env_adapterSetupFailed env)|].
        split; [|reflexivity].
        rewrite List.filter_app. cbn [List.filter is_disconnected]. rewrite Hnone.
        by destruct (env_adapterSetupFailed env).
    + split; [|discriminate]. rewrite app_nil_r.
      cbn [List.filter is_disconnected]. by rewrite Hnone.
Qed.

(** X14: a start that fails. When the helper cannot start WireGuard, the
    configuration file cannot be written or the service cannot be started,
    the run is over at once: its signals are one error, the one that tells
    which step failed, and then [disconnected]; the DNS leak protection is
    not touched. *)
Theorem failed_start_reports_one_error env mode c0 :
  serviceCameUp env = false ->
  isRunning (fst (run env (startConnect mode c0))) = false
  /\ List.filter is_signal (snd (run env (startConnect mode c0)))
     = [error (startupError env); disconnected]
  /\ List.filter is_enableDnsLeaksProtection (snd (run env (startConnect mode c0)))
     = []
  /\ List.filter is_disableDnsLeaksProtection (snd (run env (startConnect mode c0)))
     = [].
Proof.
  intros Hup.
  destruct (run env (startConnect mode c0)) as [cf out] eqn:Hrun. cbn [fst snd].
  destruct (run_shape _ _ _ _ _ Hrun)
    as [(_ & Hover & pre & post & -> & Hstops & _)|(Hup' & _)]; [|congruence].
  rewrite forallb_app in Hstops. apply andb_prop in Hstops as [Hpre Hpost].
  split; [exact Hover|].
  rewrite !List.filter_app.
  cbn [List.filter is_signal is_enableDnsLeaksProtection is_disableDnsLeaksProtection].
  rewrite !(forallb_filter_nil is_stopWireGuard _ pre) by (by intros [] || exact Hpre).
  rewrite !(forallb_filter_nil is_stopWireGuard _ post) by (by intros [] || exact Hpost).
  by repeat split.
Qed.

(** X15: teardown. A run that is over has called the helper's [stopWireGuard]
    once if the helper had started WireGuard and not at all otherwise, and has
    switched the DNS leak protection on once and off once if the service came
    up, and not at all otherwise. *)
Theorem finished_run_has_cleaned_up env mode c0 :
  isRunning (fst (run env (startConnect mode c0))) = false ->
  length (List.filter is_stopWireGuard (snd (run env (startConnect mode c0))))
  = Nat.b2n (bool_decide (env_startWireGuard env = EXECUTE_SUCCESS))
  /\ length (List.filter is_enableDnsLeaksProtection
               (snd (run env (startConnect mode c0))))
     = Nat.b2n (serviceCameUp env)
  /\ length (List.filter is_disableDnsLeaksProtection
               (snd (run env (startConnect mode c0))))
     = Nat.b2n (serviceCameUp env).
Proof.
  destruct (run env (startConnect mode c0)) as [cf out] eqn:Hrun. cbn [fst snd].
  intros Hover.
  destruct (run_shape _ _ _ _ _ Hrun)
    as [(Hup & _ & pre & post & -> & Hstops & Hlen)
       |(Hup & slots & returned & Hslots & _ & Hover' & ->)].
  - rewrite Hup. rewrite forallb_app in Hstops.
    apply andb_prop in Hstops as [Hpre Hpost].
    rewrite !List.filter_app, !length_app.
    cbn [List.filter is_stopWireGuard is_enableDnsLeaksProtection
         is_disableDnsLeaksProtection length].
    rewrite !(forallb_filter_nil is_stopWireGuard is_enableDnsLeaksProtection)
      by (by intros [] || assumption).
    rewrite !(forallb_filter_nil is_stopWireGuard is_disableDnsLeaksProtection)
      by (by intros [] || assumption).
    rewrite <- Hlen, length_app.
    assert (forall l, forallb is_stopWireGuard l = true ->
                      List.filter is_stopWireGuard l = l) as Hall.
    { induction l as [|o l IH]; [reflexivity|]. cbn [forallb List.filter].
      intros Ho. apply andb_prop in Ho as [-> Ho]. by rewrite IH. }
    rewrite (Hall pre Hpre), (Hall post Hpost). by repeat split.
  - rewrite Hover in Hover'. destruct returned; [|discriminate].
    rewrite Hup. unfold serviceCameUp in Hup.
    apply andb_prop in Hup as [Hup _]. apply andb_prop in Hup as [-> _].
    rewrite !List.filter_app, !length_app.
    cbn [List.filter is_stopWireGuard is_enableDnsLeaksProtection
         is_disableDnsLeaksProtection length].
    rewrite (forallb_filter_nil from_slot is_stopWireGuard slots),
      (forallb_filter_nil from_slot is_enableDnsLeaksProtection slots),
      (forallb_filter_nil from_slot is_disableDnsLeaksProtection slots);
      try exact Hslots; try (by intros [| [] | | | | | |]).
    destruct (env_adapterSetupFailed env); by repeat split.
Qed.

(** X16: stop while running. If the owner calls [startDisconnect] while the
    thread is inside [exec()], the run comes to its end and emits
    [disconnected] once. *)
Theorem stop_request_ends_the_run env mode c0 :
  ownerStartDisconnect ∈ env_events env ->
  isRunning (fst (run env (startConnect mode c0))) = false
  /\ length (List.filter is_disconnected (snd (run env (startConnect mode c0))))
     = 1.
Proof.
  intros Hstop.
  destruct (run env (startConnect mode c0)) as [cf out] eqn:Hrun. cbn [fst snd].
  destruct (run_shape _ _ _ _ _ Hrun)
    as [(_ & Hover & pre & post & -> & Hstops & _)
       |(_ & slots & returned & Hslots & Hreturned & Hover & ->)].
  - split; [exact Hover|]. rewrite forallb_app in Hstops.
    apply andb_prop in Hstops as [Hpre Hpost].
    rewrite List.filter_app, length_app. cbn [List.filter is_disconnected length].
    rewrite !(forallb_filter_nil is_stopWireGuard is_disconnected)
      by (by intros [] || assumption).
    reflexivity.
  - rewrite (Hreturned Hstop) in *. split; [exact Hover|].
    rewrite List.filter_app, length_app. cbn [List.filter is_disconnected].
    rewrite (forallb_filter_nil from_slot is_disconnected slots)
      by (by intros [| [] | | | | | |] || exact Hslots).
    by destruct (env_adapterSetupFailed env).
Qed.

(** X17: manual mode. A run in manual mode never emits the error
    [STATE_TIMEOUT_FOR_AUTOMATIC], whatever the event loop delivers. *)
Theorem manual_mode_never_times_out env c0 :
  error STATE_TIMEOUT_FOR_AUTOMATIC ∉ snd (run env (startConnect false c0)).
Proof.
  unfold run. case_bool_decide as Hhelper.
  { case_bool_decide; cbn [snd]; not_among. }
  destruct (env_generateConfigFile env); cbn [negb snd]; [|not_among].
  assert (forall failure : list Output,
            failure = [] \/ failure = [error WIREGUARD_ADAPTER_SETUP_FAILED]
            \/ failure = [error WIREGUARD_CONNECTION_ERROR] ->
            forall tail : list Output,
              tail = [] \/ tail = [helper_disableDnsLeaksProtection] ->
              error STATE_TIMEOUT_FOR_AUTOMATIC
              ∉ [helper_stopWireGuard] ++ failure ++ [disconnected] ++ tail)
    as Hteardown.
  { intros failure [->|[->| ->]] tail [->| ->]; not_among. }
  destruct (env_startService env);
    try (cbn [snd app]; destruct (env_adapterSetupFailed env); not_among).
  set (c := setServiceOpen true (setWireguardLog true (startConnect false c0))).
  assert (error STATE_TIMEOUT_FOR_AUTOMATIC ∉ snd (fst (runStarted env c))) as Hrs.
  { unfold runStarted.
    destruct (onGetWireguardLogUpdates (env_firstLogPoll env) c) as [cA outA] eqn:HA.
    destruct (if negb (connectedSignalEmited_ cA)
              then onGetWireguardStats (env_firstStats env) cA else (cA, []))
      as [cB outB] eqn:HB.
    destruct (first_polls _ _ _ _ _ _ HA HB) as (HeAB & _ & HmB & _).
    assert (isAutomaticConnectionMode_ cB = false) as Hmode by (by rewrite HmB).
    rewrite Hmode.
    pose proof (exec_no_timeout_error false cB (env_events env) (or_introl eq_refl))
      as Hexec.
    destruct (if negb (stopRequested_ cB)
              then if quitCalled (outA ++ outB) then (cB, [], true)
                   else exec false cB (env_events env)
              else (cB, [], true)) as [[c3 out3] returned] eqn:Hloop.
    assert (error STATE_TIMEOUT_FOR_AUTOMATIC ∉ out3) as He3.
    { destruct (negb (stopRequested_ cB));
        [destruct (quitCalled (outA ++ outB))|];
        try (injection Hloop as <- <- <-; not_among).
      rewrite Hloop in Hexec. exact Hexec. }
    assert (error STATE_TIMEOUT_FOR_AUTOMATIC
            ∉ helper_enableDnsLeaksProtection :: outA ++ outB ++ out3) as Hbefore.
    { intros Hin. apply elem_of_cons in Hin as [Hin|Hin]; [discriminate|].
      rewrite app_assoc in Hin. apply elem_of_app in Hin. tauto. }
    destruct returned; [|exact Hbefore].
    destruct (onGetWireguardStats (env_finalStats env) c3) as [c4 out4] eqn:H4.
    destruct (onGetWireguardStats_outputs _ _ _ _ H4) as (He4 & _).
    cbn [fst snd]. intros Hin. apply elem_of_app in Hin. tauto. }
  destruct (runStarted env c) as [[c2 out2] returned]. cbn [fst snd] in Hrs.
  destruct returned; cbn [snd]; [|exact Hrs].
  intros Hin. apply elem_of_app in Hin as [Hin|Hin]; [tauto|].
  revert Hin. destruct (env_adapterSetupFailed env); not_among.
Qed.

(** X18: stale handshake. While the log shows a running tunnel and a failed
    handshake, a poll of the log asks the thread to quit when Windows reports
    no Internet connectivity, does not when the connectivity check itself
    fails, and with connectivity does so exactly when the helper reports an
    active tunnel whose last handshake, a positive count of 100 ns steps since
    1601, lies 180 seconds or more before the clock reading. *)
Theorem stale_handshake_quits poll c :
  wireguardLog c = true ->
  isTunnelRunning poll = true ->
  handshakeFailed poll = true ->
  (haveInternetConnectivity poll = None ->
   quit ∉ snd (onGetWireguardLogUpdates poll c))
  /\ (haveInternetConnectivity poll = Some false ->
      quit ∈ snd (onGetWireguardLogUpdates poll c))
  /\ (haveInternetConnectivity poll = Some true ->
      quit ∈ snd (onGetWireguardLogUpdates poll c)
      <-> exists status,
            getWireGuardStatus poll = Some status
            /\ state status = ACTIVE
            /\ (0 < lastHandshake status)%Z
            /\ (180 <= currentSecsSinceEpoch poll
                       - (lastHandshake status `quot` 10000000 - 11644473600))%Z).
Proof.
  intros Hlog Hup Hfailed.
  assert (quit ∈ snd (onGetWireguardLogUpdates poll c)
          <-> quit ∈ onWireguardHandshakeFailure poll) as Hquit.
  { unfold onGetWireguardLogUpdates, onTunnelConnected.
    rewrite Hlog, Hup, Hfailed.
    destruct (connectedSignalEmited_ c); cbn [negb andb snd app]; [reflexivity|].
    rewrite elem_of_cons. split; [intros [Hne|Hin]; [discriminate|exact Hin]|auto]. }
  unfold onWireguardHandshakeFailure in Hquit.
  split; [|split].
  - intros Hnet. rewrite Hnet in Hquit. rewrite Hquit. not_among.
  - intros Hnet. rewrite Hnet in Hquit. apply Hquit. among.
  - intros Hnet. rewrite Hnet in Hquit. rewrite Hquit. clear Hquit.
    destruct (getWireGuardStatus poll) as [status|].
    2: { split; [not_among|intros (status & Hs & _); discriminate]. }
    destruct (bool_decide (state status = ACTIVE)) eqn:Hactive; cbn [andb].
    2: { apply bool_decide_eq_false in Hactive.
         split; [not_among|intros (st & [= <-] & Hst & _); congruence]. }
    apply bool_decide_eq_true in Hactive.
    destruct (0 <? lastHandshake status)%Z eqn:Hpos.
    2: { apply Z.ltb_ge in Hpos.
         split; [not_among|intros (st & [= <-] & _ & Hst & _); lia]. }
    apply Z.ltb_lt in Hpos.
    destruct (3 * 60 <=? currentSecsSinceEpoch poll
                         - (lastHandshake status `quot` 10000000 - 11644473600))%Z
      eqn:Hstale.
    + apply Z.leb_le in Hstale. split; [|intros _; among].
      intros _. exists status. repeat split; try assumption; lia.
    + apply Z.leb_gt in Hstale.
      split; [not_among|intros (st & [= <-] & _ & _ & Hst); lia].
Qed.

Lemma failed_start_reports_one_error_witness :
  serviceCameUp sample_env_verify_error = false
  /\ List.filter is_signal
       (snd (run sample_env_verify_error (startConnect true constructed)))
     = [error EXE_VERIFY_WIREGUARD_ERROR; disconnected].
Proof.
  split; [reflexivity|].
  exact (proj1 (proj2 (failed_start_reports_one_error sample_env_verify_error
                         true constructed eq_refl))).
Defined.

Lemma finished_run_has_cleaned_up_witness :
  isRunning (fst (run sample_env_stopped (startConnect true constructed))) = false
  /\ length (List.filter is_stopWireGuard
               (snd (run sample_env_stopped (startConnect true constructed)))) = 1
  /\ length (List.filter is_enableDnsLeaksProtection
               (snd (run sample_env_stopped (startConnect true constructed)))) = 1
  /\ length (List.filter is_disableDnsLeaksProtection
               (snd (run sample_env_stopped (startConnect true constructed)))) = 1.
Proof.
  assert (isRunning (fst (run sample_env_stopped (startConnect true constructed)))
          = false) as Hover by (vm_compute; reflexivity).
  split; [exact Hover|].
  exact (finished_run_has_cleaned_up sample_env_stopped true constructed Hover).
Defined.

Lemma stop_request_ends_the_run_witness :
  ownerStartDisconnect ∈ env_events sample_env_stopped
  /\ isRunning (fst (run sample_env_stopped (startConnect false constructed)))
     = false
  /\ length (List.filter is_disconnected
               (snd (run sample_env_stopped (startConnect false constructed))))
     = 1.
Proof.
  assert (ownerStartDisconnect ∈ env_events sample_env_stopped) as Hstop
    by (cbn; among).
  split; [exact Hstop|].
  exact (stop_request_ends_the_run sample_env_stopped false constructed Hstop).
Defined.

Lemma stale_handshake_quits_witness :
  (wireguardLog (setWireguardLog true (startConnect true constructed)) = true
   /\ isTunnelRunning stalePoll = true
   /\ handshakeFailed stalePoll = true
   /\ haveInternetConnectivity stalePoll = Some true)
  /\ quit ∈ snd (onGetWireguardLogUpdates stalePoll
                   (setWireguardLog true (startConnect true constructed))).
Proof.
  split; [repeat split|].
  destruct (stale_handshake_quits stalePoll
              (setWireguardLog true (startConnect true constructed))
              eq_refl eq_refl eq_refl) as (_ & _ & Hstale).
  apply (Hstale eq_refl). eexists. split; [reflexivity|].
  split; [reflexivity|]. split; vm_compute; [reflexivity|discriminate].
Defined.
End WireGuardFacts.

(** * Properties of the tunnel tests *)

Section TunnelTestFacts.
Import types TestVPNTunnel.

Variable PING_TEST_TIMEOUT_1 : Z.
Variable PING_TEST_TIMEOUT_3 : Z.
Variable isIp : string -> bool.
Variable trimmed : string -> string.

Abbreviation timeoutsFrom := (growingTimeouts PING_TEST_TIMEOUT_3).

(** While the cap is a doubling of the first timeout, the timeouts grow from
    the first one without passing the cap. *)
Lemma growingTimeouts_bounds (k : Z) attempts : forall (j : Z),
  (0 < PING_TEST_TIMEOUT_1)%Z ->
  PING_TEST_TIMEOUT_3 = (PING_TEST_TIMEOUT_1 * 2 ^ k)%Z ->
  (0 <= j <= k)%Z ->
  Forall (fun timeout =>
            (PING_TEST_TIMEOUT_1 * 2 ^ j <= timeout <= PING_TEST_TIMEOUT_3)%Z)
    (timeoutsFrom attempts (PING_TEST_TIMEOUT_1 * 2 ^ j)%Z).
Proof.
  induction attempts as [|n IH]; intros j Hbase Hcap Hj; cbn [growingTimeouts].
  - constructor.
  - assert (2 ^ j <= 2 ^ k)%Z as Hpow by (apply Z.pow_le_mono_r; lia).
    assert (0 < 2 ^ j)%Z as Hpos by (apply Z.pow_pos_nonneg; lia).
    constructor; [subst PING_TEST_TIMEOUT_3; nia|].
    destruct (PING_TEST_TIMEOUT_1 * 2 ^ j <? PING_TEST_TIMEOUT_3)%Z eqn:Hlt.
    + apply Z.ltb_lt in Hlt.
      assert (j < k)%Z as Hjk.
      { destruct (decide (j = k)) as [->|Hne]; [lia|lia]. }
      replace (PING_TEST_TIMEOUT_1 * 2 ^ j * 2)%Z
        with (PING_TEST_TIMEOUT_1 * 2 ^ (j + 1))%Z
        by (rewrite Z.pow_add_r by lia; lia).
      eapply Forall_impl; [apply IH; [assumption|assumption|lia]|].
      cbn beta. intros timeout [Hlow Hhigh]. split; [|exact Hhigh].
      rewrite Z.pow_add_r in Hlow by lia. lia.
    + apply IH; assumption.
Qed.

Lemma growingTimeouts_length attempts timeout :
  length (timeoutsFrom attempts timeout) = attempts.
Proof.
  revert timeout. induction attempts as [|n IH]; intros timeout; cbn [growingTimeouts length].
  - reflexivity.
  - by rewrite IH.
Qed.

Lemma growingTimeouts_sorted (k : Z) attempts : forall (j : Z),
  (0 < PING_TEST_TIMEOUT_1)%Z ->
  PING_TEST_TIMEOUT_3 = (PING_TEST_TIMEOUT_1 * 2 ^ k)%Z ->
  (0 <= j <= k)%Z ->
  StronglySorted Z.le (timeoutsFrom attempts (PING_TEST_TIMEOUT_1 * 2 ^ j)%Z).
Proof.
  induction attempts as [|n IH]; intros j Hbase Hcap Hj; cbn [growingTimeouts].
  - constructor.
  - assert (0 < 2 ^ j)%Z as Hpos by (apply Z.pow_pos_nonneg; lia).
    destruct (PING_TEST_TIMEOUT_1 * 2 ^ j <? PING_TEST_TIMEOUT_3)%Z eqn:Hlt.
    + apply Z.ltb_lt in Hlt.
      assert (j < k)%Z as Hjk.
      { destruct (decide (j = k)) as [->|Hne]; [lia|lia]. }
      replace (PING_TEST_TIMEOUT_1 * 2 ^ j * 2)%Z
        with (PING_TEST_TIMEOUT_1 * 2 ^ (j + 1))%Z
        by (rewrite Z.pow_add_r by lia; lia).
      constructor; [apply IH; [assumption|assumption|lia]|].
      eapply Forall_impl;
        [apply (growingTimeouts_bounds k n (j + 1)); [assumption|assumption|lia]|].
      cbn beta. intros timeout [Hlow _].
      rewrite Z.pow_add_r in Hlow by lia. lia.
    + constructor; [by apply IH|].
      eapply Forall_impl; [by apply (growingTimeouts_bounds k n j)|].
      cbn beta. intros timeout [Hlow _]. exact Hlow.
Qed.

(** A reply counts as failed unless it is a success carrying an address. *)
Lemma startTestImpl_default now t ta rest :
  doCustomTunnelTest_ t = false ->
  timeoutsFrom 3 PING_TEST_TIMEOUT_1 = ta :: rest ->
  startTestImpl PING_TEST_TIMEOUT_1 PING_TEST_TIMEOUT_3 noExtraConfig now t
  = Some ({| bRunning_ := true;
             curTest_ := 1;
             cmdId_ := cmdId_ t + 1;
             doCustomTunnelTest_ := false;
             timeouts_ := ta :: rest;
             testRetryDelay_ := 0;
             elapsed_ := now;
             protocol_ := protocol_ t |},
          [pingTest (cmdId_ t + 1) ta]).
Proof.
  intros Hcustom Htimeouts. unfold startTestImpl.
  cbn [noExtraConfig getTunnelTestAttempts getTunnelTestTimeout
       getTunnelTestRetryDelay default].
  rewrite bool_decide_eq_false_2 by discriminate.
  change (Z.to_nat 3) with 3. rewrite Htimeouts, Hcustom.
  rewrite !bool_decide_eq_false_2 by (intros [x Hx]; discriminate).
  reflexivity.
Qed.

(** In the default mode, a failed reply that comes in once the time of the
    attempt is up starts the next attempt, if there is one, with its full
    timeout. *)
Lemma onPingTestAnswer_next_attempt now retCode data t timeout timeout' :
  bRunning_ t = true ->
  doCustomTunnelTest_ t = false ->
  bool_decide (retCode = SERVER_RETURN_SUCCESS) && isIp (trimmed data) = false ->
  (1 <= curTest_ t < Z.of_nat (length (timeouts_ t)))%Z ->
  timeouts_ t !! Z.to_nat (curTest_ t - 1) = Some timeout ->
  timeouts_ t !! Z.to_nat (curTest_ t) = Some timeout' ->
  (timeout <= now - elapsed_ t)%Z ->
  (0 < timeout')%Z ->
  onPingTestAnswer isIp trimmed now retCode data t
  = Some ({| bRunning_ := true;
             curTest_ := curTest_ t + 1;
             cmdId_ := cmdId_ t + 1;
             doCustomTunnelTest_ := false;
             timeouts_ := timeouts_ t;
             testRetryDelay_ := testRetryDelay_ t;
             elapsed_ := now;
             protocol_ := protocol_ t |},
          [pingTest (cmdId_ t + 1) timeout']).
Proof.
  intros Hrun Hcustom Hfail Hcur Htimeout Htimeout' Hlate Hpos.
  unfold onPingTestAnswer, currentTimeout, elapsed.
  rewrite Hrun, Hfail, Hcustom.
  rewrite (proj2 (Z.leb_le 1 (curTest_ t))) by lia.
  rewrite Htimeout. cbn [mbind option_bind].
  rewrite (proj2 (Z.ltb_ge (now - elapsed_ t) timeout)) by lia.
  rewrite (proj2 (Z.ltb_lt (curTest_ t) _)) by lia.
  unfold doNextPingTest, currentTimeout, elapsed, nextTest.
  cbn [bRunning_ curTest_ timeouts_ cmdId_ doCustomTunnelTest_ elapsed_
       testRetryDelay_ protocol_ default].
  rewrite Hrun, Hcustom.
  rewrite (proj2 (Z.leb_le 1 (curTest_ t + 1))) by lia.
  rewrite (proj2 (Z.leb_le (curTest_ t + 1) _)) by lia.
  cbn [andb].
  replace (curTest_ t + 1 - 1)%Z with (curTest_ t) by lia.
  rewrite Htimeout'. cbn [mbind option_bind]. unfold id.
  replace (timeout' - (now - now))%Z with timeout' by lia.
  rewrite (proj2 (Z.ltb_lt 0 timeout')) by lia.
  reflexivity.
Qed.

(** The same reply in the last attempt ends the tests with a failure. *)
Lemma onPingTestAnswer_last_attempt now retCode data t timeout :
  bRunning_ t = true ->
  doCustomTunnelTest_ t = false ->
  bool_decide (retCode = SERVER_RETURN_SUCCESS) && isIp (trimmed data) = false ->
  (1 <= curTest_ t)%Z ->
  curTest_ t = Z.of_nat (length (timeouts_ t)) ->
  timeouts_ t !! Z.to_nat (curTest_ t - 1) = Some timeout ->
  (timeout <= now - elapsed_ t)%Z ->
  onPingTestAnswer isIp trimmed now retCode data t
  = Some (setRunning false t, [testsFinished false ""]).
Proof.
  intros Hrun Hcustom Hfail Hcur Hlast Htimeout Hlate.
  unfold onPingTestAnswer, currentTimeout, elapsed.
  rewrite Hrun, Hfail, Hcustom.
  rewrite (proj2 (Z.leb_le 1 (curTest_ t))) by lia.
  rewrite Htimeout. cbn [mbind option_bind].
  rewrite (proj2 (Z.ltb_ge (now - elapsed_ t) timeout)) by lia.
  rewrite (proj2 (Z.ltb_ge (curTest_ t) _)) by lia.
  reflexivity.
Qed.

(** In the default mode, a failed reply that comes in before the time of the
    attempt is up only arms a timer of 100 ms for the next call. *)
Lemma onPingTestAnswer_early_failure now retCode data t timeout :
  bRunning_ t = true ->
  doCustomTunnelTest_ t = false ->
  bool_decide (retCode = SERVER_RETURN_SUCCESS) && isIp (trimmed data) = false ->
  (1 <= curTest_ t)%Z ->
  timeouts_ t !! Z.to_nat (curTest_ t - 1) = Some timeout ->
  (now - elapsed_ t < timeout)%Z ->
  onPingTestAnswer isIp trimmed now retCode data t
  = Some (t, [singleShot 100 slot_doNextPingTest]).
Proof.
  intros Hrun Hcustom Hfail Hcur Htimeout Hearly.
  unfold onPingTestAnswer, currentTimeout, elapsed.
  rewrite Hrun, Hfail, Hcustom.
  rewrite (proj2 (Z.leb_le 1 (curTest_ t))) by lia.
  rewrite Htimeout. cbn [mbind option_bind].
  by rewrite (proj2 (Z.ltb_lt (now - elapsed_ t) timeout)) by lia.
Qed.

(** C4 (amended). Under the default policy, on an object whose
    [doCustomTunnelTest_] is not set, with every reply failing and coming in
    only once the time of the current attempt is up, the tests issue exactly 3
    calls of [pingTest], one per attempt, with the timeouts of the three
    attempts, which do not decrease and stay within the cap, and then emit
    [testsFinished(false, "")], their last output, and stop running.  The cap
    is assumed to be a doubling of the positive first timeout. *)
Theorem default_tests_fail_after_three_calls (k : Z) now0 now1 now2 now3
    retCode1 data1 retCode2 data2 retCode3 data3 protocol t ta tb tc :
  (0 < PING_TEST_TIMEOUT_1)%Z ->
  (0 <= k)%Z ->
  PING_TEST_TIMEOUT_3 = (PING_TEST_TIMEOUT_1 * 2 ^ k)%Z ->
  doCustomTunnelTest_ t = false ->
  timeoutsFrom 3 PING_TEST_TIMEOUT_1 = [ta; tb; tc] ->
  bool_decide (retCode1 = SERVER_RETURN_SUCCESS) && isIp (trimmed data1) = false ->
  bool_decide (retCode2 = SERVER_RETURN_SUCCESS) && isIp (trimmed data2) = false ->
  bool_decide (retCode3 = SERVER_RETURN_SUCCESS) && isIp (trimmed data3) = false ->
  (ta <= now1 - now0)%Z ->
  (tb <= now2 - now1)%Z ->
  (tc <= now3 - now2)%Z ->
  exists t1 out1 t2 out2,
    startTests PING_TEST_TIMEOUT_1 PING_TEST_TIMEOUT_3 noExtraConfig now0 protocol t
    = Some (t1, out1)
    /\ deliver PING_TEST_TIMEOUT_1 PING_TEST_TIMEOUT_3 isIp trimmed noExtraConfig t1
         [pingTestAnswer now1 retCode1 data1;
          pingTestAnswer now2 retCode2 data2;
          pingTestAnswer now3 retCode3 data3]
       = Some (t2, out2)
    /\ pingTestTimeouts (out1 ++ out2) = [ta; tb; tc]
    /\ (ta <= tb <= tc)%Z
    /\ (tc <= PING_TEST_TIMEOUT_3)%Z
    /\ testsFinishedSignals (out1 ++ out2) = [(false, "")]
    /\ last (out1 ++ out2) = Some (testsFinished false "")
    /\ bRunning_ t2 = false.
Proof.
  intros Hbase Hk Hcap Hcustom Htimeouts Hfail1 Hfail2 Hfail3 Hlate1 Hlate2 Hlate3.
  assert (PING_TEST_TIMEOUT_1 = PING_TEST_TIMEOUT_1 * 2 ^ 0)%Z as Hzero
    by (rewrite Z.pow_0_r; lia).
  pose proof (growingTimeouts_bounds k 3 0 Hbase Hcap ltac:(lia)) as Hbounds.
  pose proof (growingTimeouts_sorted k 3 0 Hbase Hcap ltac:(lia)) as Hsorted.
  rewrite <- Hzero, Htimeouts in Hbounds, Hsorted.
  apply Forall_cons in Hbounds as [Ha Hbounds].
  apply Forall_cons in Hbounds as [Hb Hbounds].
  apply Forall_cons in Hbounds as [Hc _].
  apply StronglySorted_inv in Hsorted as [Hsorted Hab].
  apply Forall_cons in Hab as [Hab _].
  apply StronglySorted_inv in Hsorted as [_ Hbc].
  apply Forall_cons in Hbc as [Hbc _].
  unfold startTests, stopTests.
  destruct (bRunning_ t) eqn:Hrun;
    (rewrite startTestImpl_default with (ta := ta) (rest := [tb; tc])
       by assumption);
    cbn [mbind option_bind cmdId_ protocol_];
    (do 4 eexists; split; [reflexivity|]);
    cbn [deliver dispatch];
    (rewrite onPingTestAnswer_next_attempt with (timeout := ta) (timeout' := tb);
     [|reflexivity|reflexivity|assumption|cbn; lia|reflexivity|reflexivity
      |cbn [elapsed_]; lia|lia]);
    cbn [mbind option_bind];
    (rewrite onPingTestAnswer_next_attempt with (timeout := tb) (timeout' := tc);
     [|reflexivity|reflexivity|assumption|cbn; lia|reflexivity|reflexivity
      |cbn [elapsed_]; lia|lia]);
    cbn [mbind option_bind];
    (rewrite onPingTestAnswer_last_attempt with (timeout := tc);
     [|reflexivity|reflexivity|assumption|cbn; lia|reflexivity|reflexivity
      |cbn [elapsed_]; lia]);
    cbn [mbind option_bind];
    (split; [reflexivity|]); cbn;
    repeat split; lia.
Qed.

(** C10. With an override of 0 attempts, [startTests] calls [pingTest] not
    once and emits nothing itself; the timers it leaves behind lead, through
    [onTestsSkipped], to one [testsFinished(true, "")] and to no call of
    [pingTest]. *)
Theorem no_attempts_skips_tests cfg now protocol t :
  getTunnelTestAttempts cfg = Some 0%Z ->
  exists t1 out1 t2 out2,
    startTests PING_TEST_TIMEOUT_1 PING_TEST_TIMEOUT_3 cfg now protocol t
    = Some (t1, out1)
    /\ pingTestTimeouts out1 = []
    /\ testsFinishedSignals out1 = []
    /\ runTimers PING_TEST_TIMEOUT_1 PING_TEST_TIMEOUT_3 isIp trimmed 2 cfg t1
         (armedTimers now out1)
       = Some (t2, out2, [])
    /\ pingTestTimeouts out2 = []
    /\ testsFinishedSignals out2 = [(true, "")].
Proof.
  destruct cfg as [startDelay attempts timeout retryDelay].
  cbn [getTunnelTestAttempts]. intros ->.
  unfold startTests, stopTests.
  destruct (bRunning_ t), startDelay as [delay|];
    do 4 eexists; (split; [reflexivity|]); repeat split; reflexivity.
Qed.


(** ** More on the tunnel tests *)

Abbreviation startImpl := (startTestImpl PING_TEST_TIMEOUT_1 PING_TEST_TIMEOUT_3).
Abbreviation handle :=
  (dispatch PING_TEST_TIMEOUT_1 PING_TEST_TIMEOUT_3 isIp trimmed).
Abbreviation handleAll :=
  (deliver PING_TEST_TIMEOUT_1 PING_TEST_TIMEOUT_3 isIp trimmed).

Lemma currentTimeout_in_range t :
  (1 <= curTest_ t <= Z.of_nat (length (timeouts_ t)))%Z ->
  is_Some (currentTimeout t).
Proof.
  intros Hcur. unfold currentTimeout.
  rewrite (proj2 (Z.leb_le 1 (curTest_ t))) by lia.
  apply lookup_lt_is_Some_2. lia.
Qed.

(** [doNextPingTest] checks the bounds itself: it always returns, issues at
    most the call with the next command id, and leaves the test as it is. *)
Lemma doNextPingTest_total now t :
  exists t' out,
    doNextPingTest now t = Some (t', out)
    /\ bRunning_ t' = bRunning_ t
    /\ curTest_ t' = curTest_ t
    /\ timeouts_ t' = timeouts_ t
    /\ doCustomTunnelTest_ t' = doCustomTunnelTest_ t
    /\ testsFinishedSignals out = []
    /\ retryDelays out = []
    /\ ((bRunning_ t = false -> t' = t /\ out = [])
        /\ pingTestIds out = seqZ (cmdId_ t + 1) (cmdId_ t' - cmdId_ t)
        /\ (cmdId_ t <= cmdId_ t')%Z
        /\ length (pingTestTimeouts out) = length (pingTestIds out)
        /\ (doCustomTunnelTest_ t = true ->
            bRunning_ t = true ->
            forall timeout, currentTimeout t = Some timeout ->
                            pingTestTimeouts out = [timeout])).
Proof.
  unfold doNextPingTest.
  destruct (bRunning_ t && (1 <=? curTest_ t)%Z
            && (curTest_ t <=? Z.of_nat (length (timeouts_ t)))%Z) eqn:Hguard.
  - apply andb_prop in Hguard as [Hguard Hhigh].
    apply andb_prop in Hguard as [Hrun Hlow].
    apply Z.leb_le in Hhigh, Hlow.
    destruct (currentTimeout_in_range
                {| bRunning_ := bRunning_ t; curTest_ := curTest_ t;
                   cmdId_ := cmdId_ t + 1;
                   doCustomTunnelTest_ := doCustomTunnelTest_ t;
                   timeouts_ := timeouts_ t;
                   testRetryDelay_ := testRetryDelay_ t;
                   elapsed_ := elapsed_ t; protocol_ := protocol_ t |})
      as [timeout Htimeout]; [cbn; lia|].
    rewrite Htimeout. cbn [mbind option_bind doCustomTunnelTest_ cmdId_].
    assert (seqZ (cmdId_ t + 1) (cmdId_ t + 1 - cmdId_ t) = [cmdId_ t + 1]%Z)
      as Hseq by (replace (cmdId_ t + 1 - cmdId_ t)%Z with 1%Z by lia; reflexivity).
    destruct (doCustomTunnelTest_ t) eqn:Hcustom;
      [|destruct (0 <? timeout - _)%Z];
      (eexists _, _; split; [reflexivity|]); cbn; rewrite ?Hseq;
      repeat split; try reflexivity; try lia; try congruence;
      try (intros _ _ timeout' Htimeout';
           unfold currentTimeout in Htimeout, Htimeout'; cbn in Htimeout;
           congruence).
  - exists t, []. split; [reflexivity|]. cbn.
    replace (cmdId_ t - cmdId_ t)%Z with 0%Z by lia.
    repeat split; try reflexivity; try lia.
    intros Hcustom Hrun timeout Htimeout. exfalso.
    rewrite Hrun in Hguard. unfold currentTimeout in Htimeout.
    destruct (1 <=? curTest_ t)%Z eqn:Hlow; [|discriminate].
    apply lookup_lt_Some in Htimeout. cbn [andb] in Hguard.
    apply Z.leb_gt in Hguard. apply Z.leb_le in Hlow. lia.
Qed.

(** A reply, whatever it is and whenever it comes. *)
Lemma onPingTestAnswer_total now retCode data t :
  timeoutInRange t ->
  exists t' out,
    onPingTestAnswer isIp trimmed now retCode data t = Some (t', out)
    /\ timeoutInRange t'
    /\ pingTestIds out = seqZ (cmdId_ t + 1) (cmdId_ t' - cmdId_ t)
    /\ (cmdId_ t <= cmdId_ t')%Z.
Proof.
  intros Hrange. unfold onPingTestAnswer.
  assert (seqZ (cmdId_ t + 1) (cmdId_ t - cmdId_ t) = []) as Hnil
    by (replace (cmdId_ t - cmdId_ t)%Z with 0%Z by lia; reflexivity).
  assert (forall t', bRunning_ t' = false \/ doCustomTunnelTest_ t' = true ->
                     timeoutInRange t') as Hvacuous.
  { intros t' [Hr|Hc] Hr' Hc'; congruence. }
  destruct (bRunning_ t) eqn:Hrun.
  2: { exists t, []. split; [reflexivity|]. split; [exact Hrange|].
       split; [cbn [pingTestIds]; by rewrite Hnil|lia]. }
  destruct (bool_decide (retCode = SERVER_RETURN_SUCCESS) && isIp (trimmed data)).
  { eexists _, _. split; [reflexivity|]. split; [apply Hvacuous; by left|].
    split; [cbn [cmdId_ setRunning nextTest pingTestIds]; by rewrite Hnil|cbn; lia]. }
  destruct (doCustomTunnelTest_ t) eqn:Hcustom.
  { destruct (curTest_ t <? Z.of_nat (length (timeouts_ t)))%Z;
      (eexists _, _; split; [reflexivity|]);
      (split; [apply Hvacuous; cbn; auto|]);
      (split; [cbn [cmdId_ setRunning nextTest pingTestIds]; by rewrite Hnil|cbn; lia]). }
  destruct (currentTimeout_in_range t (Hrange Hrun Hcustom)) as [timeout Htimeout].
  rewrite Htimeout. cbn [mbind option_bind].
  destruct (elapsed now t <? timeout)%Z.
  { exists t, [singleShot 100 slot_doNextPingTest]. split; [reflexivity|].
    split; [exact Hrange|]. split; [cbn [pingTestIds]; by rewrite Hnil|lia]. }
  destruct (curTest_ t <? Z.of_nat (length (timeouts_ t)))%Z eqn:Hnext.
  - apply Z.ltb_lt in Hnext. specialize (Hrange Hrun Hcustom).
    destruct (doNextPingTest_total now (nextTest (Some now) t))
      as (t' & out & Hdo & Hrun' & Hcur' & Htimeouts' & Hcustom' & _ & _
          & _ & Hids & Hle & _).
    exists t', out. split; [exact Hdo|]. cbn in *.
    split; [|split; [exact Hids|exact Hle]].
    unfold timeoutInRange. rewrite Hcur', Htimeouts'. lia.
  - eexists _, _. split; [reflexivity|]. split; [apply Hvacuous; by left|].
    split; [cbn [cmdId_ setRunning nextTest pingTestIds]; by rewrite Hnil|cbn; lia].
Qed.

(** [startTestImpl] with a number of attempts that is not negative. *)
Lemma startTestImpl_total cfg now t :
  (forall attempts, getTunnelTestAttempts cfg = Some attempts -> (0 <= attempts)%Z) ->
  exists t' out,
    startImpl cfg now t = Some (t', out)
    /\ timeoutInRange t'
    /\ pingTestIds out = seqZ (cmdId_ t + 1) (cmdId_ t' - cmdId_ t)
    /\ (cmdId_ t <= cmdId_ t')%Z.
Proof.
  intros Hattempts. unfold startTestImpl.
  assert (0 <= default 3 (getTunnelTestAttempts cfg))%Z as Hnonneg.
  { destruct (getTunnelTestAttempts cfg) as [n|]; cbn; [by apply Hattempts|lia]. }
  case_bool_decide as Hzero.
  - eexists _, _. split; [reflexivity|]. cbn [cmdId_].
    replace (cmdId_ t - cmdId_ t)%Z with 0%Z by lia.
    split; [|split; [reflexivity|lia]].
    unfold timeoutInRange. cbn. intros _ Hcustom. exfalso.
    destruct (getTunnelTestAttempts cfg) as [n|] eqn:Hn.
    + rewrite bool_decide_eq_true_2 in Hcustom by eauto.
      by rewrite orb_true_r in Hcustom.
    + cbn in Hzero. lia.
  - set (attempts := Z.to_nat (default 3%Z (getTunnelTestAttempts cfg))).
    set (timeouts := match getTunnelTestTimeout cfg with
                     | Some timeout => replicate attempts timeout
                     | None => timeoutsFrom attempts PING_TEST_TIMEOUT_1
                     end).
    assert (length timeouts = attempts) as Hlen.
    { unfold timeouts. destruct (getTunnelTestTimeout cfg);
        [apply length_replicate|apply growingTimeouts_length]. }
    assert (1 <= attempts) as Hpos by (unfold attempts; lia).
    destruct (lookup_lt_is_Some_2 timeouts 0) as [timeout Htimeout]; [lia|].
    unfold currentTimeout. cbn [curTest_ timeouts_].
    change (Z.to_nat (1 - 1)) with 0. cbn [Z.leb Z.compare].
    rewrite Htimeout. cbn [mbind option_bind].
    eexists _, _. split; [reflexivity|]. cbn.
    replace (cmdId_ t + 1 - cmdId_ t)%Z with 1%Z by lia.
    split; [|split; [reflexivity|lia]].
    unfold timeoutInRange. cbn. lia.
Qed.

Lemma pingTestIds_app out1 out2 :
  pingTestIds (out1 ++ out2) = pingTestIds out1 ++ pingTestIds out2.
Proof.
  induction out1 as [|o out1 IH]; [reflexivity|].
  destruct o; cbn [app pingTestIds]; by rewrite ?IH.
Qed.

Lemma pingTestTimeouts_app out1 out2 :
  pingTestTimeouts (out1 ++ out2) = pingTestTimeouts out1 ++ pingTestTimeouts out2.
Proof.
  induction out1 as [|o out1 IH]; [reflexivity|].
  destruct o; cbn [app pingTestTimeouts]; by rewrite ?IH.
Qed.

Lemma testsFinishedSignals_app out1 out2 :
  testsFinishedSignals (out1 ++ out2)
  = testsFinishedSignals out1 ++ testsFinishedSignals out2.
Proof.
  induction out1 as [|o out1 IH]; [reflexivity|].
  destruct o; cbn [app testsFinishedSignals]; by rewrite ?IH.
Qed.

Lemma retryDelays_app out1 out2 :
  retryDelays (out1 ++ out2) = retryDelays out1 ++ retryDelays out2.
Proof.
  induction out1 as [|o out1 IH]; [reflexivity|].
  destruct o as [| | |msec []]; cbn [app retryDelays]; by rewrite ?IH.
Qed.

(** Any events, with a number of attempts that is not negative. *)
Lemma deliver_total cfg events : forall t,
  (forall attempts, getTunnelTestAttempts cfg = Some attempts -> (0 <= attempts)%Z) ->
  timeoutInRange t ->
  exists t' out,
    handleAll cfg t events = Some (t', out)
    /\ timeoutInRange t'
    /\ pingTestIds out = seqZ (cmdId_ t + 1) (cmdId_ t' - cmdId_ t)
    /\ (cmdId_ t <= cmdId_ t')%Z.
Proof.
  induction events as [|ev rest IH]; intros t Hattempts Hrange.
  - exists t, []. cbn [deliver pingTestIds].
    replace (cmdId_ t - cmdId_ t)%Z with 0%Z by lia.
    split; [reflexivity|]. split; [exact Hrange|]. split; [reflexivity|lia].
  - assert (exists t1 out1,
              handle cfg t ev = Some (t1, out1)
              /\ timeoutInRange t1
              /\ pingTestIds out1 = seqZ (cmdId_ t + 1) (cmdId_ t1 - cmdId_ t)
              /\ (cmdId_ t <= cmdId_ t1)%Z) as (t1 & out1 & Hd & Hr1 & Hids1 & Hle1).
    { destruct ev as [now [| |]|now retCode data]; cbn [dispatch].
      - by apply startTestImpl_total.
      - destruct (doNextPingTest_total now t)
          as (t' & out & Hdo & Hrun' & Hcur' & Htimeouts' & Hcustom' & _ & _
              & _ & Hids & Hle & _).
        exists t', out. split; [exact Hdo|]. split; [|auto].
        unfold timeoutInRange in *. rewrite Hrun', Hcur', Htimeouts', Hcustom'.
        exact Hrange.
      - exists t, [testsFinished true ""]. cbn [onTestsSkipped pingTestIds].
        replace (cmdId_ t - cmdId_ t)%Z with 0%Z by lia.
        split; [reflexivity|]. split; [exact Hrange|]. split; [reflexivity|lia].
      - by apply onPingTestAnswer_total. }
    destruct (IH t1 Hattempts Hr1) as (t2 & out2 & Hrest & Hr2 & Hids2 & Hle2).
    exists t2, (out1 ++ out2). cbn [deliver]. rewrite Hd. cbn [mbind option_bind].
    rewrite Hrest. cbn [mbind option_bind].
    split; [reflexivity|]. split; [exact Hr2|]. split; [|lia].
    rewrite pingTestIds_app, Hids1, Hids2.
    replace (cmdId_ t2 - cmdId_ t)%Z
      with ((cmdId_ t1 - cmdId_ t) + (cmdId_ t2 - cmdId_ t1))%Z by lia.
    rewrite seqZ_app by lia. f_equal. f_equal. lia.
Qed.

(** X19: no read past the end of the timeouts. Unless the override of the
    number of attempts is negative, every slot returns, whatever events the
    event loop delivers and in whatever order: a running test in default mode
    always has its current test number between 1 and the number of timeouts. *)
Theorem slots_never_read_past_timeouts cfg events t :
  (forall attempts, getTunnelTestAttempts cfg = Some attempts -> (0 <= attempts)%Z) ->
  timeoutInRange t ->
  exists t' out,
    handleAll cfg t events = Some (t', out) /\ timeoutInRange t'.
Proof.
  intros Hattempts Hrange.
  destruct (deliver_total cfg events t Hattempts Hrange)
    as (t' & out & Hdeliver & Hrange' & _).
  by exists t', out.
Qed.

(** X20: command ids. The calls of [pingTest] carry consecutive command ids,
    starting one above the id in use before, and [cmdId_] is the id of the
    last call: it is this id that [stopTests] cancels. *)
Theorem pingTest_ids_are_consecutive cfg events t :
  (forall attempts, getTunnelTestAttempts cfg = Some attempts -> (0 <= attempts)%Z) ->
  timeoutInRange t ->
  exists t' out,
    handleAll cfg t events = Some (t', out)
    /\ pingTestIds out = seqZ (cmdId_ t + 1) (Z.of_nat (length (pingTestIds out)))
    /\ cmdId_ t' = (cmdId_ t + Z.of_nat (length (pingTestIds out)))%Z
    /\ snd (stopTests t')
       = if bRunning_ t' then [cancelPingTest (cmdId_ t')] else [].
Proof.
  intros Hattempts Hrange.
  destruct (deliver_total cfg events t Hattempts Hrange)
    as (t' & out & Hdeliver & _ & Hids & Hle).
  exists t', out. split; [exact Hdeliver|].
  assert (Z.of_nat (length (pingTestIds out)) = cmdId_ t' - cmdId_ t)%Z as Hlen.
  { rewrite Hids, length_seqZ. lia. }
  rewrite Hlen. split; [exact Hids|]. split; [lia|].
  unfold stopTests. by destruct (bRunning_ t').
Qed.

(** X21: negative attempts. [startTestImpl] reads [timeouts_[0]] of an empty
    vector exactly when the override of the number of attempts is negative:
    with any other configuration it returns. *)
Theorem startTestImpl_returns_unless_attempts_negative cfg now t :
  is_Some (startTestImpl PING_TEST_TIMEOUT_1 PING_TEST_TIMEOUT_3 cfg now t)
  <-> forall attempts,
        getTunnelTestAttempts cfg = Some attempts -> (0 <= attempts)%Z.
Proof.
  split.
  - intros [result Hresult] attempts Hattempts.
    destruct (decide (0 <= attempts)%Z) as [|Hneg]; [assumption|exfalso].
    unfold startTestImpl in Hresult. rewrite Hattempts in Hresult.
    cbn [default from_option id] in Hresult.
    rewrite bool_decide_eq_false_2 in Hresult by lia.
    replace (Z.to_nat attempts) with 0 in Hresult by lia.
    unfold currentTimeout in Hresult. cbn in Hresult.
    by destruct (getTunnelTestTimeout cfg).
  - intros Hattempts.
    destruct (startTestImpl_total cfg now t Hattempts) as (t' & out & -> & _).
    by eexists.
Qed.

(** Once the test is not running, replies and timers for the next call are
    ignored. *)
Lemma deliver_not_running cfg events : forall t,
  bRunning_ t = false ->
  forallb duringTest events = true ->
  handleAll cfg t events = Some (t, []).
Proof.
  induction events as [|ev rest IH]; intros t Hrun Hevents; [reflexivity|].
  cbn [forallb] in Hevents. apply andb_prop in Hevents as [Hev Hrest].
  cbn [deliver].
  assert (handle cfg t ev = Some (t, [])) as ->.
  { destruct ev as [now [| |]|now retCode data]; try discriminate; cbn [dispatch].
    - unfold doNextPingTest. by rewrite Hrun.
    - unfold onPingTestAnswer. by rewrite Hrun. }
  cbn [mbind option_bind]. rewrite (IH t Hrun Hrest). reflexivity.
Qed.

(** A reply or a timer for the next call either emits no [testsFinished], or
    emits just that and stops the test. *)
Lemma dispatch_finishes cfg t ev t' out :
  duringTest ev = true ->
  handle cfg t ev = Some (t', out) ->
  testsFinishedSignals out = []
  \/ (exists bSuccess ipAddress, out = [testsFinished bSuccess ipAddress])
     /\ bRunning_ t' = false.
Proof.
  destruct ev as [now [| |]|now retCode data]; try discriminate; intros _;
    cbn [dispatch].
  - intros Hdo.
    destruct (doNextPingTest_total now t)
      as (t1 & out1 & Hdo1 & _ & _ & _ & _ & Hnone & _).
    rewrite Hdo1 in Hdo. injection Hdo as <- <-. by left.
  - unfold onPingTestAnswer.
    destruct (bRunning_ t); [|intros [= <- <-]; by left].
    destruct (bool_decide (retCode = SERVER_RETURN_SUCCESS) && isIp (trimmed data));
      [intros [= <- <-]; right; split; [eauto|reflexivity]|].
    destruct (doCustomTunnelTest_ t).
    { destruct (curTest_ t <? Z.of_nat (length (timeouts_ t)))%Z;
        intros [= <- <-]; [by left|right; split; [eauto|reflexivity]]. }
    destruct (currentTimeout t) as [timeout|]; [|discriminate].
    cbn [mbind option_bind].
    destruct (elapsed now t <? timeout)%Z; [intros [= <- <-]; by left|].
    destruct (curTest_ t <? Z.of_nat (length (timeouts_ t)))%Z;
      [|intros [= <- <-]; right; split; [eauto|reflexivity]].
    intros Hdo.
    destruct (doNextPingTest_total now (nextTest (Some now) t))
      as (t1 & out1 & Hdo1 & _ & _ & _ & _ & Hnone & _).
    rewrite Hdo1 in Hdo. injection Hdo as <- <-. by left.
Qed.

(** X22: one result. Whatever replies and timers follow one another, a test
    emits [testsFinished] at most once; it is then the last output, the test
    is not running any more, and nothing is sent after it. *)
Theorem tests_finish_at_most_once cfg events t t' out :
  forallb duringTest events = true ->
  handleAll cfg t events = Some (t', out) ->
  testsFinishedSignals out = []
  \/ (exists before bSuccess ipAddress,
        out = before ++ [testsFinished bSuccess ipAddress]
        /\ testsFinishedSignals before = [])
     /\ bRunning_ t' = false.
Proof.
  revert t out. induction events as [|ev rest IH]; intros t out Hevents.
  - cbn [deliver]. intros [= <- <-]. by left.
  - cbn [forallb] in Hevents. apply andb_prop in Hevents as [Hev Hrest].
    cbn [deliver].
    destruct (handle cfg t ev) as [[t1 out1]|] eqn:Hd; [|discriminate].
    cbn [mbind option_bind].
    destruct (dispatch_finishes _ _ _ _ _ Hev Hd)
      as [Hnone|[(bSuccess & ipAddress & ->) Hstopped]].
    + destruct (handleAll cfg t1 rest) as [[t2 out2]|] eqn:Hdeliver; [|discriminate].
      cbn [mbind option_bind]. intros [= <- <-].
      destruct (IH _ _ Hrest Hdeliver)
        as [Hnone2|[(before & b & ip & -> & Hbefore) Hstopped]].
      * left. by rewrite testsFinishedSignals_app, Hnone, Hnone2.
      * right. split; [|exact Hstopped].
        exists (out1 ++ before), b, ip. split; [by rewrite app_assoc|].
        by rewrite testsFinishedSignals_app, Hnone, Hbefore.
    + rewrite (deliver_not_running cfg rest t1 Hstopped Hrest).
      cbn [mbind option_bind]. intros [= <- <-]. right. split; [|exact Hstopped].
      exists [], bSuccess, ipAddress. split; reflexivity.
Qed.

(** X23: stopping. [stopTests] cancels the outstanding call if the test is
    running and does nothing otherwise; after it the test is not running,
    a second [stopTests] does nothing, and replies and timers that still
    arrive are ignored. *)
Theorem stopTests_silences_the_test cfg events t :
  forallb duringTest events = true ->
  snd (stopTests t) = (if bRunning_ t then [cancelPingTest (cmdId_ t)] else [])
  /\ bRunning_ (fst (stopTests t)) = false
  /\ stopTests (fst (stopTests t)) = (fst (stopTests t), [])
  /\ handleAll cfg (fst (stopTests t)) events = Some (fst (stopTests t), []).
Proof.
  intros Hevents.
  assert (bRunning_ (fst (stopTests t)) = false) as Hstopped.
  { unfold stopTests. by destruct (bRunning_ t) eqn:Hrun. }
  split; [unfold stopTests; by destruct (bRunning_ t)|].
  split; [exact Hstopped|].
  split; [unfold stopTests at 1; by rewrite Hstopped|].
  by apply deliver_not_running.
Qed.

(** In custom mode a failed reply before the last attempt arms the retry
    timer, and the timer's run-out issues the call of the next attempt. *)
Lemma custom_round cfg r t timeout :
  bRunning_ t = true ->
  doCustomTunnelTest_ t = true ->
  (1 <= curTest_ t < Z.of_nat (length (timeouts_ t)))%Z ->
  timeouts_ t !! Z.to_nat (curTest_ t) = Some timeout ->
  bool_decide (round_retCode r = SERVER_RETURN_SUCCESS)
  && isIp (trimmed (round_data r)) = false ->
  handleAll cfg t (roundEvents r)
  = Some ({| bRunning_ := true;
             curTest_ := curTest_ t + 1;
             cmdId_ := cmdId_ t + 1;
             doCustomTunnelTest_ := true;
             timeouts_ := timeouts_ t;
             testRetryDelay_ := testRetryDelay_ t;
             elapsed_ := elapsed_ t;
             protocol_ := protocol_ t |},
          [singleShot (testRetryDelay_ t) slot_doNextPingTest;
           pingTest (cmdId_ t + 1) timeout]).
Proof.
  intros Hrun Hcustom Hcur Htimeout Hfail.
  unfold roundEvents. cbn [deliver dispatch].
  unfold onPingTestAnswer. rewrite Hrun, Hfail, Hcustom.
  rewrite (proj2 (Z.ltb_lt (curTest_ t) _)) by lia.
  cbn [mbind option_bind].
  unfold doNextPingTest, nextTest, currentTimeout.
  cbn [bRunning_ curTest_ timeouts_ cmdId_ doCustomTunnelTest_ elapsed_
       testRetryDelay_ protocol_ default from_option].
  rewrite Hrun, Hcustom.
  rewrite (proj2 (Z.leb_le 1 (curTest_ t + 1))) by lia.
  rewrite (proj2 (Z.leb_le (curTest_ t + 1) _)) by lia.
  cbn [andb].
  replace (curTest_ t + 1 - 1)%Z with (curTest_ t) by lia.
  rewrite Htimeout. reflexivity.
Qed.

Lemma custom_rounds cfg now retCode data rounds : forall t,
  bRunning_ t = true ->
  doCustomTunnelTest_ t = true ->
  (1 <= curTest_ t)%Z ->
  (curTest_ t + Z.of_nat (length rounds))%Z = Z.of_nat (length (timeouts_ t)) ->
  Forall (fun r => bool_decide (round_retCode r = SERVER_RETURN_SUCCESS)
                   && isIp (trimmed (round_data r)) = false) rounds ->
  bool_decide (retCode = SERVER_RETURN_SUCCESS) && isIp (trimmed data) = false ->
  exists t' out,
    handleAll cfg t (flat_map roundEvents rounds ++ [pingTestAnswer now retCode data])
    = Some (t', out)
    /\ pingTestTimeouts out = drop (Z.to_nat (curTest_ t)) (timeouts_ t)
    /\ retryDelays out = replicate (length rounds) (testRetryDelay_ t)
    /\ testsFinishedSignals out = [(false, "")]
    /\ bRunning_ t' = false.
Proof.
  induction rounds as [|r rest IH]; intros t Hrun Hcustom Hlow Hlen Hrounds Hfail.
  - cbn [flat_map app deliver dispatch length] in *.
    unfold onPingTestAnswer. rewrite Hrun, Hfail, Hcustom.
    rewrite (proj2 (Z.ltb_ge (curTest_ t) _)) by lia.
    cbn [mbind option_bind]. eexists _, _. split; [reflexivity|].
    cbn. rewrite drop_ge by lia. auto.
  - apply Forall_cons in Hrounds as [Hr Hrounds]. cbn [length] in Hlen.
    destruct (lookup_lt_is_Some_2 (timeouts_ t) (Z.to_nat (curTest_ t)))
      as [timeout Htimeout]; [lia|].
    pose proof (custom_round cfg r t timeout Hrun Hcustom ltac:(lia) Htimeout Hr)
      as Hround.
    destruct (IH {| bRunning_ := true;
                    curTest_ := curTest_ t + 1;
                    cmdId_ := cmdId_ t + 1;
                    doCustomTunnelTest_ := true;
                    timeouts_ := timeouts_ t;
                    testRetryDelay_ := testRetryDelay_ t;
                    elapsed_ := elapsed_ t;
                    protocol_ := protocol_ t |})
      as (t' & out & Hdeliver & Hcalls & Hdelays & Hsignals & Hstopped);
      try reflexivity; try assumption; cbn [curTest_ timeouts_]; try lia.
    cbn [curTest_ timeouts_ testRetryDelay_] in Hcalls, Hdelays.
    exists t'. eexists. cbn [flat_map]. rewrite <- app_assoc.
    split.
    + assert (forall events1 events2 t1 out1 t2 out2,
                handleAll cfg t events1 = Some (t1, out1) ->
                handleAll cfg t1 events2 = Some (t2, out2) ->
                handleAll cfg t (events1 ++ events2) = Some (t2, out1 ++ out2))
        as Happ.
      { clear. intros events1. revert t.
        induction events1 as [|ev events1 IH1];
          intros t events2 t1 out1 t2 out2 H1 H2.
        - cbn in H1. injection H1 as <- <-. exact H2.
        - cbn [deliver app] in *.
          destruct (handle cfg t ev) as [[ta outa]|]; [|discriminate].
          cbn [mbind option_bind] in *.
          destruct (handleAll cfg ta events1) as [[tb outb]|] eqn:Hb;
            [|discriminate].
          cbn [mbind option_bind] in H1. injection H1 as <- <-.
          rewrite (IH1 _ _ _ _ _ _ Hb H2). cbn [mbind option_bind].
          by rewrite app_assoc. }
      exact (Happ _ _ _ _ _ _ Hround Hdeliver).
    + cbn [app pingTestTimeouts retryDelays testsFinishedSignals length replicate].
      rewrite Hcalls, Hdelays, Hsignals.
      replace (Z.to_nat (curTest_ t + 1)) with (S (Z.to_nat (curTest_ t))) by lia.
      rewrite (drop_S _ _ _ Htimeout). auto.
Qed.

(** X24: custom mode. With an override of n >= 1 attempts, if every reply
    fails, the tests call [pingTest] exactly n times, whenever the replies
    come in: with the overridden timeout each time, or else with the growing
    timeouts.  Between two calls lies one timer of the retry delay (0 if not
    overridden), and after the n-th failure the tests emit
    [testsFinished(false, "")]. *)
Theorem custom_tests_call_once_per_attempt cfg attempts now0 now retCode data
    rounds t :
  getTunnelTestAttempts cfg = Some attempts ->
  (1 <= attempts)%Z ->
  S (length rounds) = Z.to_nat attempts ->
  Forall (fun r => bool_decide (round_retCode r = SERVER_RETURN_SUCCESS)
                   && isIp (trimmed (round_data r)) = false) rounds ->
  bool_decide (retCode = SERVER_RETURN_SUCCESS) && isIp (trimmed data) = false ->
  exists t1 out1 t2 out2,
    startImpl cfg now0 t = Some (t1, out1)
    /\ handleAll cfg t1
         (flat_map roundEvents rounds ++ [pingTestAnswer now retCode data])
       = Some (t2, out2)
    /\ pingTestTimeouts (out1 ++ out2)
       = match getTunnelTestTimeout cfg with
         | Some timeout => replicate (Z.to_nat attempts) timeout
         | None => timeoutsFrom (Z.to_nat attempts) PING_TEST_TIMEOUT_1
         end
    /\ retryDelays (out1 ++ out2)
       = replicate (length rounds) (default 0%Z (getTunnelTestRetryDelay cfg))
    /\ testsFinishedSignals (out1 ++ out2) = [(false, "")]
    /\ bRunning_ t2 = false.
Proof.
  intros Hattempts Hpos Hlen Hrounds Hfail.
  set (timeouts := match getTunnelTestTimeout cfg with
                   | Some timeout => replicate (Z.to_nat attempts) timeout
                   | None => timeoutsFrom (Z.to_nat attempts) PING_TEST_TIMEOUT_1
                   end).
  assert (length timeouts = Z.to_nat attempts) as Htimeouts.
  { unfold timeouts. destruct (getTunnelTestTimeout cfg);
      [apply length_replicate|apply growingTimeouts_length]. }
  destruct (lookup_lt_is_Some_2 timeouts 0) as [first Hfirst]; [lia|].
  assert (startImpl cfg now0 t
          = Some ({| bRunning_ := true;
                     curTest_ := 1;
                     cmdId_ := cmdId_ t + 1;
                     doCustomTunnelTest_ := true;
                     timeouts_ := timeouts;
                     testRetryDelay_ := default 0%Z (getTunnelTestRetryDelay cfg);
                     elapsed_ := now0;
                     protocol_ := protocol_ t |},
                  [pingTest (cmdId_ t + 1) first])) as Hstart.
  { unfold startTestImpl. rewrite Hattempts. cbn [default from_option id].
    rewrite bool_decide_eq_false_2 by lia.
    rewrite (bool_decide_eq_true_2 (is_Some (Some attempts))) by eauto.
    rewrite orb_true_r. cbn [orb]. fold timeouts.
    unfold currentTimeout. cbn [curTest_ timeouts_].
    change (Z.to_nat (1 - 1)) with 0. cbn [Z.leb Z.compare].
    rewrite Hfirst. reflexivity. }
  destruct (custom_rounds cfg now retCode data rounds
              {| bRunning_ := true;
                 curTest_ := 1;
                 cmdId_ := cmdId_ t + 1;
                 doCustomTunnelTest_ := true;
                 timeouts_ := timeouts;
                 testRetryDelay_ := default 0%Z (getTunnelTestRetryDelay cfg);
                 elapsed_ := now0;
                 protocol_ := protocol_ t |})
    as (t2 & out2 & Hdeliver & Hcalls & Hdelays & Hsignals & Hstopped);
    try reflexivity; try assumption; cbn [curTest_ timeouts_]; try lia.
  cbn [curTest_ timeouts_ testRetryDelay_] in Hcalls, Hdelays.
  eexists _, _, t2, out2. split; [exact Hstart|]. split; [exact Hdeliver|].
  cbn [app pingTestTimeouts retryDelays testsFinishedSignals].
  rewrite Hcalls, Hdelays, Hsignals.
  change (Z.to_nat 1) with 1. rewrite <- (drop_S _ _ _ Hfirst), drop_0. auto.
Qed.

(** X25: growing timeouts. Whatever the number of attempts, the timeouts
    computed when no timeout is overridden are as many as the attempts, do
    not decrease, start at the first timeout and stay within the cap, as
    long as the cap is the positive first timeout doubled some number of
    times. *)
Theorem growing_timeouts_are_sorted_and_capped (k : Z) attempts :
  (0 < PING_TEST_TIMEOUT_1)%Z ->
  (0 <= k)%Z ->
  PING_TEST_TIMEOUT_3 = (PING_TEST_TIMEOUT_1 * 2 ^ k)%Z ->
  length (growingTimeouts PING_TEST_TIMEOUT_3 attempts PING_TEST_TIMEOUT_1)
  = attempts
  /\ StronglySorted Z.le
       (growingTimeouts PING_TEST_TIMEOUT_3 attempts PING_TEST_TIMEOUT_1)
  /\ Forall (fun timeout =>
               (PING_TEST_TIMEOUT_1 <= timeout <= PING_TEST_TIMEOUT_3)%Z)
       (growingTimeouts PING_TEST_TIMEOUT_3 attempts PING_TEST_TIMEOUT_1)
  /\ head (growingTimeouts PING_TEST_TIMEOUT_3 (S attempts) PING_TEST_TIMEOUT_1)
     = Some PING_TEST_TIMEOUT_1.
Proof.
  intros Hbase Hk Hcap.
  assert (PING_TEST_TIMEOUT_1 = PING_TEST_TIMEOUT_1 * 2 ^ 0)%Z as Hzero
    by (rewrite Z.pow_0_r; lia).
  pose proof (growingTimeouts_bounds k attempts 0 Hbase Hcap ltac:(lia)) as Hbounds.
  pose proof (growingTimeouts_sorted k attempts 0 Hbase Hcap ltac:(lia)) as Hsorted.
  rewrite <- Hzero in Hbounds, Hsorted.
  split; [apply growingTimeouts_length|]. split; [exact Hsorted|].
  split; [exact Hbounds|reflexivity].
Qed.

(** X26: delayed start. With a start delay, [startTests] stops a running test,
    issues no call and arms one timer for [startTestImpl].  [stopTests] does
    not reach that timer: on a test that is stopped it does nothing, and when
    the timer runs out [startTestImpl] starts the test all the same, with the
    first call, under the next command id. *)
Theorem delayed_start_survives_stopTests cfg delay now proto t :
  getTunnelTestStartDelay cfg = Some delay ->
  (forall attempts, getTunnelTestAttempts cfg = Some attempts -> (1 <= attempts)%Z) ->
  exists t1 out1 t2 timeout,
    startTests PING_TEST_TIMEOUT_1 PING_TEST_TIMEOUT_3 cfg now proto t
    = Some (t1, out1)
    /\ bRunning_ t1 = false
    /\ pingTestIds out1 = []
    /\ armedTimers now out1 = [timerShot (now + delay) slot_startTestImpl]
    /\ stopTests t1 = (t1, [])
    /\ handleAll cfg t1 (armedTimers now out1)
       = Some (t2, [pingTest (cmdId_ t + 1) timeout])
    /\ bRunning_ t2 = true
    /\ protocol_ t2 = proto.
Proof.
  intros Hdelay Hattempts.
  assert (1 <= default 3 (getTunnelTestAttempts cfg))%Z as Hpos.
  { destruct (getTunnelTestAttempts cfg) as [n|]; cbn; [by apply Hattempts|lia]. }
  set (attempts := Z.to_nat (default 3%Z (getTunnelTestAttempts cfg))).
  set (timeouts := match getTunnelTestTimeout cfg with
                   | Some timeout => replicate attempts timeout
                   | None => timeoutsFrom attempts PING_TEST_TIMEOUT_1
                   end).
  assert (length timeouts = attempts) as Hlen.
  { unfold timeouts. destruct (getTunnelTestTimeout cfg);
      [apply length_replicate|apply growingTimeouts_length]. }
  destruct (lookup_lt_is_Some_2 timeouts 0) as [timeout Htimeout];
    [unfold attempts in Hlen; lia|].
  assert (forall t1,
            bRunning_ t1 = false -> cmdId_ t1 = cmdId_ t -> protocol_ t1 = proto ->
            exists t2,
              handleAll cfg t1 [timerShot (now + delay) slot_startTestImpl]
              = Some (t2, [pingTest (cmdId_ t + 1) timeout])
              /\ bRunning_ t2 = true /\ protocol_ t2 = proto) as Hfires.
  { intros t1 _ Hid Hproto. cbn [deliver dispatch]. unfold startTestImpl.
    rewrite bool_decide_eq_false_2 by lia.
    fold attempts. fold timeouts.
    unfold currentTimeout. cbn [curTest_ timeouts_ cmdId_].
    change (Z.to_nat (1 - 1)) with 0. cbn [Z.leb Z.compare].
    rewrite Htimeout, Hid. cbn [mbind option_bind app].
    eexists. split; [reflexivity|]. by cbn. }
  unfold startTests, stopTests. destruct (bRunning_ t) eqn:Hrunning;
    rewrite Hdelay; cbn [app].
  - edestruct Hfires as (t2 & Hfire & Hrun & Hproto); [..|
      eexists _, _, t2, timeout; split; [reflexivity|];
      cbn [bRunning_ pingTestIds armedTimers];
      repeat split; [exact Hfire|exact Hrun|exact Hproto]]; reflexivity.
  - edestruct Hfires as (t2 & Hfire & Hrun & Hproto); [..|
      eexists _, _, t2, timeout; split; [reflexivity|];
      cbn [bRunning_ pingTestIds armedTimers];
      repeat split; [exact Hrunning|by rewrite Hrunning|exact Hfire|exact Hrun|exact Hproto]];
      [exact Hrunning|reflexivity|reflexivity].
Qed.
(** X28: retry within the attempt. In the default mode a failed reply that
    comes in before the time of the attempt is up issues no call: it arms a
    timer of 100 ms for [doNextPingTest] and leaves the attempt and its clock
    as they are.  When the timer runs out, [doNextPingTest] issues one call
    under the next command id, with what is left of the time of the attempt
    as timeout if anything is left, and with 100 ms otherwise. *)
Theorem early_failure_retries_within_attempt cfg now now' retCode data t timeout :
  bRunning_ t = true ->
  doCustomTunnelTest_ t = false ->
  bool_decide (retCode = SERVER_RETURN_SUCCESS) && isIp (trimmed data) = false ->
  (1 <= curTest_ t)%Z ->
  timeouts_ t !! Z.to_nat (curTest_ t - 1) = Some timeout ->
  (now - elapsed_ t < timeout)%Z ->
  exists t1 t2 retryTimeout,
    dispatch PING_TEST_TIMEOUT_1 PING_TEST_TIMEOUT_3 isIp trimmed cfg t
      (pingTestAnswer now retCode data)
    = Some (t1, [singleShot 100 slot_doNextPingTest])
    /\ t1 = t
    /\ dispatch PING_TEST_TIMEOUT_1 PING_TEST_TIMEOUT_3 isIp trimmed cfg t1
         (timerShot now' slot_doNextPingTest)
       = Some (t2, [pingTest (cmdId_ t + 1) retryTimeout])
    /\ bRunning_ t2 = true
    /\ curTest_ t2 = curTest_ t
    /\ elapsed_ t2 = elapsed_ t
    /\ cmdId_ t2 = (cmdId_ t + 1)%Z
    /\ ((now' - elapsed_ t < timeout)%Z ->
        retryTimeout = (timeout - (now' - elapsed_ t))%Z)
    /\ ((timeout <= now' - elapsed_ t)%Z -> retryTimeout = 100%Z).
Proof.
  intros Hrun Hcustom Hfail Hcur Htimeout Hearly.
  assert (curTest_ t <= Z.of_nat (length (timeouts_ t)))%Z as Hsize.
  { apply lookup_lt_Some in Htimeout. lia. }
  exists t.
  cbn [dispatch]. rewrite (onPingTestAnswer_early_failure _ _ _ _ timeout) by assumption.
  unfold doNextPingTest, currentTimeout, elapsed.
  cbn [bRunning_ curTest_ timeouts_ doCustomTunnelTest_ elapsed_ cmdId_].
  rewrite Hrun, Hcustom.
  rewrite (proj2 (Z.leb_le 1 (curTest_ t))) by lia.
  rewrite (proj2 (Z.leb_le (curTest_ t) _)) by lia.
  cbn [andb]. rewrite Htimeout. cbn [mbind option_bind].
  destruct (0 <? timeout - (now' - elapsed_ t))%Z eqn:Hleft.
  - apply Z.ltb_lt in Hleft. eexists _, _.
    repeat split; try reflexivity; intros; lia.
  - apply Z.ltb_ge in Hleft. eexists _, _.
    repeat split; try reflexivity; intros; lia.
Qed.

End TunnelTestFacts.

Section TunnelTestWitnesses.
Import types TestVPNTunnel.

Example sample_default_timeouts : growingTimeouts 8000 3 2000 = [2000; 4000; 8000]%Z.
Proof. reflexivity. Qed.

Lemma default_tests_fail_after_three_calls_witness :
  ((0 < 2000)%Z
   /\ (8000 = 2000 * 2 ^ 2)%Z
   /\ doCustomTunnelTest_ constructed = false
   /\ growingTimeouts 8000 3 2000 = [2000; 4000; 8000]%Z
   /\ (2000 <= 2000 - 0)%Z /\ (4000 <= 6000 - 2000)%Z /\ (8000 <= 14000 - 6000)%Z)
  /\ exists t1 out1 t2 out2,
       startTests 2000 8000 noExtraConfig 0 WIREGUARD constructed = Some (t1, out1)
       /\ deliver 2000 8000 sample_isIp sample_trimmed noExtraConfig t1
            sample_replies_on_time
          = Some (t2, out2)
       /\ pingTestTimeouts (out1 ++ out2) = [2000; 4000; 8000]%Z
       /\ testsFinishedSignals (out1 ++ out2) = [(false, "")].
Proof.
  split; [repeat split; try reflexivity; lia|].
  destruct (default_tests_fail_after_three_calls 2000 8000 sample_isIp
              sample_trimmed 2 0 2000 6000 14000
              SERVER_RETURN_NETWORK_ERROR "" SERVER_RETURN_NETWORK_ERROR ""
              SERVER_RETURN_NETWORK_ERROR "" WIREGUARD constructed
              2000 4000 8000)%Z
    as (t1 & out1 & t2 & out2 & Hstart & Hdeliver & Hcalls & _ & _ & Hsignals & _);
    try reflexivity; try lia.
  exists t1, out1, t2, out2. auto.
Defined.

(** C4 (as stated). A first transport error 10 ms after the first call: the
    attempt is not over, so the tests call [pingTest] again 100 ms later with
    what is left of the 2000 ms.  Every reply fails, and there are 4 calls,
    the second with a smaller timeout than the first. *)
Lemma early_failure_adds_a_call :
  Forall (fun ev =>
            match ev with
            | pingTestAnswer _ retCode data =>
                bool_decide (retCode = SERVER_RETURN_SUCCESS)
                && sample_isIp (sample_trimmed data) = false
            | timerShot _ _ => True
            end) sample_replies_early_failure
  /\ exists t1 out1 t2 out2,
       startTests 2000 8000 noExtraConfig 0 WIREGUARD constructed = Some (t1, out1)
       /\ dispatch 2000 8000 sample_isIp sample_trimmed noExtraConfig t1
            (pingTestAnswer 10 SERVER_RETURN_NETWORK_ERROR "")
          = Some (t1, [singleShot 100 slot_doNextPingTest])
       /\ armedTimers 10 [singleShot 100 slot_doNextPingTest]
          = [timerShot 110 slot_doNextPingTest]
       /\ deliver 2000 8000 sample_isIp sample_trimmed noExtraConfig t1
            sample_replies_early_failure
          = Some (t2, out2)
       /\ pingTestTimeouts (out1 ++ out2) = [2000; 1890; 4000; 8000]%Z
       /\ length (pingTestTimeouts (out1 ++ out2)) ≠ 3
       /\ testsFinishedSignals (out1 ++ out2) = [(false, "")].
Proof.
  split; [repeat constructor|].
  do 4 eexists. split; [reflexivity|]. split; [reflexivity|].
  split; [reflexivity|].
  split; [vm_compute; reflexivity|]. repeat split. vm_compute. discriminate.
Qed.

Lemma no_attempts_skips_tests_witness :
  getTunnelTestAttempts sample_config_no_attempts = Some 0%Z
  /\ exists t1 out1 t2 out2,
       startTests 2000 8000 sample_config_no_attempts 0 WIREGUARD constructed
       = Some (t1, out1)
       /\ out1 = [singleShot 1 slot_onTestsSkipped]
       /\ runTimers 2000 8000 sample_isIp sample_trimmed 2
            sample_config_no_attempts t1 (armedTimers 0 out1)
          = Some (t2, out2, [])
       /\ pingTestTimeouts out2 = []
       /\ testsFinishedSignals out2 = [(true, "")].
Proof.
  split; [reflexivity|].
  destruct (no_attempts_skips_tests 2000 8000 sample_isIp sample_trimmed
              sample_config_no_attempts 0 WIREGUARD constructed eq_refl)
    as (t1 & out1 & t2 & out2 & Hstart & _ & _ & Hrun & Hcalls & Hsignals).
  exists t1, out1, t2, out2. repeat split; try assumption.
  vm_compute in Hstart. by injection Hstart as _ <-.
Defined.


(** ** Witnesses for the further properties *)

Example negative_attempts_read_past_the_end :
  startTestImpl 2000 8000 sample_config_negative 0 constructed = None.
Proof. reflexivity. Qed.

Lemma slots_never_read_past_timeouts_witness :
  ((forall attempts,
      getTunnelTestAttempts noExtraConfig = Some attempts -> (0 <= attempts)%Z)
   /\ timeoutInRange constructed)
  /\ exists t' out,
       deliver 2000 8000 sample_isIp sample_trimmed noExtraConfig constructed
         (timerShot 0 slot_startTestImpl :: sample_replies_early_failure)
       = Some (t', out)
       /\ timeoutInRange t'.
Proof.
  assert (forall attempts,
            getTunnelTestAttempts noExtraConfig = Some attempts -> (0 <= attempts)%Z)
    as Hattempts by (intros attempts Hn; discriminate Hn).
  assert (timeoutInRange constructed) as Hrange
    by (intros Hrun; discriminate Hrun).
  split; [by split|].
  exact (slots_never_read_past_timeouts 2000 8000 sample_isIp sample_trimmed
           noExtraConfig _ constructed Hattempts Hrange).
Defined.

Lemma pingTest_ids_are_consecutive_witness :
  ((forall attempts,
      getTunnelTestAttempts noExtraConfig = Some attempts -> (0 <= attempts)%Z)
   /\ timeoutInRange constructed)
  /\ exists t' out,
       deliver 2000 8000 sample_isIp sample_trimmed noExtraConfig constructed
         (timerShot 0 slot_startTestImpl :: sample_replies_early_failure)
       = Some (t', out)
       /\ pingTestIds out = [1; 2; 3; 4]%Z
       /\ cmdId_ t' = 4%Z.
Proof.
  assert (forall attempts,
            getTunnelTestAttempts noExtraConfig = Some attempts -> (0 <= attempts)%Z)
    as Hattempts by (intros attempts Hn; discriminate Hn).
  assert (timeoutInRange constructed) as Hrange
    by (intros Hrun; discriminate Hrun).
  split; [by split|].
  destruct (pingTest_ids_are_consecutive 2000 8000 sample_isIp sample_trimmed
              noExtraConfig
              (timerShot 0 slot_startTestImpl :: sample_replies_early_failure)
              constructed Hattempts Hrange)
    as (t' & out & Hdeliver & Hids & Hcmd & _).
  exists t', out. split; [exact Hdeliver|].
  vm_compute in Hdeliver. injection Hdeliver as <- <-.
  split; reflexivity.
Defined.

Lemma tests_finish_at_most_once_witness :
  forallb duringTest sample_replies_early_failure = true
  /\ startTestImpl 2000 8000 noExtraConfig 0 constructed
     = Some (sample_started, [pingTest 1 2000])
  /\ exists t' out,
       deliver 2000 8000 sample_isIp sample_trimmed noExtraConfig sample_started
         sample_replies_early_failure = Some (t', out)
       /\ testsFinishedSignals out = [(false, "")]
       /\ bRunning_ t' = false.
Proof.
  split; [reflexivity|]. split; [reflexivity|].
  destruct (deliver 2000 8000 sample_isIp sample_trimmed noExtraConfig
              sample_started sample_replies_early_failure)
    as [[t' out]|] eqn:Hdeliver; [|vm_compute in Hdeliver; discriminate Hdeliver].
  exists t', out. split; [reflexivity|].
  pose proof Hdeliver as Hvalue. vm_compute in Hvalue.
  destruct (tests_finish_at_most_once 2000 8000 sample_isIp sample_trimmed
              noExtraConfig sample_replies_early_failure sample_started t' out
              eq_refl Hdeliver)
    as [Hnone|[_ Hstopped]];
    injection Hvalue as <- <-; [discriminate Hnone|split; reflexivity].
Defined.

Lemma stopTests_silences_the_test_witness :
  forallb duringTest sample_replies_on_time = true
  /\ exists t,
       startTestImpl 2000 8000 noExtraConfig 0 constructed
       = Some (t, [pingTest 1 2000])
       /\ snd (stopTests t) = [cancelPingTest 1]
       /\ deliver 2000 8000 sample_isIp sample_trimmed noExtraConfig
            (fst (stopTests t)) sample_replies_on_time
          = Some (fst (stopTests t), []).
Proof.
  split; [reflexivity|]. eexists. split; [reflexivity|].
  split; [reflexivity|].
  exact (proj2 (proj2 (proj2
           (stopTests_silences_the_test 2000 8000 sample_isIp sample_trimmed
              noExtraConfig sample_replies_on_time _ eq_refl)))).
Defined.

Lemma custom_tests_call_once_per_attempt_witness :
  (getTunnelTestAttempts sample_config_custom = Some 4%Z
   /\ (1 <= 4)%Z
   /\ S (length sample_rounds) = Z.to_nat 4
   /\ Forall (fun r => bool_decide (round_retCode r = SERVER_RETURN_SUCCESS)
                       && sample_isIp (sample_trimmed (round_data r)) = false)
        sample_rounds)
  /\ exists t1 out1 t2 out2,
       startTestImpl 2000 8000 sample_config_custom 0 constructed = Some (t1, out1)
       /\ deliver 2000 8000 sample_isIp sample_trimmed sample_config_custom t1
            (flat_map roundEvents sample_rounds
             ++ [pingTestAnswer 770 SERVER_RETURN_NETWORK_ERROR ""])
          = Some (t2, out2)
       /\ pingTestTimeouts (out1 ++ out2) = [1500; 1500; 1500; 1500]%Z
       /\ retryDelays (out1 ++ out2) = [250; 250; 250]%Z
       /\ testsFinishedSignals (out1 ++ out2) = [(false, "")].
Proof.
  assert (Forall (fun r => bool_decide (round_retCode r = SERVER_RETURN_SUCCESS)
                           && sample_isIp (sample_trimmed (round_data r)) = false)
            sample_rounds) as Hrounds by (repeat constructor).
  split; [repeat split; try reflexivity; [lia|exact Hrounds]|].
  destruct (custom_tests_call_once_per_attempt 2000 8000 sample_isIp
              sample_trimmed sample_config_custom 4 0 770
              SERVER_RETURN_NETWORK_ERROR "" sample_rounds constructed
              eq_refl ltac:(lia) eq_refl Hrounds eq_refl)
    as (t1 & out1 & t2 & out2 & Hstart & Hdeliver & Hcalls & Hdelays & Hsignals & _).
  exists t1, out1, t2, out2. auto.
Defined.

Lemma growing_timeouts_are_sorted_and_capped_witness :
  ((0 < 2000)%Z /\ (0 <= 2)%Z /\ (8000 = 2000 * 2 ^ 2)%Z)
  /\ growingTimeouts 8000 5 2000 = [2000; 4000; 8000; 8000; 8000]%Z
  /\ StronglySorted Z.le (growingTimeouts 8000 5 2000)
  /\ Forall (fun timeout => (2000 <= timeout <= 8000)%Z)
       (growingTimeouts 8000 5 2000).
Proof.
  split; [repeat split; try reflexivity; lia|]. split; [reflexivity|].
  destruct (growing_timeouts_are_sorted_and_capped 2000 8000 2 5)
    as (_ & Hsorted & Hbounds & _); try reflexivity; try lia.
  by split.
Defined.

Lemma delayed_start_survives_stopTests_witness :
  (getTunnelTestStartDelay sample_config_delayed = Some 500%Z
   /\ forall attempts,
        getTunnelTestAttempts sample_config_delayed = Some attempts ->
        (1 <= attempts)%Z)
  /\ exists t1 t2,
       startTests 2000 8000 sample_config_delayed 0 WIREGUARD sample_started
       = Some (t1, [cancelPingTest 1; singleShot 500 slot_startTestImpl])
       /\ stopTests t1 = (t1, [])
       /\ deliver 2000 8000 sample_isIp sample_trimmed sample_config_delayed t1
            [timerShot 500 slot_startTestImpl]
          = Some (t2, [pingTest 2 2000])
       /\ bRunning_ t2 = true.
Proof.
  assert (forall attempts,
            getTunnelTestAttempts sample_config_delayed = Some attempts ->
            (1 <= attempts)%Z) as Hattempts by (intros attempts; discriminate).
  split; [split; [reflexivity|exact Hattempts]|].
  destruct (delayed_start_survives_stopTests 2000 8000 sample_isIp sample_trimmed
              sample_config_delayed 500 0 WIREGUARD sample_started
              eq_refl Hattempts)
    as (t1 & out1 & t2 & timeout & Hstart & _ & _ & _ & Hstop & Hfire & Hrun & _).
  vm_compute in Hstart. injection Hstart as <- <-.
  vm_compute in Hfire. injection Hfire as <- <-.
  eexists _, _. repeat split.
Defined.
Lemma early_failure_retries_within_attempt_witness :
  (bRunning_ sample_started = true
   /\ doCustomTunnelTest_ sample_started = false
   /\ (1 <= curTest_ sample_started)%Z
   /\ timeouts_ sample_started !! Z.to_nat (curTest_ sample_started - 1)
      = Some 2000%Z
   /\ (1950 - elapsed_ sample_started < 2000)%Z)
  /\ exists t2,
       deliver 2000 8000 sample_isIp sample_trimmed noExtraConfig sample_started
         [pingTestAnswer 1950 SERVER_RETURN_NETWORK_ERROR "";
          timerShot 2050 slot_doNextPingTest]
       = Some (t2, [singleShot 100 slot_doNextPingTest; pingTest 2 100])
       /\ curTest_ t2 = 1%Z.
Proof.
  split; [repeat split; try reflexivity; lia|].
  destruct (early_failure_retries_within_attempt 2000 8000 sample_isIp
              sample_trimmed noExtraConfig 1950 2050
              SERVER_RETURN_NETWORK_ERROR "" sample_started 2000
              eq_refl eq_refl eq_refl ltac:(cbn; lia) eq_refl ltac:(cbn; lia))
    as (t1 & t2 & retryTimeout & Hreply & -> & Htimer & _ & Hcur & _ & _ & _ & Hfloor).
  rewrite (Hfloor ltac:(cbn; lia)) in Htimer.
  exists t2. split; [|exact Hcur].
  cbn [deliver]. rewrite Hreply. cbn [mbind option_bind].
  rewrite Htimer. reflexivity.
Defined.

End TunnelTestWitnesses.

(** * Properties of the cleanup of connections left over *)

Section CleanupFacts.
Import FinishActiveConnections.

Lemma substring_whole s : String.substring 0 (String.length s) s = s.
Proof. induction s as [|c s IH]; simpl; [reflexivity|by f_equal]. Qed.

Lemma substring_append_suffix a b :
  String.substring (String.length a) (String.length b) (a +:+ b) = b.
Proof. induction a as [|c a IH]; simpl; [apply substring_whole|exact IH]. Qed.

Lemma string_length_append a b :
  String.length (a +:+ b) = String.length a + String.length b.
Proof. induction a as [|c a IH]; simpl; [reflexivity|by f_equal]. Qed.

Lemma endsWith_append suffix s : endsWith suffix (s +:+ suffix) = true.
Proof.
  unfold endsWith. rewrite string_length_append.
  replace (String.length s + String.length suffix - String.length suffix)
    with (String.length s) by lia.
  rewrite substring_append_suffix, String.eqb_refl, andb_true_r.
  apply Nat.leb_le. lia.
Qed.

Lemma killed_app calls1 calls2 :
  killed (calls1 ++ calls2) = killed calls1 ++ killed calls2.
Proof.
  induction calls1 as [|c calls1 IH]; [reflexivity|].
  destruct c; cbn [app killed]; by rewrite ?IH.
Qed.

Lemma killed_executeTaskKill exes : killed (map executeTaskKill exes) = exes.
Proof. induction exes as [|e exes IH]; cbn; [reflexivity|by rewrite IH]. Qed.

Lemma killed_ikev2 v : killed (finishIkev2ActiveConnections_win v) = [].
Proof.
  unfold finishIkev2ActiveConnections_win. destruct v as [|h v]; [reflexivity|].
  rewrite killed_app. cbn [killed app]. rewrite app_nil_r.
  generalize (h :: v). intros l. induction l as [|x l IH]; [reflexivity|exact IH].
Qed.

(** X27: the WireGuard executable. Whatever name the WireGuard executable goes
    by, the Windows cleanup kills it under a name that ends in [.exe], the
    name itself if it ends so already and the name with [.exe] appended
    otherwise, and then stops WireGuard; a second pass with the name it has
    killed makes the same calls.  With the name [getWireGuardExeName] gives,
    the cleanup kills the OpenVPN executables in their order and last
    [WireguardService.exe], stops WireGuard as its last call, and switches the
    DNS leak protection off exactly when an IKEv2 connection was active. *)
Theorem wireguard_service_killed_by_exe_name wireGuardExeName exes v :
  (exists exe,
     finishWireGuardActiveConnections_win wireGuardExeName
     = [executeTaskKill exe; stopWireGuard]
     /\ endsWith ".exe" exe = true
     /\ exe = (if endsWith ".exe" wireGuardExeName
               then wireGuardExeName else wireGuardExeName +:+ ".exe")
     /\ finishWireGuardActiveConnections_win exe
        = finishWireGuardActiveConnections_win wireGuardExeName)
  /\ killed (finishAllActiveConnections_win exes v)
     = exes ++ ["WireguardService.exe"]
  /\ last (finishAllActiveConnections_win exes v) = Some stopWireGuard
  /\ length (List.filter is_stopWireGuard (finishAllActiveConnections_win exes v))
     = 1
  /\ (disableDnsLeaksProtection ∈ finishAllActiveConnections_win exes v
      <-> v ≠ []).
Proof.
  split; [|split; [|split; [|split]]].
  - unfold finishWireGuardActiveConnections_win.
    destruct (endsWith ".exe" wireGuardExeName) eqn:Hends; cbn [negb].
    + exists wireGuardExeName. rewrite Hends. by cbn [negb].
    + exists (wireGuardExeName +:+ ".exe").
      rewrite endsWith_append. by cbn [negb].
  - unfold finishAllActiveConnections_win, finishOpenVpnActiveConnections_win.
    rewrite !killed_app, killed_executeTaskKill, killed_ikev2. reflexivity.
  - unfold finishAllActiveConnections_win. rewrite !app_assoc.
    change (finishWireGuardActiveConnections_win WireGuardConnection.getWireGuardExeName)
      with ([executeTaskKill "WireguardService.exe"] ++ [stopWireGuard]).
    rewrite app_assoc. apply last_snoc.
  - unfold finishAllActiveConnections_win, finishOpenVpnActiveConnections_win,
      finishIkev2ActiveConnections_win.
    rewrite !List.filter_app, !length_app.
    assert (forall l, List.filter is_stopWireGuard (map executeTaskKill l) = [])
      as Hkills by (intros l; induction l; [reflexivity|exact IHl]).
    assert (forall l, List.filter is_stopWireGuard (map blockingDisconnect l) = [])
      as Hdisconnects by (intros l; induction l; [reflexivity|exact IHl]).
    rewrite Hkills. destruct v as [|h v]; [reflexivity|].
    rewrite List.filter_app, Hdisconnects. reflexivity.
  - unfold finishAllActiveConnections_win, finishOpenVpnActiveConnections_win,
      finishIkev2ActiveConnections_win.
    rewrite !elem_of_app. split.
    + intros [Hin|[Hin|Hin]].
      * apply list_elem_of_fmap in Hin as (e & Heq & _). discriminate.
      * destruct v; [by apply elem_of_nil in Hin|discriminate].
      * vm_compute in Hin. apply elem_of_cons in Hin as [Heq|Hin]; [discriminate|].
        apply elem_of_cons in Hin as [Heq|Hin]; [discriminate|].
        by apply elem_of_nil in Hin.
    + intros Hactive. right. left. destruct v as [|h v]; [done|].
      apply elem_of_app. right. apply list_elem_of_here.
Qed.

End CleanupFacts.
